(** * BTX Welcome Packet Generator: a shallow embedding of [app.py]

    The development follows the layout of the Python module:

    - Python values as the CRM's JSON delivers them, with the handful of
      built-in operations the module applies to them (truth value,
      [dict.get], subscripting, [str.strip], [str.replace], f-string
      formatting, [strftime]);
    - the effects of the module (HTTP calls of [requests], widgets of
      Streamlit, the clock, the PDF library) as a reader/state/exception
      monad over an explicit environment and an explicit log;
    - [HubSpotClient], [fill_btx_welcome_packet] and the generate action of
      [main_app], line by line;
    - the properties of the specification, stated on these definitions. *)

From Stdlib Require Import ZArith String Ascii List Lia.
From stdpp Require Import base option gmap strings pretty.
Import ListNotations.

Set Warnings "-register-all".
Local Open Scope string_scope.
Local Open Scope Z_scope.

(* ===================================================================== *)
(** ** Python values *)
(* ===================================================================== *)

(** What [response.json()] produces: [None], [bool], [int], [str], [list]
    and [dict] with string keys.  Floating-point numbers are left out.  A
    [str] is kept as its UTF-8 text, the way string literals are read in
    this file. *)
Inductive json : Type :=
| JNull
| JBool (b : bool)
| JInt (n : Z)
| JStr (s : string)
| JArr (l : list json)
| JObj (m : gmap string json).

(** The exceptions that travel through [main_app].  Only one distinction
    matters to its handlers: [requests.exceptions.HTTPError], which carries
    the response, against every other [Exception]. *)
Inductive pyexn : Type :=
| HTTPError (status_code : Z) (text : string)
| RequestException (msg : string)
| KeyError (key : string)
| IndexError
| TypeError
| AttributeError (attr : string)
| OSError (msg : string)
| PdfError (msg : string).

Inductive py_result (A : Type) : Type :=
| Ok (a : A)
| Raise (e : pyexn).
Arguments Ok {A} a.
Arguments Raise {A} e.

(** [bool(v)], as taken by [if v:] and [if not v:]. *)
Definition truthy (v : json) : bool :=
  match v with
  | JNull => false
  | JBool b => b
  | JInt n => negb (n =? 0)
  | JStr s => negb (String.eqb s "")
  | JArr l => match l with [] => false | _ :: _ => true end
  | JObj m => negb (bool_decide (m = ∅))
  end.

(** [v.get(key, dflt)]: only a [dict] has the method. *)
Definition py_get (v : json) (key : string) (dflt : json) : py_result json :=
  match v with
  | JObj m => Ok (default dflt (m !! key))
  | _ => Raise (AttributeError "get")
  end.

(** The first character of a UTF-8 text: the lead byte tells how many
    bytes the character takes. *)
Definition utf8_width (c : ascii) : nat :=
  let n := N_of_ascii c in
  if (n <? 192)%N then 1%nat
  else if (n <? 224)%N then 2%nat
  else if (n <? 240)%N then 3%nat
  else 4%nat.

Definition utf8_head (s : string) : string :=
  match s with
  | EmptyString => EmptyString
  | String c _ => substring 0 (utf8_width c) s
  end.

(** [v[key]] with a [str] key. *)
Definition py_getitem (v : json) (key : string) : py_result json :=
  match v with
  | JObj m =>
      match m !! key with
      | Some x => Ok x
      | None => Raise (KeyError key)
      end
  | _ => Raise TypeError
  end.

(** [v[0]].  A JSON [dict] has string keys only, so the integer key is
    never found in one. *)
Definition py_getitem0 (v : json) : py_result json :=
  match v with
  | JArr (x :: _) => Ok x
  | JArr [] => Raise IndexError
  | JStr EmptyString => Raise IndexError
  | JStr s => Ok (JStr (utf8_head s))
  | JObj _ => Raise (KeyError "0")
  | _ => Raise TypeError
  end.

(* ===================================================================== *)
(** ** Strings *)
(* ===================================================================== *)

Definition string_of_bytes (l : list N) : string :=
  fold_right (fun n s => String (ascii_of_N n) s) EmptyString l.

(** The characters [str.strip()] removes, each as its UTF-8 bytes:
    U+0009..U+000D, U+001C..U+0020, U+0085, U+00A0, U+1680,
    U+2000..U+200A, U+2028, U+2029, U+202F, U+205F and U+3000. *)
Definition py_whitespace : list string :=
  map string_of_bytes
    [ [9]; [10]; [11]; [12]; [13]; [28]; [29]; [30]; [31]; [32];
      [194; 133]; [194; 160]; [225; 154; 128];
      [226; 128; 128]; [226; 128; 129]; [226; 128; 130]; [226; 128; 131];
      [226; 128; 132]; [226; 128; 133]; [226; 128; 134]; [226; 128; 135];
      [226; 128; 136]; [226; 128; 137]; [226; 128; 138];
      [226; 128; 168]; [226; 128; 169]; [226; 128; 175];
      [226; 129; 159]; [227; 128; 128] ]%N.

(** [Some rest] when [p] starts [s]. *)
Fixpoint after_prefix (p s : string) : option string :=
  match p, s with
  | EmptyString, _ => Some s
  | String a p', String b s' =>
      if Ascii.eqb a b then after_prefix p' s' else None
  | String _ _, EmptyString => None
  end.

Fixpoint drop_one (ws : list string) (s : string) : option string :=
  match ws with
  | [] => None
  | w :: ws' =>
      match after_prefix w s with
      | Some s' => Some s'
      | None => drop_one ws' s
      end
  end.

Fixpoint drop_leading (ws : list string) (fuel : nat) (s : string) : string :=
  match fuel with
  | O => s
  | S fuel' =>
      match drop_one ws s with
      | Some s' => drop_leading ws fuel' s'
      | None => s
      end
  end.

Fixpoint string_rev (s : string) : string :=
  match s with
  | EmptyString => EmptyString
  | String c s' => string_rev s' ++ String c EmptyString
  end.

Definition py_lstrip (s : string) : string :=
  drop_leading py_whitespace (String.length s) s.

Definition py_rstrip (s : string) : string :=
  string_rev
    (drop_leading (map string_rev py_whitespace) (String.length s)
       (string_rev s)).

(** [s.strip()] *)
Definition py_strip (s : string) : string := py_rstrip (py_lstrip s).

(** [s.replace(old, new)] for a non-empty [old]: the occurrences are taken
    from the left and do not overlap.  [skip] counts the characters of an
    occurrence still to be passed over. *)
Fixpoint replace_from (old new : string) (skip : nat) (s : string) : string :=
  match s with
  | EmptyString => EmptyString
  | String c s' =>
      match skip with
      | S k => replace_from old new k s'
      | O =>
          match after_prefix old s with
          | Some _ => new ++ replace_from old new (String.length old - 1) s'
          | None => String c (replace_from old new 0 s')
          end
      end
  end.

Definition py_replace (old new s : string) : string :=
  replace_from old new 0 s.

(** Left padding with zeros, as [%d], [%m] and [%Y] of [strftime] do. *)
Fixpoint zeros (n : nat) : string :=
  match n with
  | O => EmptyString
  | S n' => String "0" (zeros n')
  end.

Definition zero_pad (width : nat) (n : Z) : string :=
  let s := pretty n in
  zeros (width - String.length s) ++ s.

(* ===================================================================== *)
(** ** The clock *)
(* ===================================================================== *)

Inductive month : Type :=
| January | February | March | April | May | June
| July | August | September | October | November | December.

(** What [datetime.now()] gives, as far as the two format strings of the
    module look at it.  The year of a clock has four digits; for such a
    year [%Y] prints the same on every platform. *)
Record datetime : Type := { year : Z; mon : month; day : Z }.

(** [%B] *)
Definition month_name (m : month) : string :=
  match m with
  | January => "January" | February => "February" | March => "March"
  | April => "April" | May => "May" | June => "June"
  | July => "July" | August => "August" | September => "September"
  | October => "October" | November => "November" | December => "December"
  end.

(** [%m], before padding *)
Definition month_number (m : month) : Z :=
  match m with
  | January => 1 | February => 2 | March => 3
  | April => 4 | May => 5 | June => 6
  | July => 7 | August => 8 | September => 9
  | October => 10 | November => 11 | December => 12
  end.

(** [d.strftime("%B %d, %Y")] *)
Definition strftime_B_d_Y (d : datetime) : string :=
  month_name (mon d) ++ " " ++ zero_pad 2 (day d) ++ ", "
  ++ zero_pad 4 (year d).

(** [d.strftime('%Y%m%d')] *)
Definition strftime_Ymd (d : datetime) : string :=
  zero_pad 4 (year d) ++ zero_pad 2 (month_number (mon d))
  ++ zero_pad 2 (day d).

(* ===================================================================== *)
(** ** The environment of the module *)
(* ===================================================================== *)

Definition bytes : Type := list Byte.byte.

(** The outcome of a call into a library that either returns or raises an
    exception of its own, described by its message. *)
Inductive lib_result (A : Type) : Type :=
| Returned (a : A)
| Failed (msg : string).
Arguments Returned {A} a.
Arguments Failed {A} msg.

Inductive http_method : Type := GET | POST.

(** A call of [requests.get] or [requests.post]. *)
Record request : Type := {
  req_method : http_method;
  req_url : string;
  req_headers : list (string * string);
  req_params : list (string * string);
  req_json : option json
}.

(** A [requests.Response]: the status, the raw text, and the value of
    [.json()] when the text is JSON. *)
Record response : Type := {
  status_code : Z;
  text : string;
  json_value : option json
}.

(** The PDF library, by the five calls [fill_btx_welcome_packet] makes.
    What happens inside is the library's business. *)
Record PdfLibrary : Type := {
  pdf_reader : Type;
  pdf_writer : Type;
  pdf_page : Type;
  PdfReader : bytes -> lib_result pdf_reader;
  clone_document_from_reader : pdf_reader -> lib_result pdf_writer;
  pages : pdf_writer -> list pdf_page;
  update_page_form_field_values :
    pdf_writer -> pdf_page -> gmap string json -> lib_result pdf_writer;
  write : pdf_writer -> lib_result bytes
}.

(** Everything outside the module that a run depends on. *)
Record Env : Type := {
  (** the CRM behind [requests]: a response, or a transport failure *)
  http : request -> lib_result response;
  (** the value of the n-th call of [datetime.now()] *)
  now : nat -> datetime;
  pdf : PdfLibrary;
  (** [str(v)] of a [list] or a [dict] *)
  repr_container : json -> string;
  (** [str(e)] of an exception *)
  str_exn : pyexn -> string
}.

(** The value an f-string puts in place of [{v}]. *)
Definition py_str (E : Env) (v : json) : string :=
  match v with
  | JNull => "None"
  | JBool true => "True"
  | JBool false => "False"
  | JInt n => pretty n
  | JStr s => s
  | JArr _ | JObj _ => repr_container E v
  end.

(** The presentational blocks of the success path. *)
Inductive markdown_block : Type :=
| FilledInformationHeading
| HorizontalRule
| SuccessBox.

(** What a run shows to the user, in order. *)
Inductive ui_event : Type :=
| st_error (msg : string)
| st_info (msg : string)
| st_success (msg : string)
| st_warning (msg : string)
| st_metric (label : string) (value : json)
| st_markdown (block : markdown_block)
| st_download_button (label : string) (data : bytes) (file_name : string)
    (mime : string).

(** The log of a run: the widgets shown, the HTTP calls made with what came
    back, and the number of clock reads. *)
Record world : Type := {
  ui : list ui_event;
  calls : list (request * lib_result response);
  clock_reads : nat
}.

Definition initial_world : world :=
  {| ui := []; calls := []; clock_reads := 0 |}.

(* ===================================================================== *)
(** ** The monad of the module *)
(* ===================================================================== *)

Definition M (A : Type) : Type := Env -> world -> py_result A * world.

Definition ret {A} (a : A) : M A := fun _ w => (Ok a, w).

Definition raise {A} (e : pyexn) : M A := fun _ w => (Raise e, w).

Definition bind {A B} (m : M A) (k : A -> M B) : M B :=
  fun E w =>
    match m E w with
    | (Ok a, w') => k a E w'
    | (Raise e, w') => (Raise e, w')
    end.

Declare Scope py_scope.
Delimit Scope py_scope with py.
Notation "x <- m ;; k" := (bind m (fun x => k))
  (at level 100, m at next level, right associativity) : py_scope.
Notation "m ;; k" := (bind m (fun _ => k))
  (at level 100, right associativity) : py_scope.
Local Open Scope py_scope.

Definition lift {A} (r : py_result A) : M A := fun _ w => (r, w).

Definition ask : M Env := fun E w => (Ok E, w).

Definition add_ui (ev : ui_event) (w : world) : world :=
  {| ui := ui w ++ [ev]; calls := calls w; clock_reads := clock_reads w |}.

Definition add_call (c : request * lib_result response) (w : world) : world :=
  {| ui := ui w; calls := calls w ++ [c]; clock_reads := clock_reads w |}.

Definition tick (w : world) : world :=
  {| ui := ui w; calls := calls w; clock_reads := S (clock_reads w) |}.

(** A Streamlit widget call appends to what is shown. *)
Definition show (ev : ui_event) : M unit :=
  fun _ w => (Ok tt, add_ui ev w).

(** [datetime.now()] *)
Definition datetime_now : M datetime :=
  fun E w => (Ok (now E (clock_reads w)), tick w).

(** [requests.get(...)] and [requests.post(...)]: the call is logged with
    what came back. *)
Definition requests_send (rq : request) : M response :=
  fun E w =>
    let out := http E rq in
    match out with
    | Returned r => (Ok r, add_call (rq, out) w)
    | Failed msg => (Raise (RequestException msg), add_call (rq, out) w)
    end.

(** [response.raise_for_status()]: the 4xx and 5xx statuses raise. *)
Definition raise_for_status (r : response) : M unit :=
  if (400 <=? status_code r) && (status_code r <? 600)
  then raise (HTTPError (status_code r) (text r))
  else ret tt.

(** [response.json()] *)
Definition response_json (r : response) : M json :=
  match json_value r with
  | Some v => ret v
  | None => raise (RequestException "JSONDecodeError")
  end.

(** A call into the PDF library. *)
Definition pdf_call {A} (r : lib_result A) : M A :=
  match r with
  | Returned a => ret a
  | Failed msg => raise (PdfError msg)
  end.

(** [try: m except Exception as e: h e] *)
Definition try_except {A} (m : M A) (h : pyexn -> M A) : M A :=
  fun E w =>
    match m E w with
    | (Ok a, w') => (Ok a, w')
    | (Raise e, w') => h e E w'
    end.

(* ===================================================================== *)
(** ** [class HubSpotClient] *)
(* ===================================================================== *)

Record HubSpotClient : Type := {
  api_key : string;
  base_url : string;
  headers : list (string * string)
}.

(** [HubSpotClient.__init__] *)
Definition HubSpotClient_init (key : string) : HubSpotClient :=
  {| api_key := key;
     base_url := "https://api.hubapi.com";
     headers := [("Authorization", "Bearer " ++ key);
                 ("Content-Type", "application/json")] |}.

(** The request [get_company_by_id] sends. *)
Definition company_by_id_request (self : HubSpotClient) (E : Env)
    (company_id : json) : request :=
  {| req_method := GET;
     req_url := base_url self ++ "/crm/v3/objects/companies/"
                ++ py_str E company_id;
     req_headers := headers self;
     req_params := [("properties", "name,btx_customer__")];
     req_json := None |}.

Definition get_company_by_id (self : HubSpotClient) (company_id : json)
    : M json :=
  E <- ask;;
  response <- requests_send (company_by_id_request self E company_id);;
  raise_for_status response;;
  response_json response.

(** The request [get_contact_by_id] sends. *)
Definition contact_by_id_request (self : HubSpotClient) (E : Env)
    (contact_id : json) : request :=
  {| req_method := GET;
     req_url := base_url self ++ "/crm/v3/objects/contacts/"
                ++ py_str E contact_id;
     req_headers := headers self;
     req_params := [("properties", "firstname,lastname,email")];
     req_json := None |}.

Definition get_contact_by_id (self : HubSpotClient) (contact_id : json)
    : M json :=
  E <- ask;;
  response <- requests_send (contact_by_id_request self E contact_id);;
  raise_for_status response;;
  response_json response.

(** The request [get_company_contacts] sends first. *)
Definition associations_request (self : HubSpotClient) (E : Env)
    (company_id : json) : request :=
  {| req_method := GET;
     req_url := base_url self ++ "/crm/v4/objects/companies/"
                ++ py_str E company_id ++ "/associations/contacts";
     req_headers := headers self;
     req_params := [];
     req_json := None |}.

Definition get_company_contacts (self : HubSpotClient) (company_id : json)
    : M json :=
  E <- ask;;
  response <- requests_send (associations_request self E company_id);;
  raise_for_status response;;
  associations <- response_json response;;
  found <- lift (py_get associations "results" JNull);;
  if truthy found then
    results <- lift (py_getitem associations "results");;
    first <- lift (py_getitem0 results);;
    contact_id <- lift (py_getitem first "toObjectId");;
    get_contact_by_id self contact_id
  else ret JNull.

(** The body [search_company_by_name] posts. *)
Definition search_payload (company_name : string) : json :=
  JObj {[
    "filterGroups" := JArr [
      JObj {[ "filters" := JArr [
        JObj {[ "propertyName" := JStr "name";
                "operator" := JStr "CONTAINS_TOKEN";
                "value" := JStr company_name ]} ] ]} ];
    "properties" := JArr [JStr "name"; JStr "btx_customer__"]
  ]}.

Definition search_request (self : HubSpotClient) (company_name : string)
    : request :=
  {| req_method := POST;
     req_url := base_url self ++ "/crm/v3/objects/companies/search";
     req_headers := headers self;
     req_params := [];
     req_json := Some (search_payload company_name) |}.

Definition search_company_by_name (self : HubSpotClient)
    (company_name : string) : M json :=
  response <- requests_send (search_request self company_name);;
  raise_for_status response;;
  results <- response_json response;;
  found <- lift (py_get results "results" JNull);;
  if truthy found then
    matches <- lift (py_getitem results "results");;
    lift (py_getitem0 matches)
  else ret JNull.

(* ===================================================================== *)
(** ** [fill_btx_welcome_packet] *)
(* ===================================================================== *)

(** [writer.pages[0]] *)
Definition first_page {A} (l : list A) : M A :=
  match l with
  | p :: _ => ret p
  | [] => raise IndexError
  end.

(** Lines 177-184: the account team is the name of the contact. *)
Definition account_team_of (contact_data : json) : M string :=
  E <- ask;;
  if truthy contact_data then
    contact_props <- lift (py_get contact_data "properties" (JObj ∅));;
    firstname <- lift (py_get contact_props "firstname" (JStr ""));;
    lastname <- lift (py_get contact_props "lastname" (JStr ""));;
    let account_team :=
      py_strip (py_str E firstname ++ " " ++ py_str E lastname) in
    if String.eqb account_team "" then ret "N/A" else ret account_team
  else ret "N/A".

Definition fill_btx_welcome_packet (template_file : bytes)
    (company_data contact_data : json) : M (bytes * gmap string json) :=
  E <- ask;;
  props <- lift (py_get company_data "properties" (JObj ∅));;
  company_name <- lift (py_get props "name" (JStr "N/A"));;
  customer_number <- lift (py_get props "btx_customer__" (JStr "N/A"));;
  account_team <- account_team_of contact_data;;
  today <- datetime_now;;
  let current_date := strftime_B_d_Y today in
  let field_values : gmap string json :=
    {[ "Text1" := company_name;
       "Text2" := customer_number;
       "Text3" := JStr account_team;
       "Text4" := JStr current_date ]} in
  reader <- pdf_call (PdfReader (pdf E) template_file);;
  writer <- pdf_call (clone_document_from_reader (pdf E) reader);;
  page <- first_page (pages (pdf E) writer);;
  writer <- pdf_call
    (update_page_form_field_values (pdf E) writer page field_values);;
  output <- pdf_call (write (pdf E) writer);;
  ret (output, field_values).

(* ===================================================================== *)
(** ** [main_app] *)
(* ===================================================================== *)

Inductive search_choice : Type := SearchByName | UseCompanyID.

(** What the widgets hand to one run of [main_app].  [default_template] is
    [None] when the default template file does not exist, and otherwise
    what opening and reading it gives. *)
Record inputs : Type := {
  in_api_key : string;
  uploaded_template : option bytes;
  default_template : option (lib_result bytes);
  search_method : search_choice;
  company_input : string;
  generate_button : bool
}.

(** [st.metric(label, value)]: a [list] or a [dict] is not a value it
    displays. *)
Definition metric (label : string) (value : json) : M unit :=
  match value with
  | JArr _ | JObj _ => raise TypeError
  | _ => show (st_metric label value)
  end.

(** [company_name.replace(' ', '_')]: only a [str] has the method. *)
Definition replace_spaces (company_name : json) : M string :=
  match company_name with
  | JStr s => ret (py_replace " " "_" s)
  | _ => raise (AttributeError "replace")
  end.

(** The template handed to the filler (lines 347-351): the uploaded one,
    or what reading the default file gives. *)
Definition template_to_use (inp : inputs) : py_result bytes :=
  match uploaded_template inp with
  | Some b => Ok b
  | None =>
      match default_template inp with
      | Some (Returned b) => Ok b
      | Some (Failed msg) => Raise (OSError msg)
      | None => Raise (OSError "FileNotFoundError")
      end
  end.

(** Lines 330-388: from the company record to the download button. *)
Definition generate_packet (inp : inputs) (client : HubSpotClient)
    (company_id company_data : json) : M unit :=
  E <- ask;;
  properties <- lift (py_getitem company_data "properties");;
  company_name <- lift (py_getitem properties "name");;
  show (st_success ("✅ Found company: " ++ py_str E company_name));;
  show (st_info "🔍 Fetching account team information...");;
  contact_data <- get_company_contacts client company_id;;
  (if truthy contact_data then
     contact_props <- lift (py_getitem contact_data "properties");;
     firstname <- lift (py_get contact_props "firstname" (JStr ""));;
     lastname <- lift (py_get contact_props "lastname" (JStr ""));;
     let contact_name :=
       py_strip (py_str E firstname ++ " " ++ py_str E lastname) in
     show (st_success ("✅ Found account team: " ++ contact_name))
   else show (st_warning "⚠️ No contact associated with this company"));;
  show (st_info "📝 Filling PDF form...");;
  template <- lift (template_to_use inp);;
  filled <- fill_btx_welcome_packet template company_data contact_data;;
  let '(pdf_output, field_values) := filled in
  show (st_markdown FilledInformationHeading);;
  text1 <- lift (py_getitem (JObj field_values) "Text1");;
  metric "Company" text1;;
  text2 <- lift (py_getitem (JObj field_values) "Text2");;
  metric "Customer #" text2;;
  text3 <- lift (py_getitem (JObj field_values) "Text3");;
  metric "Account Team" text3;;
  text4 <- lift (py_getitem (JObj field_values) "Text4");;
  metric "Date" text4;;
  underscored <- replace_spaces company_name;;
  today <- datetime_now;;
  let filename :=
    "BTX_Welcome_Packet_" ++ underscored ++ "_" ++ strftime_Ymd today
    ++ ".pdf" in
  show (st_markdown HorizontalRule);;
  show (st_download_button "⬇️ Download Welcome Packet" pdf_output filename
          "application/pdf");;
  show (st_markdown SuccessBox).

(** Lines 313-388: the body of the [try]. *)
Definition fetch_and_generate (inp : inputs) : M unit :=
  let client := HubSpotClient_init (in_api_key inp) in
  match search_method inp with
  | SearchByName =>
      show (st_info ("🔍 Searching for '" ++ company_input inp ++ "'..."));;
      company_data <- search_company_by_name client (company_input inp);;
      if negb (truthy company_data) then
        show (st_error ("❌ No company found with name: "
                        ++ company_input inp));;
        show (st_info "💡 Try using the HubSpot Company ID instead")
      else
        company_id <- lift (py_getitem company_data "id");;
        generate_packet inp client company_id company_data
  | UseCompanyID =>
      let company_id := JStr (company_input inp) in
      company_data <- get_company_by_id client company_id;;
      generate_packet inp client company_id company_data
  end.

(** Lines 390-405: the two [except] clauses. *)
Definition on_exception (inp : inputs) (e : pyexn) : M unit :=
  E <- ask;;
  match e with
  | HTTPError status body =>
      if status =? 401 then
        show (st_error "❌ Authentication Error");;
        show (st_error "Your HubSpot API key is invalid or has expired.");;
        show (st_info "Please check your API key in the sidebar.")
      else if status =? 404 then
        show (st_error "❌ Not Found");;
        show (st_error ("Company or contact not found for: "
                        ++ company_input inp))
      else
        show (st_error ("❌ HubSpot API Error: " ++ str_exn E e));;
        show (st_error ("Details: " ++ body))
  | _ =>
      show (st_error "❌ Unexpected Error");;
      show (st_error (str_exn E e));;
      show (st_info "Please check your inputs and try again.")
  end.

(** The main column of [main_app] from line 249 on.  The header, the
    sidebar, the input widgets and the footer are not part of the log; the
    getting-started box of a run without API key is not either. *)
Definition main_app (inp : inputs) : M unit :=
  if String.eqb (in_api_key inp) "" then ret tt
  else
    match uploaded_template inp, default_template inp with
    | None, None =>
        show (st_error
          "❌ No PDF template found. Please upload a template in the sidebar.")
    | _, _ =>
        if generate_button inp then
          if String.eqb (company_input inp) "" then
            show (st_error "❌ Please enter a company name or ID")
          else try_except (fetch_and_generate inp) (on_exception inp)
        else ret tt
    end.

(* ===================================================================== *)
(** ** The vocabulary of the specification *)
(* ===================================================================== *)

Definition is_download (ev : ui_event) : bool :=
  match ev with st_download_button _ _ _ _ => true | _ => false end.

Definition is_error (ev : ui_event) : bool :=
  match ev with st_error _ => true | _ => false end.

(** [Ready]: a download is offered.  Which bytes under which name is said
    where a run gets there. *)
Definition Ready (w : world) : bool := existsb is_download (ui w).

(** [Failed]: nothing is offered and an error is shown. *)
Definition Failed_state (w : world) : bool :=
  negb (Ready w) && existsb is_error (ui w).

(** The three messages of the 401 clause. *)
Definition invalid_api_key_message : list ui_event :=
  [ st_error "❌ Authentication Error";
    st_error "Your HubSpot API key is invalid or has expired.";
    st_info "Please check your API key in the sidebar." ].

(** The two messages of the 404 clause. *)
Definition not_found_message (inp : inputs) : list ui_event :=
  [ st_error "❌ Not Found";
    st_error ("Company or contact not found for: " ++ company_input inp) ].

(** The three messages of the catch-all clause. *)
Definition unexpected_error_message (E : Env) (e : pyexn) : list ui_event :=
  [ st_error "❌ Unexpected Error";
    st_error (str_exn E e);
    st_info "Please check your inputs and try again." ].

(** The messages of a name search without match. *)
Definition no_company_found_message (inp : inputs) : list ui_event :=
  [ st_error ("❌ No company found with name: " ++ company_input inp);
    st_info "💡 Try using the HubSpot Company ID instead" ].

Definition is_http_error (e : pyexn) : bool :=
  match e with HTTPError _ _ => true | _ => false end.

Definition answered_401 (c : request * lib_result response) : bool :=
  match snd c with
  | Returned r => status_code r =? 401
  | Failed _ => false
  end.

(** [accountTeamName] in the words of the specification: the trimmed
    "first last" of the contact, ["N/A"] without contact or when nothing is
    left after trimming. *)
Definition accountTeamName (contact : option (string * string)) : string :=
  match contact with
  | None => "N/A"
  | Some (first, last) =>
      let full := py_strip (first ++ " " ++ last) in
      if String.eqb full "" then "N/A" else full
  end.

(** The text a name property contributes to the f-string of line 182:
    nothing when the key is absent, and otherwise the value as the f-string
    renders it, the word [None] for a name the CRM has no value for. *)
Definition name_text (E : Env) (o : option json) : string :=
  match o with
  | None => ""
  | Some v => py_str E v
  end.

(** The two names lines 178-182 put together, for the value the CRM client
    hands over: none when the value counts as false, and otherwise the
    first and the last name of its [properties], each as [name_text] has
    it. *)
Definition contact_record (E : Env) (contact_data : json)
    : option (string * string) :=
  if truthy contact_data then
    match contact_data with
    | JObj c =>
        match default (JObj ∅) (c !! "properties") with
        | JObj p =>
            Some (name_text E (p !! "firstname"),
                  name_text E (p !! "lastname"))
        | _ => None
        end
    | _ => None
    end
  else None.

(** The [properties] of a company record, an empty [dict] when the record
    has none. *)
Definition company_properties (company_data : json)
    : option (gmap string json) :=
  match company_data with
  | JObj c =>
      match default (JObj ∅) (c !! "properties") with
      | JObj p => Some p
      | _ => None
      end
  | _ => None
  end.

(** The name of a company record, when it has one that is a text. *)
Definition company_name_of (company_data : json) : option string :=
  match company_data with
  | JObj c =>
      match c !! "properties" with
      | Some (JObj p) =>
          match p !! "name" with
          | Some (JStr s) => Some s
          | _ => None
          end
      | _ => None
      end
  | _ => None
  end.

(** The company lookup of a run: by name or by id, as chosen. *)
Definition company_lookup (inp : inputs) : M json :=
  match search_method inp with
  | SearchByName =>
      search_company_by_name (HubSpotClient_init (in_api_key inp))
        (company_input inp)
  | UseCompanyID =>
      get_company_by_id (HubSpotClient_init (in_api_key inp))
        (JStr (company_input inp))
  end.

(** [company_data] is a record the company lookup of the run returns. *)
Definition found_company (inp : inputs) (E : Env) (company_data : json)
    : Prop :=
  exists w0 w1, company_lookup inp E w0 = (Ok company_data, w1).

(** Every space replaced by an underscore, character by character. *)
Fixpoint spaces_to_underscores (s : string) : string :=
  match s with
  | EmptyString => EmptyString
  | String c s' =>
      String (if Ascii.eqb c " " then "_"%char else c)
             (spaces_to_underscores s')
  end.

(** A decimal digit. *)
Definition digit (n : Z) : string :=
  String (ascii_of_N (48 + Z.to_N (n mod 10))) EmptyString.

(** [YYYYMMDD], digit by digit. *)
Definition yyyymmdd (d : datetime) : string :=
  digit (year d / 1000) ++ digit (year d / 100) ++ digit (year d / 10)
  ++ digit (year d)
  ++ digit (month_number (mon d) / 10) ++ digit (month_number (mon d))
  ++ digit (day d / 10) ++ digit (day d).

(** The download filename of the specification. *)
Definition packet_file_name (company_name : string) (d : datetime) : string :=
  "BTX_Welcome_Packet_" ++ spaces_to_underscores company_name ++ "_"
  ++ yyyymmdd d ++ ".pdf".

(** A date as a calendar has it, with a year of four digits. *)
Definition calendar_date (d : datetime) : Prop :=
  1000 <= year d <= 9999 /\ 1 <= day d <= 31.

(** *** What a block of statements may do to the log *)

(** The exception a block ended in, if it did. *)
Definition raised {A} (r : py_result A) : option pyexn :=
  match r with
  | Ok _ => None
  | Raise e => Some e
  end.

Definition no_download (evs : list ui_event) : Prop :=
  existsb is_download evs = false.

Definition no_401 (cs : list (request * lib_result response)) : Prop :=
  existsb answered_401 cs = false.

(** No call was answered with 401, unless the block ended in the
    [HTTPError] of that answer. *)
Definition sound_calls (cs : list (request * lib_result response))
    (raised : option pyexn) : Prop :=
  no_401 cs \/ exists body, raised = Some (HTTPError 401 body).

Definition well_named (named : string -> Prop) (ev : ui_event) : Prop :=
  match ev with
  | st_download_button _ _ file_name mime =>
      named file_name /\ mime = "application/pdf"
  | _ => True
  end.

(** [m] can return [a]. *)
Definition returns (E : Env) {A} (m : M A) (a : A) : Prop :=
  exists w w', m E w = (Ok a, w').

(** A block that only appends to the log, offers no download, and answers
    a 401 with its [HTTPError]. *)
Definition plain (E : Env) {A} (m : M A) : Prop :=
  forall w r w', m E w = (r, w') ->
  exists evs cs,
    (ui w' = ui w ++ evs)%list /\ (calls w' = calls w ++ cs)%list
    /\ no_download evs /\ sound_calls cs (raised r).

(** A block that may offer downloads, each of them [named], and none when
    it ends in an exception. *)
Definition behaves (E : Env) (named : string -> Prop) {A} (m : M A) : Prop :=
  forall w r w', m E w = (r, w') ->
  exists evs cs,
    (ui w' = ui w ++ evs)%list /\ (calls w' = calls w ++ cs)%list
    /\ Forall (well_named named) evs
    /\ (raised r <> None -> no_download evs)
    /\ sound_calls cs (raised r).

(** An answer 401 makes [m] end in the [HTTPError] of that answer: the
    [AuthError] of the specification. *)
Definition raises_on_401 (E : Env) {A} (m : M A) : Prop :=
  forall w r w',
    m E w = (r, w') ->
    no_401 (calls w) ->
    existsb answered_401 (calls w') = true ->
    exists body, r = Raise (HTTPError 401 body).

(** *** The generate action as a whole *)

(** The run gets to the [try]: there is an API key and a template, the
    button is pressed and the search text is not empty. *)
Definition generates (inp : inputs) : bool :=
  negb (String.eqb (in_api_key inp) "")
  && (match uploaded_template inp, default_template inp with
      | None, None => false
      | _, _ => true
      end)
  && generate_button inp
  && negb (String.eqb (company_input inp) "").

(** The messages the two [except] clauses show for an exception. *)
Definition exception_message (inp : inputs) (E : Env) (e : pyexn)
    : list ui_event :=
  match e with
  | HTTPError status body =>
      if status =? 401 then invalid_api_key_message
      else if status =? 404 then not_found_message inp
      else [ st_error ("❌ HubSpot API Error: " ++ str_exn E e);
             st_error ("Details: " ++ body) ]
  | _ => unexpected_error_message E e
  end.

Definition add_events (evs : list ui_event) (w : world) : world :=
  {| ui := (ui w ++ evs)%list; calls := calls w;
     clock_reads := clock_reads w |}.

(** The download is the packet of a company the lookup of the run found,
    under the filename of the specification. *)
Definition packet_of_found_company (inp : inputs) (E : Env) (f : string)
    : Prop :=
  exists company_data name n,
    found_company inp E company_data
    /\ company_name_of company_data = Some name
    /\ f = packet_file_name name (now E n).

(** The world in which the company lookup of a run starts. *)
Definition lookup_start (inp : inputs) (w : world) : world :=
  match search_method inp with
  | SearchByName =>
      add_ui (st_info ("🔍 Searching for '" ++ company_input inp ++ "'..."))
        w
  | UseCompanyID => w
  end.

(** The company id the contact lookup of a run is made with. *)
Definition company_id_of (inp : inputs) (company_data : json)
    : py_result json :=
  match search_method inp with
  | SearchByName => py_getitem company_data "id"
  | UseCompanyID => Ok (JStr (company_input inp))
  end.

(** The customer-number field of a company record. *)
Definition customer_number_of (company_data : json) : option json :=
  match company_properties company_data with
  | Some p => Some (default (JStr "N/A") (p !! "btx_customer__"))
  | None => None
  end.

(** What a run shows from the contact lookup on when there is no contact
    and the fill goes through. *)
Definition shown_without_contact (company_name : string)
    (customer_number : json) (fill_date : datetime) (pdf_output : bytes)
    (file_name : string) : list ui_event :=
  [ st_warning "⚠️ No contact associated with this company";
    st_info "📝 Filling PDF form...";
    st_markdown FilledInformationHeading;
    st_metric "Company" (JStr company_name);
    st_metric "Customer #" customer_number;
    st_metric "Account Team" (JStr "N/A");
    st_metric "Date" (JStr (strftime_B_d_Y fill_date));
    st_markdown HorizontalRule;
    st_download_button "⬇️ Download Welcome Packet" pdf_output file_name
      "application/pdf";
    st_markdown SuccessBox ].

(** A response [raise_for_status] lets pass. *)
Definition accepted (r : response) : bool :=
  negb ((400 <=? status_code r) && (status_code r <? 600)).

(** A value [st.metric] displays. *)
Definition displayable (v : json) : Prop :=
  match v with
  | JArr _ | JObj _ => False
  | _ => True
  end.


(** The PDF library fills the template, whatever the field values, and
    writes [out] of them. *)
Definition library_fills (E : Env) (b : bytes)
    (out : gmap string json -> bytes) : Prop :=
  exists reader writer page rest,
    PdfReader (pdf E) b = Returned reader
    /\ clone_document_from_reader (pdf E) reader = Returned writer
    /\ pages (pdf E) writer = page :: rest
    /\ forall fv, exists writer',
         update_page_form_field_values (pdf E) writer page fv
         = Returned writer'
         /\ write (pdf E) writer' = Returned (out fv).

(** Line 372: the filename for a company name and a value of the clock. *)
Definition download_name (company_name : string) (today : datetime)
    : string :=
  "BTX_Welcome_Packet_" ++ py_replace " " "_" company_name ++ "_"
  ++ strftime_Ymd today ++ ".pdf".

(** Lines 337-342: what a run shows for the contact it got, or the
    exception of a contact it cannot read. *)
Definition contact_announcement (E : Env) (contact_data : json)
    : py_result ui_event :=
  if truthy contact_data then
    match py_getitem contact_data "properties" with
    | Ok contact_props =>
        match py_get contact_props "firstname" (JStr "") with
        | Ok firstname =>
            match py_get contact_props "lastname" (JStr "") with
            | Ok lastname =>
                Ok (st_success
                      ("✅ Found account team: "
                       ++ py_strip (py_str E firstname ++ " "
                                    ++ py_str E lastname)))
            | Raise e => Raise e
            end
        | Raise e => Raise e
        end
    | Raise e => Raise e
    end
  else Ok (st_warning "⚠️ No contact associated with this company").

(** What a run shows from the contact on when the fill goes through:
    lines 340-388. *)
Definition shown_filled (announcement : ui_event)
    (text1 text2 text3 text4 : json) (pdf_output : bytes)
    (file_name : string) : list ui_event :=
  [ announcement;
    st_info "📝 Filling PDF form...";
    st_markdown FilledInformationHeading;
    st_metric "Company" text1;
    st_metric "Customer #" text2;
    st_metric "Account Team" text3;
    st_metric "Date" text4;
    st_markdown HorizontalRule;
    st_download_button "⬇️ Download Welcome Packet" pdf_output file_name
      "application/pdf";
    st_markdown SuccessBox ].

(** A name of the specification's contact record: a string, the empty one
    when the CRM has no such property. *)
Definition text_name (o : option json) : option string :=
  match o with
  | None => Some ""
  | Some (JStr s) => Some s
  | Some _ => None
  end.

Fixpoint has_char (c : ascii) (s : string) : bool :=
  match s with
  | EmptyString => false
  | String a s' => Ascii.eqb a c || has_char c s'
  end.

(** The URL has a query of its own: there is a [?] in it. *)
Definition has_query (url : string) : bool := has_char "?" url.

(** The URL has a fragment: there is a [#] in it. *)
Definition has_fragment (url : string) : bool := has_char "#" url.

(** The characters of an id that is a path segment whatever a URL parser
    makes of it: ASCII letters, digits, [-] and [_]. *)
Definition id_char (a : ascii) : bool :=
  let n := N_of_ascii a in
  ((48 <=? n) && (n <=? 57) || (65 <=? n) && (n <=? 90)
   || (97 <=? n) && (n <=? 122) || (n =? 45) || (n =? 95))%N.

Fixpoint all_id_chars (id : string) : bool :=
  match id with
  | EmptyString => true
  | String a id' => id_char a && all_id_chars id'
  end.

(** An id made of such characters, and not the empty one: a numeric id of
    the CRM, for one. *)
Definition plain_id (id : string) : bool :=
  negb (String.eqb id "") && all_id_chars id.

(** The host of a URL: what stands before the first [/], [?] or [#]. *)
Fixpoint host_part (s : string) : string :=
  match s with
  | EmptyString => EmptyString
  | String c s' =>
      if Ascii.eqb c "/" || Ascii.eqb c "?" || Ascii.eqb c "#"
      then EmptyString
      else String c (host_part s')
  end.

(** Scheme and host of an [https] URL: where a request goes, whatever its
    path and query are. *)
Definition origin (url : string) : option string :=
  match after_prefix "https://" url with
  | Some rest => Some ("https://" ++ host_part rest)
  | None => None
  end.

(* ===================================================================== *)
(** ** A small world to run the module in *)
(* ===================================================================== *)

Module Demo.

(** A PDF library that reads every non-empty file as a one-page
    document and writes it back unchanged. *)
Definition library : PdfLibrary :=
  {| pdf_reader := bytes;
     pdf_writer := bytes;
     pdf_page := unit;
     PdfReader := fun b =>
       match b with
       | [] => Failed "Cannot read an empty file"
       | _ => Returned b
       end;
     clone_document_from_reader := fun b => Returned b;
     pages := fun _ => [tt];
     update_page_form_field_values := fun b _ _ => Returned b;
     write := fun b => Returned b |}.

Definition ok (v : json) : lib_result response :=
  Returned {| status_code := 200; text := "{...}"; json_value := Some v |}.

Definition status (code : Z) : lib_result response :=
  Returned {| status_code := code; text := "{...}"; json_value := None |}.

Definition acme : json :=
  JObj {[ "id" := JStr "42";
          "properties" := JObj {[ "name" := JStr "Acme Corp";
                                  "btx_customer__" := JStr "CUST-9" ]} ]}.


Definition jane : json :=
  JObj {[ "id" := JStr "7";
          "properties" := JObj {[ "firstname" := JStr "Jane";
                                  "lastname" := JStr "Doe" ]} ]}.

Definition url_is (rq : request) (path : string) : bool :=
  String.eqb (req_url rq) ("https://api.hubapi.com" ++ path).

(** A CRM that knows company 42, Acme Corp, and its contact 7. *)
Definition crm (rq : request) : lib_result response :=
  if url_is rq "/crm/v3/objects/companies/42" then ok acme
  else if url_is rq "/crm/v3/objects/companies/search" then
    ok (JObj {[ "results" := JArr [acme] ]})
  else if url_is rq "/crm/v4/objects/companies/42/associations/contacts"
  then ok (JObj {[ "results" := JArr [JObj {[ "toObjectId" := JInt 7 ]}] ]})
  else if url_is rq "/crm/v3/objects/contacts/7" then ok jane
  else status 404.

(** The same company without associated contact. *)
Definition crm_without_contact (rq : request) : lib_result response :=
  if url_is rq "/crm/v4/objects/companies/42/associations/contacts"
  then ok (JObj {[ "results" := JArr [] ]})
  else crm rq.

(** A CRM that finds no company by name. *)
Definition crm_without_match (rq : request) : lib_result response :=
  if url_is rq "/crm/v3/objects/companies/search" then
    ok (JObj {[ "results" := JArr [] ]})
  else crm rq.

(** A CRM that rejects the API key once the company is found. *)
Definition crm_unauthorized_contacts (rq : request) : lib_result response :=
  if url_is rq "/crm/v3/objects/companies/42" then ok acme else status 401.

Definition march_4_2025 : datetime :=
  {| year := 2025; mon := March; day := 4 |}.

Definition env (server : request -> lib_result response) : Env :=
  {| http := server;
     now := fun _ => march_4_2025;
     pdf := library;
     repr_container := fun _ => "{...}";
     str_exn := fun e =>
       match e with
       | PdfError msg | OSError msg | RequestException msg => msg
       | _ => "error"
       end |}.

Definition template : bytes := [Byte.x25; Byte.x50; Byte.x44; Byte.x46].

Definition by_id (id : string) (tmpl : bytes) : inputs :=
  {| in_api_key := "pat-123";
     uploaded_template := Some tmpl;
     default_template := None;
     search_method := UseCompanyID;
     company_input := id;
     generate_button := true |}.

Definition by_name (name : string) (tmpl : bytes) : inputs :=
  {| in_api_key := "pat-123";
     uploaded_template := Some tmpl;
     default_template := None;
     search_method := SearchByName;
     company_input := name;
     generate_button := true |}.

(** Jane Doe, with the names padded by blanks. *)
Definition jane_padded : json :=
  JObj {[ "id" := JStr "7";
          "properties" := JObj {[ "firstname" := JStr "  Jane";
                                  "lastname" := JStr "Doe " ]} ]}.

(** A contact whose names are present and empty. *)
Definition nameless : json :=
  JObj {[ "id" := JStr "8";
          "properties" := JObj {[ "firstname" := JStr "";
                                  "lastname" := JStr "" ]} ]}.

(** A company whose name and customer number are present, the one empty
    and the other [None]. *)
Definition blank_company : json :=
  JObj {[ "id" := JStr "43";
          "properties" := JObj {[ "name" := JStr "";
                                  "btx_customer__" := JNull ]} ]}.

Definition fields (name number : json) (team : string)
    : gmap string json :=
  {[ "Text1" := name;
     "Text2" := number;
     "Text3" := JStr team;
     "Text4" := JStr "March 04, 2025" ]}.

(** A contact whose names have no value in the CRM. *)
Definition valueless : json :=
  JObj {[ "id" := JStr "9";
          "properties" := JObj {[ "firstname" := JNull;
                                  "lastname" := JNull ]} ]}.

(** A contact whose first name has no value. *)
Definition doe : json :=
  JObj {[ "id" := JStr "10";
          "properties" := JObj {[ "firstname" := JNull;
                                  "lastname" := JStr "Doe" ]} ]}.

(** What [stamping_library] writes behind the document: the account
    team. *)
Definition stamp (fv : gmap string json) : bytes :=
  match fv !! "Text3" with
  | Some (JStr s) => list_byte_of_string s
  | _ => []
  end.

(** A PDF library that keeps the form values beside the document and
    writes the document with their [stamp] behind it. *)
Definition stamping_library : PdfLibrary :=
  {| pdf_reader := bytes;
     pdf_writer := bytes * gmap string json;
     pdf_page := unit;
     PdfReader := fun b =>
       match b with
       | [] => Failed "Cannot read an empty file"
       | _ => Returned b
       end;
     clone_document_from_reader := fun b => Returned (b, ∅);
     pages := fun _ => [tt];
     update_page_form_field_values := fun w _ fv => Returned (fst w, fv);
     write := fun w => Returned (fst w ++ stamp (snd w))%list |}.


(** [env] with another PDF library. *)
Definition env_with (lib : PdfLibrary)
    (server : request -> lib_result response) : Env :=
  {| http := server;
     now := fun _ => march_4_2025;
     pdf := lib;
     repr_container := repr_container (env server);
     str_exn := str_exn (env server) |}.

End Demo.

(* ===================================================================== *)
(** ** Authentication: [load_auth_config] and [main] *)
(* ===================================================================== *)

(** Where the authentication configuration comes from.  [config_yaml] is
    [None] when [config.yaml] does not exist, and otherwise what opening
    and loading it gives; [secrets_auth] is what looking for ['auth'] in
    the secrets gives: its [dict], nothing, or an exception.  A failure is
    described by the text of its exception. *)
Record AuthSources : Type := {
  config_yaml : option (lib_result json);
  secrets_auth : lib_result (option json)
}.

(** Lines 77-95: the configuration of a deployment without any. *)
Definition default_config : json :=
  JObj {[
    "credentials" := JObj {[
      "usernames" := JObj {[
        "btx_admin" := JObj {[
          "name" := JStr "BTX Admin";
          "password" :=
            JStr "$2b$12$KIXqRlXJUqEqQsaHvlqN1.T7HqJZFjNZ0H3jKqN5qZqN5qZqN5qZ";
          "email" := JStr "admin@btxglobal.com" ]} ]} ]};
    "cookie" := JObj {[
      "expiry_days" := JInt 30;
      "key" := JStr "btx_welcome_packet_cookie_key";
      "name" := JStr "btx_welcome_packet_auth" ]};
    "preauthorized" := JObj {[ "emails" := JArr [] ]}
  ]}.

(** Lines 96-98: the [except] clause of [load_auth_config]. *)
Definition config_error (msg : string) : M json :=
  show (st_error ("Error loading authentication config: " ++ msg));;
  ret JNull.

(** Lines 65-98.  [None] is [JNull].  This is the call that fills the
    cache of [st.cache_resource]; the cache itself is not modelled. *)
Definition load_auth_config (src : AuthSources) : M json :=
  match config_yaml src with
  | Some (Returned config) => ret config
  | Some (Failed msg) => config_error msg
  | None =>
      match secrets_auth src with
      | Returned (Some auth) => ret auth
      | Returned None => ret default_config
      | Failed msg => config_error msg
      end
  end.

(** [stauth.Authenticate(...)] followed by [authenticator.login('Login',
    'main')]: the authentication status for the credentials, the cookie
    name, the cookie key and the expiry days, or the exception of the
    library. *)
Definition Login : Type :=
  json -> json -> json -> json -> py_result (option bool).

(** Lines 417-467.  The headings and the expander of the welcome page are
    not part of the log. *)
Definition main (src : AuthSources) (login : Login) (inp : inputs)
    : M unit :=
  config <- load_auth_config src;;
  match config with
  | JNull => show (st_error "Failed to load authentication configuration")
  | _ =>
      credentials <- lift (py_getitem config "credentials");;
      cookie <- lift (py_getitem config "cookie");;
      name <- lift (py_getitem cookie "name");;
      cookie <- lift (py_getitem config "cookie");;
      key <- lift (py_getitem cookie "key");;
      cookie <- lift (py_getitem config "cookie");;
      expiry_days <- lift (py_getitem cookie "expiry_days");;
      authentication_status <- lift (login credentials name key expiry_days);;
      match authentication_status with
      | Some true => main_app inp
      | Some false =>
          show (st_error "❌ Username/password is incorrect");;
          show (st_info "Please check your credentials and try again.")
      | None =>
          show (st_info
            "👆 Please enter your username and password above to continue")
      end
  end.

(* ===================================================================== *)
(** ** More vocabulary: calls and messages of a run *)
(* ===================================================================== *)

(** The call got a response that [raise_for_status] lets pass. *)
Definition call_accepted (c : request * lib_result response) : bool :=
  match snd c with
  | Returned r => accepted r
  | Failed _ => false
  end.

(** The exception a call ends in, if it does. *)
Definition failure_of (c : request * lib_result response) : option pyexn :=
  match snd c with
  | Returned r =>
      if accepted r then None
      else Some (HTTPError (status_code r) (text r))
  | Failed msg => Some (RequestException msg)
  end.

(** The calls [cs] of a block that ended in [o]: either all of them were
    accepted, and then [o] is no [HTTPError]; or all but the last were,
    and [o] is the exception of the last. *)
Definition stops_at_failure (cs : list (request * lib_result response))
    (o : option pyexn) : Prop :=
  (forallb call_accepted cs = true
   /\ forall status body, o <> Some (HTTPError status body))
  \/ (exists good c,
        cs = (good ++ [c])%list
        /\ forallb call_accepted good = true
        /\ call_accepted c = false
        /\ o = failure_of c).

(** The four requests of [HubSpotClient]. *)
Definition client_request (E : Env) (self : HubSpotClient) (rq : request)
    : Prop :=
  (exists company_id, rq = company_by_id_request self E company_id)
  \/ (exists company_name, rq = search_request self company_name)
  \/ (exists company_id, rq = associations_request self E company_id)
  \/ (exists contact_id, rq = contact_by_id_request self E contact_id).

(** A block that makes at most [n] calls, each of them a request of the
    client, and stops at the first that fails. *)
Definition orderly (E : Env) (self : HubSpotClient) (n : nat) {A} (m : M A)
    : Prop :=
  forall w r w', m E w = (r, w') ->
  exists cs,
    (calls w' = calls w ++ cs)%list
    /\ (length cs <= n)%nat
    /\ Forall (fun c => client_request E self (fst c)) cs
    /\ stops_at_failure cs (raised r).

(** A block all of whose widgets satisfy [Q]. *)
Definition emits (E : Env) (Q : ui_event -> Prop) {A} (m : M A) : Prop :=
  forall w r w', m E w = (r, w') ->
  exists evs, (ui w' = ui w ++ evs)%list /\ Forall Q evs.

(** A block that offers a download whenever it runs to its end. *)
Definition offers (E : Env) {A} (m : M A) : Prop :=
  forall w a w', m E w = (Ok a, w') ->
  exists evs, (ui w' = ui w ++ evs)%list /\ existsb is_download evs = true.

(** A record the filler can read: a [dict] whose [properties], if any, are
    a [dict]. *)
Definition readable_record (v : json) : Prop :=
  exists c p, v = JObj c /\ default (JObj ∅) (c !! "properties") = JObj p.

(** The PDF library gets through the five calls of the filler for the
    template and the field values, and writes [out]. *)
Definition library_writes (E : Env) (b : bytes) (fv : gmap string json)
    (out : bytes) : Prop :=
  exists reader writer page rest writer',
    PdfReader (pdf E) b = Returned reader
    /\ clone_document_from_reader (pdf E) reader = Returned writer
    /\ pages (pdf E) writer = page :: rest
    /\ update_page_form_field_values (pdf E) writer page fv
       = Returned writer'
    /\ write (pdf E) writer' = Returned out.

(** The four field values of the filler, for company properties [p], an
    account team and a date. *)
Definition field_values_of (p : gmap string json) (team : string)
    (d : datetime) : gmap string json :=
  {[ "Text1" := default (JStr "N/A") (p !! "name");
     "Text2" := default (JStr "N/A") (p !! "btx_customer__");
     "Text3" := JStr team;
     "Text4" := JStr (strftime_B_d_Y d) ]}.

(** What a run shows from the contact lookup on when there is no contact,
    the fill goes through, and the company name is no text: the filled
    values, and then the messages of the catch-all clause. *)
Definition shown_without_name (E : Env) (company_name customer_number : json)
    (fill_date : datetime) : list ui_event :=
  [ st_warning "⚠️ No contact associated with this company";
    st_info "📝 Filling PDF form...";
    st_markdown FilledInformationHeading;
    st_metric "Company" company_name;
    st_metric "Customer #" customer_number;
    st_metric "Account Team" (JStr "N/A");
    st_metric "Date" (JStr (strftime_B_d_Y fill_date)) ]
  ++ unexpected_error_message E (AttributeError "replace").

(** The text has a space in it. *)
Fixpoint contains_space (s : string) : bool :=
  match s with
  | EmptyString => false
  | String c s' => Ascii.eqb c " " || contains_space s'
  end.

Module DemoLogin.

(** A login that lets nobody in. *)
Definition closed : Login := fun _ _ _ _ => Ok (Some false).

(** A login that has not been tried yet. *)
Definition untried : Login := fun _ _ _ _ => Ok None.

(** A login that lets everybody in. *)
Definition open : Login := fun _ _ _ _ => Ok (Some true).

(** A deployment without [config.yaml] and without ['auth'] secret. *)
Definition bare : AuthSources :=
  {| config_yaml := None; secrets_auth := Returned None |}.

(** A deployment whose [config.yaml] cannot be read, with secrets. *)
Definition broken_file : AuthSources :=
  {| config_yaml := Some (Failed "mapping values are not allowed here");
     secrets_auth := Returned (Some default_config) |}.

(** A deployment whose [config.yaml] has credentials and nothing else. *)
Definition cookieless : AuthSources :=
  {| config_yaml := Some (Returned (JObj {[ "credentials" := JObj ∅ ]}));
     secrets_auth := Returned (Some default_config) |}.

(** A CRM that is down for the contact listing. *)
Definition crm_down_for_contacts (rq : request) : lib_result response :=
  if Demo.url_is rq "/crm/v3/objects/companies/42" then Demo.ok Demo.acme
  else Returned {| status_code := 503; text := "Service Unavailable";
                   json_value := None |}.

(** A CRM that cannot be reached for the contact. *)
Definition crm_unreachable_for_contact (rq : request) : lib_result response :=
  if Demo.url_is rq "/crm/v3/objects/contacts/7"
  then Failed "Connection refused"
  else Demo.crm rq.

(** A CRM with two companies for a name and two contacts for a company. *)
Definition globex : json :=
  JObj {[ "id" := JStr "43";
          "properties" := JObj {[ "name" := JStr "Globex" ]} ]}.

Definition crm_with_two (rq : request) : lib_result response :=
  if Demo.url_is rq "/crm/v3/objects/companies/search" then
    Demo.ok (JObj {[ "results" := JArr [Demo.acme; globex] ]})
  else if Demo.url_is rq "/crm/v4/objects/companies/42/associations/contacts"
  then Demo.ok (JObj {[ "results" :=
         JArr [JObj {[ "toObjectId" := JInt 7 ]};
               JObj {[ "toObjectId" := JInt 8 ]}] ]})
  else Demo.crm rq.

(** A company without name. *)
Definition anonymous : json :=
  JObj {[ "id" := JStr "42";
          "properties" := JObj {[ "btx_customer__" := JStr "CUST-9" ]} ]}.

(** A company whose name is [None]. *)
Definition unnamed : json :=
  JObj {[ "id" := JStr "42";
          "properties" := JObj {[ "name" := JNull;
                                  "btx_customer__" := JStr "CUST-9" ]} ]}.

Definition crm_of (company : json) (rq : request) : lib_result response :=
  if Demo.url_is rq "/crm/v3/objects/companies/42" then Demo.ok company
  else Demo.crm_without_contact rq.

End DemoLogin.

(* ===================================================================== *)
(** ** Running the monad *)
(* ===================================================================== *)

Lemma bind_ok {A B} (m : M A) (k : A -> M B) E w a w1 :
  m E w = (Ok a, w1) -> bind m k E w = k a E w1.
Proof. intros H. unfold bind. now rewrite H. Qed.

Lemma bind_raise {A B} (m : M A) (k : A -> M B) E w e w1 :
  m E w = (Raise e, w1) -> bind m k E w = (Raise e, w1).
Proof. intros H. unfold bind. now rewrite H. Qed.

Lemma bind_inv {A B} (m : M A) (k : A -> M B) E w r w' :
  bind m k E w = (r, w') ->
  (exists a w1, m E w = (Ok a, w1) /\ k a E w1 = (r, w'))
  \/ (exists e, m E w = (Raise e, w') /\ r = Raise e).
Proof.
  unfold bind. destruct (m E w) as [[a|e] w1]; intros H.
  - left. now exists a, w1.
  - right. exists e. now inversion H.
Qed.

Lemma bind_inv_ok {A B} (m : M A) (k : A -> M B) E w b w' :
  bind m k E w = (Ok b, w') ->
  exists a w1, m E w = (Ok a, w1) /\ k a E w1 = (Ok b, w').
Proof.
  intros H. apply bind_inv in H as [H | (e & _ & H)]; [exact H | discriminate].
Qed.

Lemma lift_inv {A} (r : py_result A) E w r' w' :
  lift r E w = (r', w') -> r' = r /\ w' = w.
Proof. unfold lift. intros H. now inversion H. Qed.

Lemma pdf_call_inv {A} (l : lib_result A) E w a w' :
  pdf_call l E w = (Ok a, w') -> l = Returned a /\ w' = w.
Proof.
  destruct l as [x | msg]; unfold pdf_call, ret, raise; intros H;
    now inversion H.
Qed.

Lemma first_page_inv {A} (l : list A) E w r w' :
  first_page l E w = (r, w') -> w' = w.
Proof.
  unfold first_page, ret, raise. destruct l; intros H; now inversion H.
Qed.

(* ===================================================================== *)
(** ** The field values of [fill_btx_welcome_packet] *)
(* ===================================================================== *)

Lemma name_text_default E (p : gmap string json) key :
  py_str E (default (JStr "") (p !! key)) = name_text E (p !! key).
Proof. unfold name_text. now destruct (p !! key). Qed.

(** The account team never touches the log; it is ["N/A"] for a contact
    that counts as false, the name of the specification for a contact
    record, and an [AttributeError] for anything else. *)
Lemma account_team_of_spec contact E w r w' :
  account_team_of contact E w = (r, w') ->
  w' = w /\
  match r with
  | Ok team =>
      (truthy contact = false /\ team = "N/A")
      \/ (exists c p,
            contact = JObj c /\ truthy contact = true
            /\ default (JObj ∅) (c !! "properties") = JObj p
            /\ team = accountTeamName
                        (Some (name_text E (p !! "firstname"),
                               name_text E (p !! "lastname"))))
  | Raise e => e = AttributeError "get"
  end.
Proof.
  unfold account_team_of, bind, ask, lift, ret.
  destruct (truthy contact) eqn:Ht.
  2:{ intros H; inversion H; subst. split; [reflexivity | now left]. }
  destruct contact as [ | b | n | s | l | c ]; simpl;
    try (intros H; inversion H; subst; now split).
  destruct (default (JObj ∅) (c !! "properties")) as [ | b | n | s | l | p ]
    eqn:Hp; simpl;
    try (intros H; inversion H; subst; now split).
  rewrite !name_text_default.
  set (full := py_strip _).
  intros H. assert (Hr : r = Ok (accountTeamName
    (Some (name_text E (p !! "firstname"), name_text E (p !! "lastname"))))
    /\ w' = w).
  { unfold accountTeamName. fold full.
    destruct (String.eqb full ""); now inversion H. }
  destruct Hr as [-> ->]. split; [reflexivity | right].
  exists c, p. repeat split; auto.
Qed.

(** What a completed fill has computed. *)
Lemma fill_fields tmpl company contact E w out fv w' :
  fill_btx_welcome_packet tmpl company contact E w = (Ok (out, fv), w') ->
  exists props name number team,
    py_get company "properties" (JObj ∅) = Ok props
    /\ py_get props "name" (JStr "N/A") = Ok name
    /\ py_get props "btx_customer__" (JStr "N/A") = Ok number
    /\ account_team_of contact E w = (Ok team, w)
    /\ w' = tick w
    /\ fv = {[ "Text1" := name;
               "Text2" := number;
               "Text3" := JStr team;
               "Text4" := JStr (strftime_B_d_Y (now E (clock_reads w))) ]}.
Proof.
  unfold fill_btx_welcome_packet. intros H.
  apply bind_inv_ok in H as (E' & w0 & HE & H).
  inversion HE; subst E' w0; clear HE.
  apply bind_inv_ok in H as (props & w0 & Hprops & H).
  apply lift_inv in Hprops as [Hprops ->].
  apply bind_inv_ok in H as (name & w0 & Hname & H).
  apply lift_inv in Hname as [Hname ->].
  apply bind_inv_ok in H as (number & w0 & Hnumber & H).
  apply lift_inv in Hnumber as [Hnumber ->].
  apply bind_inv_ok in H as (team & w0 & Hteam & H).
  pose proof (account_team_of_spec _ _ _ _ _ Hteam) as [-> _].
  apply bind_inv_ok in H as (today & w0 & Hnow & H).
  inversion Hnow; subst today w0; clear Hnow.
  apply bind_inv_ok in H as (reader & w0 & Hreader & H).
  apply pdf_call_inv in Hreader as [_ ->].
  apply bind_inv_ok in H as (writer & w0 & Hwriter & H).
  apply pdf_call_inv in Hwriter as [_ ->].
  apply bind_inv_ok in H as (page & w0 & Hpage & H).
  apply first_page_inv in Hpage as ->.
  apply bind_inv_ok in H as (writer' & w0 & Hupdate & H).
  apply pdf_call_inv in Hupdate as [_ ->].
  apply bind_inv_ok in H as (output & w0 & Hwrite & H).
  apply pdf_call_inv in Hwrite as [_ ->].
  inversion H; subst.
  exists props, name, number, team. repeat split; auto.
Qed.

Lemma field_Text1 (a b c d : json) :
  ({[ "Text1" := a; "Text2" := b; "Text3" := c; "Text4" := d ]}
     : gmap string json) !! "Text1" = Some a.
Proof. apply lookup_insert_eq. Qed.

Lemma field_Text2 (a b c d : json) :
  ({[ "Text1" := a; "Text2" := b; "Text3" := c; "Text4" := d ]}
     : gmap string json) !! "Text2" = Some b.
Proof. rewrite lookup_insert_ne by discriminate. apply lookup_insert_eq. Qed.

Lemma field_Text3 (a b c d : json) :
  ({[ "Text1" := a; "Text2" := b; "Text3" := c; "Text4" := d ]}
     : gmap string json) !! "Text3" = Some c.
Proof.
  rewrite !lookup_insert_ne by discriminate. apply lookup_insert_eq.
Qed.

Lemma field_Text4 (a b c d : json) :
  ({[ "Text1" := a; "Text2" := b; "Text3" := c; "Text4" := d ]}
     : gmap string json) !! "Text4" = Some d.
Proof.
  rewrite !lookup_insert_ne by discriminate. apply lookup_singleton_eq.
Qed.

Lemma py_get_properties company props :
  py_get company "properties" (JObj ∅) = Ok props ->
  forall p, company_properties company = Some p -> props = JObj p.
Proof.
  destruct company as [ | | | | | c ]; simpl; try discriminate.
  intros H p. inversion H; subst; clear H.
  destruct (default (JObj ∅) (c !! "properties")); try discriminate.
  intros H; now inversion H.
Qed.

(** A completed fill had a company record to read. *)
Lemma fill_company_properties tmpl company contact E w out fv w' :
  fill_btx_welcome_packet tmpl company contact E w = (Ok (out, fv), w') ->
  exists p, company_properties company = Some p.
Proof.
  intros H.
  apply fill_fields in H
    as (props & name & number & team & Hp & Hn & _).
  destruct company as [ | | | | | c ]; simpl in *; try discriminate.
  inversion Hp; subst; clear Hp.
  destruct (default (JObj ∅) (c !! "properties")); simpl in Hn;
    try discriminate.
  eauto.
Qed.

Lemma name_text_text_name E o s : text_name o = Some s -> name_text E o = s.
Proof.
  destruct o as [[ | | | t | | ] | ]; simpl; intros H; try discriminate;
    now injection H as <-.
Qed.

(** X26. Where the names of the contact are texts, or are missing, the
    account team [Text3] of a completed fill is as the specification has
    it: ["N/A"] without contact or when the "first last" concatenation is
    empty after trimming, the trimmed concatenation otherwise; a missing
    name counts as empty. *)
Theorem fill_account_team_of_text_names tmpl company contact E w out fv w' :
  fill_btx_welcome_packet tmpl company contact E w = (Ok (out, fv), w') ->
  (truthy contact = false -> fv !! "Text3" = Some (JStr "N/A"))
  /\ (forall c p first last,
        contact = JObj c ->
        truthy contact = true ->
        default (JObj ∅) (c !! "properties") = JObj p ->
        text_name (p !! "firstname") = Some first ->
        text_name (p !! "lastname") = Some last ->
        fv !! "Text3" = Some (JStr (accountTeamName (Some (first, last))))).
Proof.
  intros H.
  apply fill_fields in H
    as (props & name & number & team & _ & _ & _ & Hteam & _ & ->).
  apply account_team_of_spec in Hteam as [_ Hteam].
  rewrite field_Text3. split.
  - intros Hf.
    destruct Hteam as [[_ ->] | (c & p & _ & Ht & _)]; [reflexivity |].
    rewrite Hf in Ht. discriminate.
  - intros c p first last -> Ht Hp Hfirst Hlast.
    destruct Hteam as [[Hf _] | (c' & p' & Hc & _ & Hp' & ->)].
    + rewrite Hf in Ht. discriminate.
    + injection Hc as <-. rewrite Hp in Hp'. injection Hp' as <-.
      now rewrite (name_text_text_name E _ _ Hfirst),
        (name_text_text_name E _ _ Hlast).
Qed.

Lemma fill_account_team_of_text_names_witness :
  Demo.fields (JStr "Acme Corp") (JStr "CUST-9") "Jane Doe" !! "Text3"
  = Some (JStr (accountTeamName (Some ("  Jane", "Doe ")))).
Proof.
  refine (proj2 (fill_account_team_of_text_names Demo.template Demo.acme
                   Demo.jane_padded (Demo.env Demo.crm) initial_world
                   Demo.template
                   (Demo.fields (JStr "Acme Corp") (JStr "CUST-9") "Jane Doe")
                   (tick initial_world) _)
            {[ "id" := JStr "7";
               "properties" := JObj {[ "firstname" := JStr "  Jane";
                                       "lastname" := JStr "Doe " ]} ]}
            {[ "firstname" := JStr "  Jane"; "lastname" := JStr "Doe " ]}
            "  Jane" "Doe " _ _ _ _ _);
    vm_compute; reflexivity.
Defined.

(** C1, where the module departs from it. A name the CRM has no value for
    comes as [None] under its key; [.get(key, '')] lets it through, and
    the f-string of line 182 writes it as the word [None]. For a contact
    without any name the account team [Text3] is ["None None"], where the
    specification, with both names absent, has ["N/A"]; for a contact
    without first name it is ["None Doe"], where the specification has
    ["Doe"]. *)
Theorem C1_names_without_value tmpl company E w out fv w' out2 fv2 w2' :
  fill_btx_welcome_packet tmpl company Demo.valueless E w
  = (Ok (out, fv), w') ->
  fill_btx_welcome_packet tmpl company Demo.doe E w
  = (Ok (out2, fv2), w2') ->
  fv !! "Text3" = Some (JStr "None None")
  /\ accountTeamName (Some ("", "")) = "N/A"%string
  /\ fv2 !! "Text3" = Some (JStr "None Doe")
  /\ accountTeamName (Some ("", "Doe")) = "Doe"%string.
Proof.
  intros H H2.
  apply fill_fields in H
    as (props & name & number & team & _ & _ & _ & Hteam & _ & ->).
  apply fill_fields in H2
    as (props2 & name2 & number2 & team2 & _ & _ & _ & Hteam2 & _ & ->).
  rewrite !field_Text3.
  assert (Hnone : team = "None None"%string).
  { vm_compute in Hteam. now injection Hteam as <-. }
  assert (Hdoe : team2 = "None Doe"%string).
  { vm_compute in Hteam2. now injection Hteam2 as <-. }
  rewrite Hnone, Hdoe. repeat split; vm_compute; reflexivity.
Qed.

Lemma C1_names_without_value_witness :
  Demo.fields (JStr "Acme Corp") (JStr "CUST-9") "None None" !! "Text3"
  = Some (JStr "None None")
  /\ accountTeamName (Some ("", "")) = "N/A"%string
  /\ Demo.fields (JStr "Acme Corp") (JStr "CUST-9") "None Doe" !! "Text3"
     = Some (JStr "None Doe")
  /\ accountTeamName (Some ("", "Doe")) = "Doe"%string.
Proof.
  apply (C1_names_without_value Demo.template Demo.acme (Demo.env Demo.crm)
           initial_world
           Demo.template
           (Demo.fields (JStr "Acme Corp") (JStr "CUST-9") "None None")
           (tick initial_world)
           Demo.template
           (Demo.fields (JStr "Acme Corp") (JStr "CUST-9") "None Doe")
           (tick initial_world));
    vm_compute; reflexivity.
Defined.



(** C10. The ["N/A"] of the company name [Text1] and of the customer number
    [Text2] stands in for an absent key only: a key that is present, be it
    with an empty string or with [None], has its value written as it is.
    The account team [Text3] differs: names that are present and empty
    give ["N/A"]. *)
Theorem C10_defaults_for_absent_keys_only
    tmpl company contact E w out fv w' p :
  fill_btx_welcome_packet tmpl company contact E w = (Ok (out, fv), w') ->
  company_properties company = Some p ->
  (p !! "name" = None -> fv !! "Text1" = Some (JStr "N/A"))
  /\ (forall v, p !! "name" = Some v -> fv !! "Text1" = Some v)
  /\ (p !! "btx_customer__" = None -> fv !! "Text2" = Some (JStr "N/A"))
  /\ (forall v, p !! "btx_customer__" = Some v -> fv !! "Text2" = Some v)
  /\ (contact_record E contact = Some ("", "") ->
      fv !! "Text3" = Some (JStr "N/A")).
Proof.
  intros H Hp.
  apply fill_fields in H
    as (props & name & number & team & Hprops & Hname & Hnumber & Hteam
        & _ & ->).
  rewrite (py_get_properties _ _ Hprops _ Hp) in Hname, Hnumber.
  simpl in Hname, Hnumber.
  inversion Hname; subst name. inversion Hnumber; subst number.
  rewrite field_Text1, field_Text2.
  repeat split.
  - intros ->. reflexivity.
  - intros v ->. reflexivity.
  - intros ->. reflexivity.
  - intros v ->. reflexivity.
  - intros Hc. rewrite field_Text3.
    apply account_team_of_spec in Hteam as [_ Hteam].
    unfold contact_record in Hc.
    destruct Hteam as [[Hf ->] | (c & q & -> & Ht & Hq & ->)];
      [reflexivity |].
    rewrite Ht, Hq in Hc. injection Hc as H1 H2.
    rewrite H1, H2. reflexivity.
Qed.

Lemma C10_defaults_for_absent_keys_only_witness :
  Demo.fields (JStr "") JNull "N/A" !! "Text1" = Some (JStr "")
  /\ Demo.fields (JStr "") JNull "N/A" !! "Text2" = Some JNull
  /\ Demo.fields (JStr "") JNull "N/A" !! "Text3" = Some (JStr "N/A").
Proof.
  pose proof (C10_defaults_for_absent_keys_only Demo.template
    Demo.blank_company Demo.nameless (Demo.env Demo.crm) initial_world
    Demo.template (Demo.fields (JStr "") JNull "N/A") (tick initial_world)
    {[ "name" := JStr ""; "btx_customer__" := JNull ]}) as H.
  destruct H as (_ & H1 & _ & H2 & H3).
  - vm_compute; reflexivity.
  - vm_compute; reflexivity.
  - split; [| split].
    + apply H1. vm_compute; reflexivity.
    + apply H2. vm_compute; reflexivity.
    + apply H3. vm_compute; reflexivity.
Defined.

(* ===================================================================== *)
(** ** What the statements do to the log *)
(* ===================================================================== *)

Local Open Scope list_scope.

Lemma no_download_app evs1 evs2 :
  no_download evs1 -> no_download evs2 -> no_download (evs1 ++ evs2).
Proof.
  unfold no_download. intros H1 H2. now rewrite existsb_app, H1, H2.
Qed.

Lemma no_download_well_named named evs :
  no_download evs -> Forall (well_named named) evs.
Proof.
  unfold no_download. induction evs as [ | ev evs IH]; simpl; intros H.
  - constructor.
  - apply orb_false_iff in H as [Hev Hevs]. constructor; [| now apply IH].
    destruct ev; simpl in *; try exact I. discriminate.
Qed.

Lemma no_401_app cs1 cs2 : no_401 cs1 -> no_401 cs2 -> no_401 (cs1 ++ cs2).
Proof. unfold no_401. intros H1 H2. now rewrite existsb_app, H1, H2. Qed.

Lemma sound_calls_app cs1 cs2 o :
  sound_calls cs1 None -> sound_calls cs2 o -> sound_calls (cs1 ++ cs2) o.
Proof.
  intros [H1 | (body & H1)] [H2 | H2]; try discriminate.
  - left. now apply no_401_app.
  - now right.
Qed.

Section Blocks.

Variable E : Env.

Lemma silent_plain {A} (m : M A) :
  (forall w, snd (m E w) = w) -> plain E m.
Proof.
  intros Hm w r w' H. exists [], [].
  pose proof (Hm w) as Hw. rewrite H in Hw. simpl in Hw. subst w'.
  rewrite !app_nil_r. repeat split; try reflexivity. now left.
Qed.

Lemma plain_ret {A} (a : A) : plain E (ret a).
Proof. now apply silent_plain. Qed.

Lemma plain_raise {A} e : plain E (@raise A e).
Proof. now apply silent_plain. Qed.

Lemma plain_lift {A} (r : py_result A) : plain E (lift r).
Proof. now apply silent_plain. Qed.

Lemma plain_ask : plain E ask.
Proof. now apply silent_plain. Qed.

Lemma plain_pdf_call {A} (l : lib_result A) : plain E (pdf_call l).
Proof. apply silent_plain. now destruct l. Qed.

Lemma plain_first_page {A} (l : list A) : plain E (first_page l).
Proof. apply silent_plain. now destruct l. Qed.

Lemma plain_datetime_now : plain E datetime_now.
Proof.
  intros w r w' H. inversion H; subst. exists [], []. simpl.
  rewrite !app_nil_r. repeat split; try reflexivity. now left.
Qed.

Lemma plain_show ev : is_download ev = false -> plain E (show ev).
Proof.
  intros Hev w r w' H. inversion H; subst. exists [ev], []. simpl.
  rewrite app_nil_r. repeat split; try reflexivity.
  - unfold no_download. simpl. now rewrite Hev.
  - now left.
Qed.

Lemma plain_bind {A B} (m : M A) (k : A -> M B) :
  plain E m -> (forall a, returns E m a -> plain E (k a)) ->
  plain E (bind m k).
Proof.
  intros Hm Hk w r w' H.
  apply bind_inv in H as [(a & w1 & H1 & H2) | (e & H1 & ->)].
  - destruct (Hm _ _ _ H1) as (evs1 & cs1 & Hu1 & Hc1 & Hd1 & Hs1).
    assert (Ha : returns E m a) by (now exists w, w1).
    destruct (Hk a Ha _ _ _ H2) as (evs2 & cs2 & Hu2 & Hc2 & Hd2 & Hs2).
    exists (evs1 ++ evs2), (cs1 ++ cs2).
    rewrite Hu2, Hu1, Hc2, Hc1, <- !app_assoc.
    repeat split; try reflexivity.
    + now apply no_download_app.
    + eapply sound_calls_app; eassumption.
  - exact (Hm _ _ _ H1).
Qed.

(** A statement that never returns ends the block. *)
Lemma plain_bind_raises {A B} (m : M A) (k : A -> M B) :
  plain E m -> (forall a, ~ returns E m a) -> plain E (bind m k).
Proof.
  intros Hm Hnever. apply plain_bind; [exact Hm |].
  intros a Ha. destruct (Hnever a Ha).
Qed.

(** The three lines of every client method: send, check the status, go
    on with the response. *)
Lemma plain_request {B} rq (k : response -> M B) :
  (forall r, plain E (k r)) ->
  plain E (bind (requests_send rq)
             (fun r => bind (raise_for_status r) (fun _ => k r))).
Proof.
  intros Hk w r w' H. unfold bind, requests_send in H.
  destruct (http E rq) as [resp | msg] eqn:Hhttp.
  - unfold raise_for_status in H.
    destruct ((400 <=? status_code resp) && (status_code resp <? 600))
      eqn:Hst.
    + unfold raise in H. inversion H; subst; clear H.
      exists [], [(rq, Returned resp)]. simpl. rewrite app_nil_r.
      repeat split; try reflexivity.
      destruct (status_code resp =? 401) eqn:H401.
      * right. apply Z.eqb_eq in H401. rewrite H401. eauto.
      * left. unfold no_401. cbv [existsb answered_401 snd].
        now rewrite H401.
    + unfold ret in H.
      destruct (Hk resp _ _ _ H) as (evs & cs & Hu & Hc & Hd & Hs).
      exists evs, ((rq, Returned resp) :: cs). simpl in *.
      rewrite Hu, Hc, <- app_assoc.
      repeat split; try reflexivity; [exact Hd |].
      destruct Hs as [Hs | Hs]; [left | now right].
      unfold no_401 in *. cbn [existsb]. rewrite Hs.
      cbv [answered_401 snd].
      assert ((status_code resp =? 401) = false) as ->; [| reflexivity].
      apply Z.eqb_neq. intros H401. rewrite H401 in Hst. discriminate.
  - inversion H; subst; clear H.
    exists [], [(rq, Failed msg)]. simpl. rewrite app_nil_r.
    repeat split; try reflexivity. now left.
Qed.

Lemma plain_response_json r : plain E (response_json r).
Proof.
  apply silent_plain. intros w. unfold response_json.
  now destruct (json_value r).
Qed.

Variable named : string -> Prop.

Lemma plain_behaves {A} (m : M A) : plain E m -> behaves E named m.
Proof.
  intros Hm w r w' H.
  destruct (Hm _ _ _ H) as (evs & cs & Hu & Hc & Hd & Hs).
  exists evs, cs. repeat split; auto.
  now apply no_download_well_named.
Qed.

Lemma behaves_bind {A B} (m : M A) (k : A -> M B) :
  plain E m -> (forall a, returns E m a -> behaves E named (k a)) ->
  behaves E named (bind m k).
Proof.
  intros Hm Hk w r w' H.
  apply bind_inv in H as [(a & w1 & H1 & H2) | (e & H1 & ->)].
  - destruct (Hm _ _ _ H1) as (evs1 & cs1 & Hu1 & Hc1 & Hd1 & Hs1).
    assert (Ha : returns E m a) by (now exists w, w1).
    destruct (Hk a Ha _ _ _ H2)
      as (evs2 & cs2 & Hu2 & Hc2 & Hn2 & Hd2 & Hs2).
    exists (evs1 ++ evs2), (cs1 ++ cs2).
    rewrite Hu2, Hu1, Hc2, Hc1, <- !app_assoc.
    repeat split; try reflexivity.
    + apply Forall_app. split; [| exact Hn2].
      now apply no_download_well_named.
    + intros Hr. apply no_download_app; auto.
    + eapply sound_calls_app; eassumption.
  - destruct (Hm _ _ _ H1) as (evs & cs & Hu & Hc & Hd & Hs).
    exists evs, cs. repeat split; auto.
    now apply no_download_well_named.
Qed.

(** Lines 375-388: the download button and the success box. *)
Lemma behaves_offer label data file_name :
  named file_name ->
  behaves E named
    (bind (show (st_download_button label data file_name "application/pdf"))
       (fun _ => show (st_markdown SuccessBox))).
Proof.
  intros Hn w r w' H. inversion H; subst; clear H.
  exists [st_download_button label data file_name "application/pdf";
          st_markdown SuccessBox], [].
  simpl. rewrite app_nil_r, <- app_assoc. repeat split.
  - repeat constructor. exact Hn.
  - intros He. now destruct He.
  - now left.
Qed.

End Blocks.

Lemma behaves_mono E (named named' : string -> Prop) {A} (m : M A) :
  (forall f, named f -> named' f) ->
  behaves E named m -> behaves E named' m.
Proof.
  intros Hn Hm w r w' H.
  destruct (Hm _ _ _ H) as (evs & cs & Hu & Hc & Hw & Hd & Hs).
  exists evs, cs. repeat split; auto.
  eapply Forall_impl; [exact Hw |].
  intros [ | | | | | | label data f mime]; simpl; auto.
  intros [Hf Hmime]. auto.
Qed.

Create HintDb blocks.

(** Walk through a block of statements none of which offers a download. *)
Ltac block :=
  repeat first
    [ apply plain_ret | apply plain_raise | apply plain_lift
    | apply plain_ask | apply plain_pdf_call | apply plain_first_page
    | apply plain_datetime_now | apply plain_response_json
    | apply plain_show; reflexivity
    | apply plain_request; intros ?
    | solve [auto with blocks]
    | apply plain_bind; [| intros ? ?]
    | match goal with
      | |- plain _ (if ?b then _ else _) => destruct b
      | |- plain _ (match ?x with _ => _ end) => destruct x
      | |- plain _ (let '(_, _) := ?x in _) => destruct x
      end ].

Lemma plain_get_company_by_id E self company_id :
  plain E (get_company_by_id self company_id).
Proof. unfold get_company_by_id. block. Qed.

Lemma plain_get_contact_by_id E self contact_id :
  plain E (get_contact_by_id self contact_id).
Proof. unfold get_contact_by_id. block. Qed.

#[local] Hint Resolve plain_get_company_by_id plain_get_contact_by_id : blocks.

Lemma plain_get_company_contacts E self company_id :
  plain E (get_company_contacts self company_id).
Proof. unfold get_company_contacts. block. Qed.

Lemma plain_search_company_by_name E self company_name :
  plain E (search_company_by_name self company_name).
Proof. unfold search_company_by_name. block. Qed.

Lemma plain_account_team_of E contact : plain E (account_team_of contact).
Proof. unfold account_team_of. block. Qed.

#[local] Hint Resolve plain_get_company_contacts plain_search_company_by_name
  plain_account_team_of : blocks.

Lemma plain_fill_btx_welcome_packet E tmpl company contact :
  plain E (fill_btx_welcome_packet tmpl company contact).
Proof. unfold fill_btx_welcome_packet. block. Qed.

Lemma plain_metric E label value : plain E (metric label value).
Proof. unfold metric. block. Qed.

Lemma plain_replace_spaces E company_name :
  plain E (replace_spaces company_name).
Proof. unfold replace_spaces. block. Qed.

Lemma plain_on_exception E inp e : plain E (on_exception inp e).
Proof. unfold on_exception. block. Qed.

#[local] Hint Resolve plain_fill_btx_welcome_packet plain_metric
  plain_replace_spaces plain_on_exception : blocks.

(* ===================================================================== *)
(** ** The download filename *)
(* ===================================================================== *)

Lemma py_replace_spaces s :
  py_replace " " "_" s = spaces_to_underscores s.
Proof.
  unfold py_replace. induction s as [ | c s IH]; [reflexivity |].
  cbn [replace_from spaces_to_underscores after_prefix].
  destruct (Ascii.eqb_spec " " c) as [<- | Hne].
  - cbn. now rewrite IH.
  - apply Ascii.eqb_neq in Hne. rewrite Ascii.eqb_sym in Hne. rewrite Hne.
    now rewrite IH.
Qed.

Lemma pretty_N_char_ascii d :
  (d < 10)%N -> pretty_N_char d = ascii_of_N (48 + d).
Proof.
  intros H.
  assert (d = 0 \/ d = 1 \/ d = 2 \/ d = 3 \/ d = 4 \/ d = 5 \/ d = 6
          \/ d = 7 \/ d = 8 \/ d = 9)%N as Hd by lia.
  repeat (destruct Hd as [-> | Hd]; [reflexivity |]). now subst.
Qed.

Ltac div_lia := zify; Z.div_mod_to_equations; lia.

Lemma digit_char (y k : Z) (x : N) :
  0 <= y -> 0 < k -> Z.of_N x = y / k ->
  String (pretty_N_char (x mod 10)%N) EmptyString = digit (y / k).
Proof.
  intros Hy Hk Hx. unfold digit. f_equal.
  rewrite pretty_N_char_ascii by (apply N.mod_lt; discriminate).
  f_equal. f_equal. rewrite <- Hx.
  rewrite <- (N2Z.id (x mod 10)%N). f_equal. now rewrite N2Z.inj_mod.
Qed.

Lemma pretty_four_digits y :
  1000 <= y <= 9999 ->
  pretty y
  = (digit (y / 1000) ++ digit (y / 100) ++ digit (y / 10) ++ digit y)%string.
Proof.
  intros Hy. destruct y as [ | p | p]; try lia.
  change (pretty (Z.pos p)) with (pretty (N.pos p)).
  unfold pretty, pretty_N.
  destruct (decide (N.pos p = 0%N)) as [H0 | _]; [discriminate |].
  set (x := N.pos p). assert (Hx : Z.of_N x = Z.pos p) by reflexivity.
  assert (1000 <= x <= 9999)%N by lia.
  rewrite pretty_N_go_step by lia.
  rewrite pretty_N_go_step by div_lia.
  rewrite pretty_N_go_step by div_lia.
  rewrite pretty_N_go_step by div_lia.
  replace (x / 10 / 10 / 10 / 10)%N with 0%N by div_lia.
  rewrite pretty_N_go_0.
  rewrite <- (digit_char (Z.pos p) 1000 (x / 10 / 10 / 10)%N)
    by div_lia.
  rewrite <- (digit_char (Z.pos p) 100 (x / 10 / 10)%N) by div_lia.
  rewrite <- (digit_char (Z.pos p) 10 (x / 10)%N) by div_lia.
  replace (digit (Z.pos p)) with (digit (Z.pos p / 1))
    by (now rewrite Z.div_1_r).
  rewrite <- (digit_char (Z.pos p) 1 x) by div_lia.
  reflexivity.
Qed.

Lemma pretty_length_four y :
  1000 <= y <= 9999 -> String.length (pretty y) = 4%nat.
Proof. intros Hy. now rewrite pretty_four_digits. Qed.

Lemma zero_pad_four y :
  1000 <= y <= 9999 ->
  zero_pad 4 y
  = (digit (y / 1000) ++ digit (y / 100) ++ digit (y / 10) ++ digit y)%string.
Proof.
  intros Hy. unfold zero_pad. rewrite pretty_length_four by exact Hy.
  now rewrite pretty_four_digits.
Qed.

Lemma zero_pad_two n :
  0 <= n <= 31 -> zero_pad 2 n = (digit (n / 10) ++ digit n)%string.
Proof.
  intros Hn.
  assert (Hcases : exists k, (k <= 31)%nat /\ n = Z.of_nat k).
  { exists (Z.to_nat n). split; lia. }
  destruct Hcases as (k & Hk & ->).
  do 32 (destruct k as [ | k]; [vm_compute; reflexivity |]). lia.
Qed.

Lemma strftime_Ymd_yyyymmdd d :
  calendar_date d -> strftime_Ymd d = yyyymmdd d.
Proof.
  intros [Hy Hd]. unfold strftime_Ymd, yyyymmdd.
  rewrite zero_pad_four by exact Hy.
  rewrite (zero_pad_two (day d)) by lia.
  rewrite (zero_pad_two (month_number (mon d)))
    by (destruct (mon d); simpl; lia).
  reflexivity.
Qed.

(* ===================================================================== *)
(** ** The generate action *)
(* ===================================================================== *)

Lemma returns_ask E E' : returns E ask E' -> E' = E.
Proof. intros (w & w' & H). now inversion H. Qed.

Lemma returns_lift E {A} (r : py_result A) a : returns E (lift r) a -> r = Ok a.
Proof. intros (w & w' & H). now inversion H. Qed.

Lemma returns_datetime_now E d :
  returns E datetime_now d -> exists n, d = now E n.
Proof. intros (w & w' & H). inversion H. eauto. Qed.

Lemma returns_replace_spaces E v u :
  returns E (replace_spaces v) u ->
  exists s, v = JStr s /\ u = py_replace " " "_" s.
Proof.
  intros (w & w' & H). destruct v; try discriminate.
  inversion H. eauto.
Qed.

Lemma company_name_of_getitem company_data props s :
  py_getitem company_data "properties" = Ok props ->
  py_getitem props "name" = Ok (JStr s) ->
  company_name_of company_data = Some s.
Proof.
  destruct company_data as [ | | | | | c]; try discriminate. simpl.
  destruct (c !! "properties") as [v | ]; try discriminate.
  intros H; inversion H; subst; clear H.
  destruct props as [ | | | | | p]; try discriminate. simpl.
  destruct (p !! "name") as [v | ]; try discriminate.
  intros H; inversion H; subst. reflexivity.
Qed.

(** The only download [generate_packet] offers is the packet of its
    company, under the filename of line 372. *)
Lemma behaves_generate_packet E (named : string -> Prop) inp client
    company_id company_data :
  (forall s n,
     company_name_of company_data = Some s ->
     named ("BTX_Welcome_Packet_" ++ py_replace " " "_" s ++ "_"
            ++ strftime_Ymd (now E n) ++ ".pdf")%string) ->
  behaves E named (generate_packet inp client company_id company_data).
Proof.
  intros Hnamed. unfold generate_packet.
  apply behaves_bind; [block | intros E' HE'].
  apply returns_ask in HE' as ->.
  apply behaves_bind; [block | intros props Hprops].
  apply returns_lift in Hprops.
  apply behaves_bind; [block | intros name Hname].
  apply returns_lift in Hname.
  do 7 (apply behaves_bind; [block | intros ? _]).
  match goal with |- behaves _ _ (let '(_, _) := ?x in _) => destruct x end.
  do 9 (apply behaves_bind; [block | intros ? _]).
  apply behaves_bind; [block | intros underscored Hu].
  apply returns_replace_spaces in Hu as (s & -> & ->).
  apply behaves_bind; [block | intros today Htoday].
  apply returns_datetime_now in Htoday as (n & ->).
  apply behaves_bind; [block | intros _ _].
  apply behaves_offer. apply Hnamed.
  eapply company_name_of_getitem; eassumption.
Qed.

Lemma behaves_fetch_and_generate E (named : string -> Prop) inp :
  (forall company_data s n,
     found_company inp E company_data ->
     company_name_of company_data = Some s ->
     named ("BTX_Welcome_Packet_" ++ py_replace " " "_" s ++ "_"
            ++ strftime_Ymd (now E n) ++ ".pdf")%string) ->
  behaves E named (fetch_and_generate inp).
Proof.
  intros Hnamed. unfold fetch_and_generate.
  destruct (search_method inp) eqn:Hmethod.
  - apply behaves_bind; [block | intros _ _].
    apply behaves_bind; [block | intros company_data Hfound].
    destruct (negb (truthy company_data)).
    + apply plain_behaves. block.
    + apply behaves_bind; [block | intros company_id _].
      apply behaves_generate_packet. intros s n. apply Hnamed.
      unfold found_company, company_lookup. now rewrite Hmethod.
  - apply behaves_bind; [block | intros company_data Hfound].
    apply behaves_generate_packet. intros s n. apply Hnamed.
    unfold found_company, company_lookup. now rewrite Hmethod.
Qed.

Lemma on_exception_run inp e E w :
  on_exception inp e E w = (Ok tt, add_events (exception_message inp E e) w).
Proof.
  unfold on_exception, exception_message, add_events, bind, ask, show,
    add_ui, invalid_api_key_message, not_found_message,
    unexpected_error_message.
  destruct e as [status body | | | | | | | ]; simpl;
    try (now rewrite <- !app_assoc).
  destruct (status =? 401); [now rewrite <- !app_assoc |].
  destruct (status =? 404); now rewrite <- !app_assoc.
Qed.

Lemma main_app_generates inp :
  generates inp = true ->
  main_app inp = try_except (fetch_and_generate inp) (on_exception inp).
Proof.
  unfold generates, main_app. intros H.
  apply andb_true_iff in H as [H Hinput].
  apply andb_true_iff in H as [H Hbutton].
  apply andb_true_iff in H as [Hkey Htemplate].
  apply negb_true_iff in Hkey, Hinput. rewrite Hkey, Hbutton, Hinput.
  destruct (uploaded_template inp), (default_template inp);
    try reflexivity. discriminate.
Qed.

(** Without the [try], a run makes no call and offers nothing. *)
Lemma main_app_idle inp E w :
  generates inp = false ->
  exists evs, main_app inp E w = (Ok tt, add_events evs w)
              /\ no_download evs.
Proof.
  unfold generates, main_app. intros H.
  assert (Hnone : exists evs, (@Ok unit tt, w) = (Ok tt, add_events evs w)
                              /\ no_download evs).
  { exists []. split; [| reflexivity]. unfold add_events.
    rewrite app_nil_r. now destruct w. }
  assert (Hone : forall msg,
            exists evs, show (st_error msg) E w = (Ok tt, add_events evs w)
                        /\ no_download evs).
  { intros msg. exists [st_error msg]. split; reflexivity. }
  destruct (String.eqb (in_api_key inp) ""); [exact Hnone |].
  destruct (uploaded_template inp), (default_template inp);
    try apply Hone;
    (destruct (generate_button inp); [| exact Hnone]);
    (destruct (String.eqb (company_input inp) ""); [apply Hone |]);
    discriminate.
Qed.

Lemma try_except_inv {A} (m : M A) h E w r w' :
  try_except m h E w = (r, w') ->
  (exists a, m E w = (Ok a, w') /\ r = Ok a)
  \/ (exists e w1, m E w = (Raise e, w1) /\ h e E w1 = (r, w')).
Proof.
  unfold try_except. destruct (m E w) as [[a | e] w1]; intros H.
  - left. exists a. now inversion H.
  - right. now exists e, w1.
Qed.

(** An answer 401 in the log of a plain block is the exception it ended
    in. *)
Lemma plain_401 E {A} (m : M A) w r w' :
  plain E m -> m E w = (r, w') ->
  no_401 (calls w) -> existsb answered_401 (calls w') = true ->
  exists body, r = Raise (HTTPError 401 body).
Proof.
  intros Hm H Hw Hw'.
  destruct (Hm _ _ _ H) as (evs & cs & _ & Hc & _ & [Hs | (body & Hs)]).
  - rewrite Hc, existsb_app, Hw, Hs in Hw'. discriminate.
  - exists body. destruct r; simpl in Hs; [discriminate | congruence].
Qed.


Lemma plain_raises_on_401 E {A} (m : M A) : plain E m -> raises_on_401 E m.
Proof. intros Hm w r w' H Hw Hw'. eapply plain_401; eassumption. Qed.

(** C4. Whichever CRM call of a generate attempt is answered with 401 --
    the company fetch, the name search, the association listing or the
    contact fetch --, the call ends in the [HTTPError] of that answer, and
    the run ends with the invalid-or-expired-API-key messages, nothing
    offered: [Failed]. *)
Theorem C4_unauthorized inp E w r w' :
  no_401 (calls w) ->
  no_download (ui w) ->
  main_app inp E w = (r, w') ->
  existsb answered_401 (calls w') = true ->
  r = Ok tt
  /\ (exists evs,
        ui w' = ui w ++ evs ++ invalid_api_key_message /\ no_download evs)
  /\ Failed_state w' = true
  /\ (forall self company_id,
        raises_on_401 E (get_company_by_id self company_id))
  /\ (forall self company_name,
        raises_on_401 E (search_company_by_name self company_name))
  /\ (forall self company_id,
        raises_on_401 E (get_company_contacts self company_id))
  /\ (forall self contact_id,
        raises_on_401 E (get_contact_by_id self contact_id)).
Proof.
  intros Hcalls Hui Hrun H401.
  assert (Hmain : r = Ok tt
    /\ exists evs,
         ui w' = ui w ++ evs ++ invalid_api_key_message /\ no_download evs).
  { destruct (generates inp) eqn:Hgen.
    - rewrite (main_app_generates _ Hgen) in Hrun.
      apply try_except_inv in Hrun
        as [(a & Hbody & ->) | (e & w1 & Hbody & Hhandler)].
      + apply (behaves_fetch_and_generate E (fun _ => True)) in Hbody;
          [| auto].
        destruct Hbody as (evs & cs & _ & Hc & _ & _ & [Hs | (body & Hs)]);
          [| discriminate].
        rewrite Hc, existsb_app, Hcalls, Hs in H401. discriminate.
      + rewrite on_exception_run in Hhandler.
        inversion Hhandler; subst r w'; clear Hhandler.
        apply (behaves_fetch_and_generate E (fun _ => True)) in Hbody;
          [| auto].
        destruct Hbody as (evs & cs & Hu & Hc & _ & Hd & [Hs | (body & Hs)]).
        * simpl in H401. rewrite Hc, existsb_app, Hcalls, Hs in H401.
          discriminate.
        * inversion Hs; subst e. split; [reflexivity |].
          exists evs. simpl. rewrite Hu, <- app_assoc.
          split; [reflexivity |]. apply Hd. discriminate.
    - destruct (main_app_idle inp E w Hgen) as (evs & Hidle & _).
      rewrite Hidle in Hrun. inversion Hrun; subst r w'.
      simpl in H401. rewrite Hcalls in H401. discriminate. }
  destruct Hmain as (-> & evs & Hu & Hd).
  split; [reflexivity |]. split; [now exists evs |]. split.
  - unfold Failed_state, Ready. rewrite Hu, !existsb_app.
    rewrite Hui, Hd. simpl. now rewrite !orb_true_r.
  - split; [| split; [| split]]; intros self x;
      apply plain_raises_on_401; auto with blocks.
Qed.

Lemma C4_unauthorized_witness :
  Failed_state
    (snd (main_app (Demo.by_id "42" Demo.template)
            (Demo.env Demo.crm_unauthorized_contacts) initial_world))
  = true.
Proof.
  destruct (main_app (Demo.by_id "42" Demo.template)
              (Demo.env Demo.crm_unauthorized_contacts) initial_world)
    as [r w'] eqn:Hrun.
  apply (C4_unauthorized (Demo.by_id "42" Demo.template)
           (Demo.env Demo.crm_unauthorized_contacts) initial_world r w').
  - reflexivity.
  - reflexivity.
  - exact Hrun.
  - apply (f_equal snd) in Hrun. simpl in Hrun. subst w'.
    vm_compute. reflexivity.
Defined.

(* ===================================================================== *)
(** ** Templates the filler cannot use *)
(* ===================================================================== *)

Lemma py_get_raise v key dflt e :
  py_get v key dflt = Raise e -> e = AttributeError "get".
Proof. destruct v; simpl; intros H; now inversion H. Qed.

Lemma pdf_call_raise {A} (l : lib_result A) E w e w' :
  pdf_call l E w = (Raise e, w') -> exists msg, e = PdfError msg.
Proof.
  destruct l as [a | msg]; unfold pdf_call, ret, raise; intros H;
    inversion H. eauto.
Qed.

Lemma first_page_raise {A} (l : list A) E w e w' :
  first_page l E w = (Raise e, w') -> e = IndexError.
Proof.
  destruct l; unfold first_page, ret, raise; intros H; now inversion H.
Qed.

(** The exceptions of the filler: the PDF library's own, the [IndexError]
    of a document without pages, and the [AttributeError] of a record that
    is no [dict]. *)
Lemma fill_raises tmpl company contact E w e w' :
  fill_btx_welcome_packet tmpl company contact E w = (Raise e, w') ->
  (exists msg, e = PdfError msg) \/ e = IndexError
  \/ e = AttributeError "get".
Proof.
  unfold fill_btx_welcome_packet. intros H.
  apply bind_inv in H as [(E' & w0 & HE & H) | (e0 & HE & _)];
    [| discriminate].
  inversion HE; subst E' w0; clear HE.
  apply bind_inv in H as [(props & w0 & Hs & H) | (e0 & Hs & [= ->])];
    apply lift_inv in Hs as [Hs ?]; subst;
    [| symmetry in Hs; apply py_get_raise in Hs; auto].
  apply bind_inv in H as [(name & w0 & Hs' & H) | (e0 & Hs' & [= ->])];
    apply lift_inv in Hs' as [Hs' ?]; subst;
    [| symmetry in Hs'; apply py_get_raise in Hs'; auto].
  apply bind_inv in H as [(number & w0 & Hs'' & H) | (e0 & Hs'' & [= ->])];
    apply lift_inv in Hs'' as [Hs'' ?]; subst;
    [| symmetry in Hs''; apply py_get_raise in Hs''; auto].
  apply bind_inv in H as [(team & w0 & Ht & H) | (e0 & Ht & [= ->])];
    [| apply account_team_of_spec in Ht as [_ ->]; auto].
  apply bind_inv in H as [(today & w1 & Hn & H) | (e0 & Hn & _)];
    [| discriminate].
  apply bind_inv in H as [(reader & w2 & Hr & H) | (e0 & Hr & [= ->])];
    [| apply pdf_call_raise in Hr; auto].
  apply bind_inv in H as [(writer & w3 & Hc & H) | (e0 & Hc & [= ->])];
    [| apply pdf_call_raise in Hc; auto].
  apply bind_inv in H as [(page & w4 & Hp & H) | (e0 & Hp & [= ->])];
    [| apply first_page_raise in Hp; auto].
  apply bind_inv in H as [(writer' & w5 & Hu & H) | (e0 & Hu & [= ->])];
    [| apply pdf_call_raise in Hu; auto].
  apply bind_inv in H as [(output & w6 & Hw & H) | (e0 & Hw & [= ->])];
    [| apply pdf_call_raise in Hw; auto].
  discriminate.
Qed.

(** A completed fill has read the template and found a first page. *)
Lemma fill_library tmpl company contact E w out fv w' :
  fill_btx_welcome_packet tmpl company contact E w = (Ok (out, fv), w') ->
  exists reader writer page rest,
    PdfReader (pdf E) tmpl = Returned reader
    /\ clone_document_from_reader (pdf E) reader = Returned writer
    /\ pages (pdf E) writer = page :: rest.
Proof.
  unfold fill_btx_welcome_packet. intros H.
  apply bind_inv_ok in H as (E' & w0 & HE & H).
  inversion HE; subst E' w0; clear HE.
  do 5 (apply bind_inv_ok in H as (? & ? & _ & H)).
  apply bind_inv_ok in H as (reader & w1 & Hreader & H).
  apply pdf_call_inv in Hreader as [Hreader _].
  apply bind_inv_ok in H as (writer & w2 & Hwriter & H).
  apply pdf_call_inv in Hwriter as [Hwriter _].
  apply bind_inv_ok in H as (page & w3 & Hpage & _).
  exists reader, writer, page. unfold first_page in Hpage.
  destruct (pages (pdf E) writer) as [ | p rest] eqn:Hpages;
    [discriminate |].
  inversion Hpage; subst. eauto.
Qed.

Lemma no_download_exception_message inp E e :
  no_download (exception_message inp E e).
Proof.
  unfold exception_message.
  destruct e as [status body | | | | | | | ]; try reflexivity.
  destruct (status =? 401); [reflexivity |].
  destruct (status =? 404); reflexivity.
Qed.


(* ===================================================================== *)
(** ** Requests *)
(* ===================================================================== *)

Lemma calls_get_company_by_id self company_id E w :
  calls (snd (get_company_by_id self company_id E w))
  = calls w
    ++ [(company_by_id_request self E company_id,
         http E (company_by_id_request self E company_id))].
Proof.
  unfold get_company_by_id, bind, ask, requests_send, raise_for_status,
    response_json, ret, raise.
  destruct (http E _) as [resp | msg]; [| reflexivity].
  destruct ((400 <=? status_code resp) && (status_code resp <? 600));
    [reflexivity |].
  destruct (json_value resp); reflexivity.
Qed.

Lemma calls_search_company_by_name self company_name E w :
  calls (snd (search_company_by_name self company_name E w))
  = calls w
    ++ [(search_request self company_name,
         http E (search_request self company_name))].
Proof.
  unfold search_company_by_name, bind, requests_send, raise_for_status,
    response_json, lift, ret, raise.
  destruct (http E _) as [resp | msg]; [| reflexivity].
  destruct ((400 <=? status_code resp) && (status_code resp <? 600));
    [reflexivity |].
  destruct (json_value resp) as [results | ]; [| reflexivity].
  destruct (py_get results "results" JNull) as [found | e]; [| reflexivity].
  destruct (truthy found); [| reflexivity].
  destruct (py_getitem results "results"); reflexivity.
Qed.

Lemma has_char_app c s1 s2 :
  has_char c (s1 ++ s2)%string = has_char c s1 || has_char c s2.
Proof.
  induction s1 as [ | a s1 IH]; [reflexivity |].
  simpl. now rewrite IH, orb_assoc.
Qed.

Lemma all_id_chars_has_char c id :
  id_char c = false -> all_id_chars id = true -> has_char c id = false.
Proof.
  intros Hc. induction id as [ | a id IH]; [reflexivity |].
  simpl. intros H. apply andb_true_iff in H as [Ha Hid].
  rewrite (IH Hid), orb_false_r.
  destruct (Ascii.eqb_spec a c) as [-> | _]; [| reflexivity].
  rewrite Hc in Ha. discriminate.
Qed.

(** C9 as the specification words it fails: the query string is not
    [properties=name,customer-number]; and the id is pasted into the URL as
    it is, so that an id with a [?] brings a query of its own, and an id
    with dot segments a path that leads out of [companies/]. *)
Lemma C9_counterexample :
  req_params (company_by_id_request (HubSpotClient_init "pat-123")
                (Demo.env Demo.crm) (JStr "42"))
  <> [("properties", "name,customer-number")%string]
  /\ req_url (company_by_id_request (HubSpotClient_init "pat-123")
                (Demo.env Demo.crm) (JStr "42?properties=domain"))
     = "https://api.hubapi.com/crm/v3/objects/companies/42?properties=domain"
       %string
  /\ has_query
       (req_url (company_by_id_request (HubSpotClient_init "pat-123")
                   (Demo.env Demo.crm) (JStr "42?properties=domain")))
     = true
  /\ req_url (company_by_id_request (HubSpotClient_init "pat-123")
                (Demo.env Demo.crm) (JStr "../contacts/7"))
     = "https://api.hubapi.com/crm/v3/objects/companies/../contacts/7"
       %string.
Proof. split; [discriminate | repeat split]. Qed.

(** C9, as the module has it. For an id made of letters, digits, [-] and
    [_], the company-by-id fetch is one GET of
    [/crm/v3/objects/companies/{id}], a URL without query and without
    fragment of its own, with the single parameter
    [properties=name,btx_customer__]: the name and the customer number,
    which the CRM keeps under the key [btx_customer__], and nothing else.
    The name search is one POST to a URL without query whose [properties]
    are these two. *)
Theorem C9_requested_properties key E w :
  (forall id,
     plain_id id = true ->
     let rq := company_by_id_request (HubSpotClient_init key) E (JStr id) in
     req_method rq = GET
     /\ req_url rq
        = ("https://api.hubapi.com/crm/v3/objects/companies/" ++ id)%string
     /\ has_query (req_url rq) = false
     /\ has_fragment (req_url rq) = false
     /\ req_params rq = [("properties", "name,btx_customer__")%string]
     /\ req_json rq = None
     /\ calls (snd (get_company_by_id (HubSpotClient_init key) (JStr id)
                      E w))
        = calls w ++ [(rq, http E rq)])
  /\ (forall company_name,
        let rq := search_request (HubSpotClient_init key) company_name in
        req_method rq = POST
        /\ req_url rq
           = "https://api.hubapi.com/crm/v3/objects/companies/search"%string
        /\ has_query (req_url rq) = false
        /\ has_fragment (req_url rq) = false
        /\ req_params rq = []
        /\ (exists payload,
              req_json rq = Some (JObj payload)
              /\ payload !! "properties"
                 = Some (JArr [JStr "name"; JStr "btx_customer__"]))
        /\ calls (snd (search_company_by_name (HubSpotClient_init key)
                         company_name E w))
           = calls w ++ [(rq, http E rq)]).
Proof.
  split.
  - intros id Hid rq.
    apply andb_true_iff in Hid as [_ Hid].
    assert (Hurl : req_url rq
              = ("https://api.hubapi.com/crm/v3/objects/companies/" ++ id)
                %string) by reflexivity.
    split; [reflexivity |]. split; [exact Hurl |].
    split.
    { unfold has_query. rewrite Hurl, has_char_app.
      now rewrite (all_id_chars_has_char "?" id). }
    split.
    { unfold has_fragment. rewrite Hurl, has_char_app.
      now rewrite (all_id_chars_has_char "#" id). }
    repeat split. apply calls_get_company_by_id.
  - intros company_name rq. repeat split.
    + eexists. split; [reflexivity |].
      rewrite lookup_insert_ne by discriminate. apply lookup_singleton_eq.
    + apply calls_search_company_by_name.
Qed.

Lemma C9_requested_properties_witness :
  has_query
    (req_url (company_by_id_request (HubSpotClient_init "pat-123")
                (Demo.env Demo.crm) (JStr "42"))) = false
  /\ req_params (company_by_id_request (HubSpotClient_init "pat-123")
                   (Demo.env Demo.crm) (JStr "42"))
     = [("properties", "name,btx_customer__")%string].
Proof.
  pose proof (proj1 (C9_requested_properties "pat-123" (Demo.env Demo.crm)
                       initial_world) "42" eq_refl) as H.
  cbv zeta in H. destruct H as (_ & _ & Hq & _ & Hp & _).
  exact (conj Hq Hp).
Defined.

(* ===================================================================== *)
(** ** Runs without a company *)
(* ===================================================================== *)

Lemma search_company_by_name_no_match self company_name E w resp m :
  http E (search_request self company_name) = Returned resp ->
  accepted resp = true ->
  json_value resp = Some (JObj m) ->
  truthy (default JNull (m !! "results")) = false ->
  search_company_by_name self company_name E w
  = (Ok JNull, add_call (search_request self company_name, Returned resp) w).
Proof.
  intros Hhttp Hok Hjson Hnone.
  unfold accepted in Hok. apply negb_true_iff in Hok.
  unfold search_company_by_name, bind, requests_send, raise_for_status,
    response_json, lift, ret.
  rewrite Hhttp, Hok, Hjson. cbn [py_get]. now rewrite Hnone.
Qed.

Lemma get_company_by_id_rejected self company_id E w resp :
  http E (company_by_id_request self E company_id) = Returned resp ->
  accepted resp = false ->
  get_company_by_id self company_id E w
  = (Raise (HTTPError (status_code resp) (text resp)),
     add_call (company_by_id_request self E company_id, Returned resp) w).
Proof.
  intros Hhttp Hrejected.
  unfold accepted in Hrejected. apply negb_false_iff in Hrejected.
  unfold get_company_by_id, bind, ask, requests_send, raise_for_status, raise.
  now rewrite Hhttp, Hrejected.
Qed.

Lemma add_events_two a b w : add_ui b (add_ui a w) = add_events [a; b] w.
Proof. unfold add_ui, add_events. simpl. now rewrite <- app_assoc. Qed.

(** C6. A name search without match and a company id the CRM answers with
    404 end differently. The search returns [None], no exception; the run
    says that no company was found, suggests the lookup by id and stops
    after this one call. The 404 is an [HTTPError]; the run says "Not
    Found" through the [except] clause. *)
Theorem C6_not_found inp E w :
  generates inp = true ->
  (search_method inp = SearchByName ->
   forall resp m,
     let client := HubSpotClient_init (in_api_key inp) in
     let rq := search_request client (company_input inp) in
     http E rq = Returned resp ->
     accepted resp = true ->
     json_value resp = Some (JObj m) ->
     truthy (default JNull (m !! "results")) = false ->
     search_company_by_name client (company_input inp) E (lookup_start inp w)
     = (Ok JNull, add_call (rq, Returned resp) (lookup_start inp w))
     /\ main_app inp E w
        = (Ok tt,
           add_events (no_company_found_message inp)
             (add_call (rq, Returned resp) (lookup_start inp w))))
  /\ (search_method inp = UseCompanyID ->
      forall resp,
        let client := HubSpotClient_init (in_api_key inp) in
        let rq := company_by_id_request client E (JStr (company_input inp)) in
        http E rq = Returned resp ->
        status_code resp = 404 ->
        get_company_by_id client (JStr (company_input inp)) E w
        = (Raise (HTTPError 404 (text resp)), add_call (rq, Returned resp) w)
        /\ main_app inp E w
           = (Ok tt,
              add_events (not_found_message inp)
                (add_call (rq, Returned resp) w)))
  /\ no_company_found_message inp <> not_found_message inp.
Proof.
  intros Hgen. split; [| split].
  - intros Hmethod resp m client rq Hhttp Hok Hjson Hnone.
    pose proof (search_company_by_name_no_match client (company_input inp)
                  E (lookup_start inp w) resp m Hhttp Hok Hjson Hnone)
      as Hsearch.
    split; [exact Hsearch |].
    rewrite (main_app_generates _ Hgen).
    unfold try_except, fetch_and_generate. rewrite Hmethod.
    unfold lookup_start in Hsearch. rewrite Hmethod in Hsearch.
    erewrite bind_ok by reflexivity.
    erewrite bind_ok by exact Hsearch.
    cbn [truthy negb]. unfold bind, show, lookup_start. rewrite Hmethod.
    now rewrite add_events_two.
  - intros Hmethod resp client rq Hhttp Hstatus.
    assert (Hrejected : accepted resp = false).
    { unfold accepted. now rewrite Hstatus. }
    pose proof (get_company_by_id_rejected client
                  (JStr (company_input inp)) E w resp Hhttp Hrejected)
      as Hfetch.
    rewrite Hstatus in Hfetch. split; [exact Hfetch |].
    rewrite (main_app_generates _ Hgen).
    unfold try_except, fetch_and_generate. rewrite Hmethod.
    erewrite bind_raise by exact Hfetch.
    now rewrite on_exception_run.
  - discriminate.
Qed.

Lemma C6_not_found_witness :
  main_app (Demo.by_name "Acme" Demo.template)
    (Demo.env Demo.crm_without_match) initial_world
  = (Ok tt,
     add_events
       (no_company_found_message (Demo.by_name "Acme" Demo.template))
       (add_call
          (search_request (HubSpotClient_init "pat-123") "Acme",
           Demo.ok (JObj {[ "results" := JArr [] ]}))
          (lookup_start (Demo.by_name "Acme" Demo.template) initial_world)))
  /\ main_app (Demo.by_id "43" Demo.template)
       (Demo.env Demo.crm) initial_world
     = (Ok tt,
        add_events
          (not_found_message (Demo.by_id "43" Demo.template))
          (add_call
             (company_by_id_request (HubSpotClient_init "pat-123")
                (Demo.env Demo.crm) (JStr "43"),
              Demo.status 404)
             initial_world)).
Proof.
  split.
  - refine (proj2 (proj1 (C6_not_found (Demo.by_name "Acme" Demo.template)
      (Demo.env Demo.crm_without_match) initial_world _) _
      {| status_code := 200; text := "{...}";
         json_value := Some (JObj {[ "results" := JArr [] ]}) |}
      {[ "results" := JArr [] ]} _ _ _ _));
      vm_compute; reflexivity.
  - refine (proj2 (proj1 (proj2 (C6_not_found
      (Demo.by_id "43" Demo.template) (Demo.env Demo.crm) initial_world _))
      _ {| status_code := 404; text := "{...}"; json_value := None |} _ _));
      vm_compute; reflexivity.
Defined.

(* ===================================================================== *)
(** ** Runs without a contact *)
(* ===================================================================== *)

Lemma company_name_of_inv company_data name :
  company_name_of company_data = Some name ->
  exists c p,
    company_data = JObj c /\ c !! "properties" = Some (JObj p)
    /\ p !! "name" = Some (JStr name).
Proof.
  unfold company_name_of.
  destruct company_data as [ | | | | | c]; try discriminate.
  destruct (c !! "properties") as [[ | | | | | p] | ] eqn:Hc;
    try discriminate.
  destruct (p !! "name") as [[ | | | s | | ] | ] eqn:Hp; try discriminate.
  intros H. injection H as <-. eauto.
Qed.

Lemma truthy_with_key (c : gmap string json) key v :
  c !! key = Some v -> truthy (JObj c) = true.
Proof.
  intros Hc. simpl. apply negb_true_iff, bool_decide_eq_false.
  intros ->. rewrite lookup_empty in Hc. discriminate.
Qed.

Lemma account_team_of_absent contact E w :
  truthy contact = false -> account_team_of contact E w = (Ok "N/A"%string, w).
Proof.
  intros H. unfold account_team_of, bind, ask. now rewrite H.
Qed.

(** The fill goes through when the records are well formed and the PDF
    library does its part. *)
Lemma fill_run b c p contact team E w out :
  c !! "properties" = Some (JObj p) ->
  account_team_of contact E w = (Ok team, w) ->
  library_fills E b out ->
  let fv : gmap string json :=
    {[ "Text1" := default (JStr "N/A") (p !! "name");
       "Text2" := default (JStr "N/A") (p !! "btx_customer__");
       "Text3" := JStr team;
       "Text4" := JStr (strftime_B_d_Y (now E (clock_reads w))) ]} in
  fill_btx_welcome_packet b (JObj c) contact E w
  = (Ok (out fv, fv), tick w).
Proof.
  intros Hc Hteam (reader & writer & page & rest & Hr & Hcl & Hp & Hup) fv.
  destruct (Hup fv) as (writer' & Hu & Hw).
  unfold fill_btx_welcome_packet.
  erewrite bind_ok by reflexivity.
  cbn [py_get]. rewrite Hc. cbn [default].
  do 3 (erewrite bind_ok by reflexivity).
  erewrite bind_ok by exact Hteam.
  erewrite bind_ok by reflexivity.
  rewrite Hr. erewrite bind_ok by reflexivity.
  rewrite Hcl. erewrite bind_ok by reflexivity.
  rewrite Hp. erewrite bind_ok by reflexivity.
  fold fv. rewrite Hu. erewrite bind_ok by reflexivity.
  rewrite Hw. erewrite bind_ok by reflexivity.
  reflexivity.
Qed.

Lemma metric_displayable label value E w :
  displayable value ->
  metric label value E w = (Ok tt, add_ui (st_metric label value) w).
Proof. destruct value; simpl; intros H; try reflexivity; destruct H. Qed.

Lemma generate_packet_without_contact inp client company_id company_data
    E w name number contact w2 b out :
  company_name_of company_data = Some name ->
  customer_number_of company_data = Some number ->
  displayable number ->
  get_company_contacts client company_id E
    (add_ui (st_info "🔍 Fetching account team information...")
       (add_ui (st_success ("✅ Found company: " ++ name)%string) w))
  = (Ok contact, w2) ->
  truthy contact = false ->
  template_to_use inp = Ok b ->
  library_fills E b out ->
  let fv : gmap string json :=
    {[ "Text1" := JStr name;
       "Text2" := number;
       "Text3" := JStr "N/A";
       "Text4" := JStr (strftime_B_d_Y (now E (clock_reads w2))) ]} in
  let filling :=
    add_ui (st_info "📝 Filling PDF form...")
      (add_ui (st_warning "⚠️ No contact associated with this company") w2) in
  exists w',
    generate_packet inp client company_id company_data E w = (Ok tt, w')
    /\ fill_btx_welcome_packet b company_data contact E filling
       = (Ok (out fv, fv), tick filling)
    /\ ui w'
       = ui w2 ++ shown_without_contact name number
                    (now E (clock_reads w2)) (out fv)
                    (download_name name (now E (S (clock_reads w2))))
    /\ calls w' = calls w2
    /\ clock_reads w' = S (S (clock_reads w2)).
Proof.
  intros Hname Hnumber Hshow Hcontact Hnone Hb Hlib fv filling.
  apply company_name_of_inv in Hname as (c & p & -> & Hc & Hp).
  unfold customer_number_of, company_properties in Hnumber.
  rewrite Hc in Hnumber. cbn [default] in Hnumber.
  injection Hnumber as <-.
  pose proof (fill_run b c p contact "N/A" E filling
                out Hc (account_team_of_absent _ _ _ Hnone) Hlib) as Hfill.
  cbv zeta in Hfill. rewrite Hp in Hfill.
  change (default (JStr "N/A") (Some (JStr name))) with (JStr name) in Hfill.
  change (clock_reads filling) with (clock_reads w2) in Hfill.
  fold fv in Hfill.
  unfold generate_packet.
  erewrite bind_ok by reflexivity.
  cbn [py_getitem]. rewrite Hc.
  erewrite bind_ok by reflexivity.
  cbn [py_getitem]. rewrite Hp.
  erewrite bind_ok by reflexivity.
  cbn [py_str].
  do 2 (erewrite bind_ok by reflexivity).
  erewrite bind_ok by exact Hcontact.
  rewrite Hnone.
  do 2 (erewrite bind_ok by reflexivity).
  rewrite Hb. erewrite bind_ok by reflexivity.
  erewrite bind_ok by exact Hfill.
  cbv beta iota.
  erewrite bind_ok by reflexivity.
  unfold fv at 1. rewrite field_Text1. erewrite bind_ok by reflexivity.
  erewrite bind_ok by reflexivity.
  unfold fv at 1. rewrite field_Text2. erewrite bind_ok by reflexivity.
  erewrite bind_ok by (now apply metric_displayable).
  unfold fv at 1. rewrite field_Text3. erewrite bind_ok by reflexivity.
  erewrite bind_ok by reflexivity.
  unfold fv at 1. rewrite field_Text4. erewrite bind_ok by reflexivity.
  erewrite bind_ok by reflexivity.
  do 2 (erewrite bind_ok by reflexivity).
  unfold bind, show.
  eexists. split; [reflexivity |]. split; [exact Hfill |].
  unfold shown_without_contact, download_name, filling.
  cbn [ui calls clock_reads add_ui tick].
  split; [now rewrite <- !app_assoc | split; reflexivity].
Qed.

(** C8. When the contact lookup for the company that was found yields
    nothing, the run shows a warning and no error and goes on to the fill;
    the fill is made without contact and has ["N/A"] as account team
    [Text3]; what the run offers is the document the PDF library wrote for
    these very values, under the filename of the company and the day: the
    run is [Ready], not [Failed]. *)
Theorem C8_without_contact inp E w company_data w1 company_id name number
    contact w2 b out :
  generates inp = true ->
  company_lookup inp E (lookup_start inp w) = (Ok company_data, w1) ->
  company_id_of inp company_data = Ok company_id ->
  company_name_of company_data = Some name ->
  customer_number_of company_data = Some number ->
  displayable number ->
  get_company_contacts (HubSpotClient_init (in_api_key inp)) company_id E
    (add_ui (st_info "🔍 Fetching account team information...")
       (add_ui (st_success ("✅ Found company: " ++ name)%string) w1))
  = (Ok contact, w2) ->
  truthy contact = false ->
  template_to_use inp = Ok b ->
  library_fills E b out ->
  let fv : gmap string json :=
    {[ "Text1" := JStr name;
       "Text2" := number;
       "Text3" := JStr "N/A";
       "Text4" := JStr (strftime_B_d_Y (now E (clock_reads w2))) ]} in
  let filling :=
    add_ui (st_info "📝 Filling PDF form...")
      (add_ui (st_warning "⚠️ No contact associated with this company") w2) in
  let shown :=
    shown_without_contact name number (now E (clock_reads w2)) (out fv)
      (download_name name (now E (S (clock_reads w2)))) in
  exists w',
    main_app inp E w = (Ok tt, w')
    /\ fill_btx_welcome_packet b company_data contact E filling
       = (Ok (out fv, fv), tick filling)
    /\ fv !! "Text3" = Some (JStr "N/A")
    /\ ui w' = ui w2 ++ shown
    /\ existsb is_error shown = false
    /\ Ready w' = true
    /\ Failed_state w' = false.
Proof.
  intros Hgen Hlookup Hid Hname Hnumber Hshow Hcontact Hnone Hb Hlib
    fv filling shown.
  destruct (generate_packet_without_contact inp
              (HubSpotClient_init (in_api_key inp)) company_id company_data
              E w1 name number contact w2 b out
              Hname Hnumber Hshow Hcontact Hnone Hb Hlib)
    as (w' & Hrun & Hfill & Hui & _).
  exists w'.
  assert (Hready : Ready w' = true).
  { unfold Ready. rewrite Hui, existsb_app. simpl.
    now rewrite !orb_true_r. }
  assert (Htruthy : truthy company_data = true).
  { apply company_name_of_inv in Hname as (c & p & -> & Hc & _).
    exact (truthy_with_key _ _ _ Hc). }
  split.
  { rewrite (main_app_generates _ Hgen). unfold try_except.
    unfold fetch_and_generate.
    unfold company_lookup, lookup_start, company_id_of in Hlookup, Hid.
    destruct (search_method inp).
    - erewrite bind_ok by reflexivity.
      erewrite bind_ok by exact Hlookup.
      rewrite Htruthy. cbn [negb].
      rewrite Hid. erewrite bind_ok by reflexivity.
      now rewrite Hrun.
    - injection Hid as <-.
      erewrite bind_ok by exact Hlookup.
      now rewrite Hrun. }
  split; [exact Hfill |].
  split; [apply field_Text3 |].
  split; [exact Hui |].
  split; [reflexivity |].
  split; [exact Hready |].
  unfold Failed_state. now rewrite Hready.
Qed.

Lemma C8_without_contact_witness :
  exists w',
    main_app (Demo.by_name "Acme" Demo.template)
      (Demo.env_with Demo.stamping_library Demo.crm_without_contact)
      initial_world = (Ok tt, w')
    /\ In (st_warning "⚠️ No contact associated with this company") (ui w')
    /\ In (st_metric "Account Team" (JStr "N/A")) (ui w')
    /\ In (st_download_button "⬇️ Download Welcome Packet"
             (Demo.template ++ list_byte_of_string "N/A")
             "BTX_Welcome_Packet_Acme_Corp_20250304.pdf" "application/pdf")
          (ui w')
    /\ Ready w' = true
    /\ Failed_state w' = false.
Proof.
  pose (E := Demo.env_with Demo.stamping_library Demo.crm_without_contact).
  pose (inp := Demo.by_name "Acme" Demo.template).
  pose (lookup := company_lookup inp E (lookup_start inp initial_world)).
  pose (start :=
          add_ui (st_info "🔍 Fetching account team information...")
            (add_ui (st_success "✅ Found company: Acme Corp") (snd lookup))).
  pose (contacts :=
          get_company_contacts (HubSpotClient_init "pat-123") (JStr "42")
            E start).
  destruct (C8_without_contact inp E initial_world Demo.acme (snd lookup)
              (JStr "42") "Acme Corp" (JStr "CUST-9") JNull (snd contacts)
              Demo.template (fun fv => Demo.template ++ Demo.stamp fv))
    as (w' & Hrun & _ & _ & Hui & _ & Hready & Hfailed).
  - reflexivity.
  - vm_compute. reflexivity.
  - reflexivity.
  - vm_compute. reflexivity.
  - vm_compute. reflexivity.
  - exact I.
  - vm_compute. reflexivity.
  - reflexivity.
  - reflexivity.
  - exists Demo.template, (Demo.template, ∅), tt, []. repeat split.
    intros fv. exists (Demo.template, fv). split; reflexivity.
  - exists w'.
    split; [exact Hrun |].
    split; [rewrite Hui; apply in_or_app; right; vm_compute; tauto |].
    split; [rewrite Hui; apply in_or_app; right; vm_compute; tauto |].
    split; [rewrite Hui; apply in_or_app; right; vm_compute; tauto |].
    split; [exact Hready | exact Hfailed].
Defined.

(* ===================================================================== *)
(** ** What the filler hands to the PDF library *)
(* ===================================================================== *)

(** The bytes of a completed fill are what the library writes after it has
    read the template, cloned it and updated the first page with the very
    field values that are returned alongside.  What the library does to
    the document in these calls is not the module's to decide. *)
Lemma fill_output tmpl company contact E w out fv w' :
  fill_btx_welcome_packet tmpl company contact E w = (Ok (out, fv), w') ->
  exists reader writer page rest writer',
    PdfReader (pdf E) tmpl = Returned reader
    /\ clone_document_from_reader (pdf E) reader = Returned writer
    /\ pages (pdf E) writer = page :: rest
    /\ update_page_form_field_values (pdf E) writer page fv
       = Returned writer'
    /\ write (pdf E) writer' = Returned out.
Proof.
  unfold fill_btx_welcome_packet. intros H.
  apply bind_inv_ok in H as (E' & w0 & HE & H).
  inversion HE; subst E' w0; clear HE.
  do 5 (apply bind_inv_ok in H as (? & ? & _ & H)).
  apply bind_inv_ok in H as (reader & w1 & Hreader & H).
  apply pdf_call_inv in Hreader as [Hreader _].
  apply bind_inv_ok in H as (writer & w2 & Hwriter & H).
  apply pdf_call_inv in Hwriter as [Hwriter _].
  apply bind_inv_ok in H as (page & w3 & Hpage & H).
  apply bind_inv_ok in H as (writer' & w4 & Hupdate & H).
  apply pdf_call_inv in Hupdate as [Hupdate _].
  apply bind_inv_ok in H as (output & w5 & Hwrite & H).
  apply pdf_call_inv in Hwrite as [Hwrite _].
  inversion H; subst.
  unfold first_page in Hpage.
  destruct (pages (pdf E) writer) as [ | p rest] eqn:Hpages;
    [discriminate |].
  inversion Hpage; subst.
  exists reader, writer, page, rest, writer'. repeat split; auto.
Qed.

(* ===================================================================== *)
(** ** The Python primitives on examples *)
(* ===================================================================== *)

Example py_strip_examples :
  py_strip "  Jane Doe  " = "Jane Doe"%string
  /\ py_strip " " = ""%string
  /\ py_strip (String "009" "Jane" ++ String "010" "")%string = "Jane"%string
  /\ py_strip " a  b " = "a  b"%string.
Proof. vm_compute. auto. Qed.

Example py_replace_examples :
  py_replace " " "_" "Acme  Corp X" = "Acme__Corp_X"%string
  /\ py_replace "ab" "-" "xababaab" = "x--a-"%string.
Proof. vm_compute. auto. Qed.

Example strftime_examples :
  strftime_B_d_Y Demo.march_4_2025 = "March 04, 2025"%string
  /\ strftime_Ymd Demo.march_4_2025 = "20250304"%string.
Proof. vm_compute. auto. Qed.

Example end_to_end_fields :
  fst (fill_btx_welcome_packet Demo.template Demo.acme Demo.jane
         (Demo.env Demo.crm) initial_world)
  = Ok (Demo.template,
        Demo.fields (JStr "Acme Corp") (JStr "CUST-9") "Jane Doe").
Proof. vm_compute. reflexivity. Qed.

(* ===================================================================== *)
(** ** The calls of a run *)
(* ===================================================================== *)

Lemma py_get_not_http v key dflt status body :
  py_get v key dflt <> Raise (HTTPError status body).
Proof. destruct v; discriminate. Qed.

Lemma py_getitem_not_http v key status body :
  py_getitem v key <> Raise (HTTPError status body).
Proof.
  destruct v as [ | | | | | m]; try discriminate.
  simpl. destruct (m !! key); discriminate.
Qed.

Lemma py_getitem0_not_http v status body :
  py_getitem0 v <> Raise (HTTPError status body).
Proof.
  destruct v as [ | | | s | l | ]; try discriminate.
  - destruct s; discriminate.
  - destruct l; discriminate.
Qed.

Lemma template_to_use_not_http inp status body :
  template_to_use inp <> Raise (HTTPError status body).
Proof.
  unfold template_to_use.
  destruct (uploaded_template inp); [discriminate |].
  destruct (default_template inp) as [[b | msg] | ]; discriminate.
Qed.

Lemma failure_of_accepted c : call_accepted c = true -> failure_of c = None.
Proof.
  unfold call_accepted, failure_of.
  destruct (snd c) as [resp | msg]; [| discriminate]. now intros ->.
Qed.

Lemma failure_of_rejected c :
  call_accepted c = false -> exists e, failure_of c = Some e.
Proof.
  unfold call_accepted, failure_of.
  destruct (snd c) as [resp | msg]; [intros -> |]; eauto.
Qed.

(** A block that ran to its end made accepted calls only. *)
Lemma stops_at_failure_none cs :
  stops_at_failure cs None -> forallb call_accepted cs = true.
Proof.
  intros [[H _] | (good & c & _ & _ & Hc & Ho)]; [exact H |].
  apply failure_of_rejected in Hc as (e & He). congruence.
Qed.

Lemma stops_at_failure_app cs1 cs2 o :
  stops_at_failure cs1 None -> stops_at_failure cs2 o ->
  stops_at_failure (cs1 ++ cs2) o.
Proof.
  intros H1 [[H2 Ho] | (good & c & -> & Hgood & Hc & Ho)].
  - left. split; [| exact Ho].
    rewrite forallb_app, H2. now rewrite (stops_at_failure_none _ H1).
  - right. exists (cs1 ++ good), c. rewrite app_assoc.
    repeat split; auto.
    rewrite forallb_app, Hgood. now rewrite (stops_at_failure_none _ H1).
Qed.

Section Calls.

Variable E : Env.
Variable self : HubSpotClient.

Lemma orderly_quiet {A} (m : M A) n :
  (forall w, calls (snd (m E w)) = calls w) ->
  (forall w status body, fst (m E w) <> Raise (HTTPError status body)) ->
  orderly E self n m.
Proof.
  intros Hcalls Hexn w r w' H. exists [].
  pose proof (Hcalls w) as Hc. pose proof (Hexn w) as He.
  rewrite H in Hc, He. simpl in Hc, He.
  rewrite app_nil_r. repeat split; auto.
  - simpl. lia.
  - left. split; [reflexivity |]. intros status body Hr.
    destruct r as [a | e]; [discriminate |].
    simpl in Hr. injection Hr as ->. now apply (He status body).
Qed.

Lemma orderly_ret {A} (a : A) n : orderly E self n (ret a).
Proof. apply orderly_quiet; [reflexivity | discriminate]. Qed.

Lemma orderly_raise {A} e n :
  is_http_error e = false -> orderly E self n (@raise A e).
Proof.
  intros He. apply orderly_quiet; [reflexivity |].
  intros w status body H. injection H as ->. discriminate.
Qed.

Lemma orderly_lift {A} (r : py_result A) n :
  (forall status body, r <> Raise (HTTPError status body)) ->
  orderly E self n (lift r).
Proof. intros Hr. apply orderly_quiet; [reflexivity | intros w; apply Hr]. Qed.

Lemma orderly_ask n : orderly E self n ask.
Proof. apply orderly_quiet; [reflexivity | discriminate]. Qed.

Lemma orderly_show ev n : orderly E self n (show ev).
Proof. apply orderly_quiet; [reflexivity | discriminate]. Qed.

Lemma orderly_datetime_now n : orderly E self n datetime_now.
Proof. apply orderly_quiet; [reflexivity | discriminate]. Qed.

Lemma orderly_pdf_call {A} (l : lib_result A) n :
  orderly E self n (pdf_call l).
Proof.
  apply orderly_quiet; intros w; destruct l; try reflexivity; discriminate.
Qed.

Lemma orderly_first_page {A} (l : list A) n :
  orderly E self n (first_page l).
Proof.
  apply orderly_quiet; intros w; destruct l; try reflexivity; discriminate.
Qed.

Lemma orderly_response_json r n : orderly E self n (response_json r).
Proof.
  apply orderly_quiet; intros w; unfold response_json;
    destruct (json_value r); try reflexivity; discriminate.
Qed.

Lemma orderly_weaken {A} (m : M A) n n' :
  (n <= n')%nat -> orderly E self n m -> orderly E self n' m.
Proof.
  intros Hle Hm w r w' H.
  destruct (Hm _ _ _ H) as (cs & Hc & Hlen & HP & Hs).
  exists cs. repeat split; auto. lia.
Qed.

Lemma orderly_bind {A B} n1 n2 (m : M A) (k : A -> M B) :
  orderly E self n1 m ->
  (forall a, returns E m a -> orderly E self n2 (k a)) ->
  orderly E self (n1 + n2) (bind m k).
Proof.
  intros Hm Hk w r w' H.
  apply bind_inv in H as [(a & w1 & H1 & H2) | (e & H1 & ->)].
  - destruct (Hm _ _ _ H1) as (cs1 & Hc1 & Hl1 & HP1 & Hs1).
    assert (Ha : returns E m a) by (now exists w, w1).
    destruct (Hk a Ha _ _ _ H2) as (cs2 & Hc2 & Hl2 & HP2 & Hs2).
    exists (cs1 ++ cs2). rewrite Hc2, Hc1, <- app_assoc.
    repeat split; auto.
    + rewrite length_app. lia.
    + apply Forall_app. now split.
    + now apply stops_at_failure_app.
  - destruct (Hm _ _ _ H1) as (cs1 & Hc1 & Hl1 & HP1 & Hs1).
    exists cs1. repeat split; auto. lia.
Qed.

Lemma orderly_bind0 {A B} n (m : M A) (k : A -> M B) :
  orderly E self 0 m ->
  (forall a, returns E m a -> orderly E self n (k a)) ->
  orderly E self n (bind m k).
Proof. intros Hm Hk. now apply (orderly_bind 0 n). Qed.

(** The three lines of every client method. *)
Lemma orderly_request {B} rq (k : response -> M B) n :
  client_request E self rq ->
  (forall r, orderly E self n (k r)) ->
  orderly E self (S n)
    (bind (requests_send rq)
       (fun r => bind (raise_for_status r) (fun _ => k r))).
Proof.
  intros Hrq Hk w r w' H. unfold bind, requests_send in H.
  destruct (http E rq) as [resp | msg] eqn:Hhttp.
  - unfold raise_for_status in H.
    destruct ((400 <=? status_code resp) && (status_code resp <? 600))
      eqn:Hst.
    + unfold raise in H. inversion H; subst; clear H.
      exists [(rq, Returned resp)]. simpl.
      repeat split; auto; [lia |].
      right. exists [], (rq, Returned resp).
      unfold call_accepted, failure_of, accepted. simpl. rewrite Hst.
      repeat split; reflexivity.
    + unfold ret in H.
      destruct (Hk resp _ _ _ H) as (cs & Hc & Hl & HP & Hs).
      exists ((rq, Returned resp) :: cs). simpl in *.
      rewrite Hc, <- app_assoc. repeat split; auto; [lia |].
      apply (stops_at_failure_app [(rq, Returned resp)]); [| exact Hs].
      left. split; [| discriminate].
      unfold call_accepted, accepted. simpl. now rewrite Hst.
  - inversion H; subst; clear H.
    exists [(rq, Failed msg)]. simpl. repeat split; auto; [lia |].
    right. exists [], (rq, Failed msg). repeat split; reflexivity.
Qed.

End Calls.

Create HintDb calls.

Ltac is_client_request :=
  unfold client_request;
  first [ left; eexists; reflexivity
        | right; left; eexists; reflexivity
        | right; right; left; eexists; reflexivity
        | right; right; right; eexists; reflexivity ].

Ltac no_http_error :=
  first [ apply py_get_not_http | apply py_getitem_not_http
        | apply py_getitem0_not_http | apply template_to_use_not_http ].

(** Walk through a block of statements, counting its calls. *)
Ltac count_calls :=
  repeat first
    [ apply orderly_ret | apply orderly_raise; reflexivity
    | apply orderly_lift; intros ? ?; no_http_error
    | apply orderly_ask | apply orderly_show | apply orderly_datetime_now
    | apply orderly_pdf_call | apply orderly_first_page
    | apply orderly_response_json
    | apply orderly_request; [is_client_request | intros ?]
    | solve [auto with calls]
    | apply orderly_bind0;
      [| let a := fresh "a" in
         let Ha := fresh "Ha" in
         intros a Ha; try (apply returns_ask in Ha as ->)]
    | match goal with
      | |- orderly _ _ _ (if ?b then _ else _) => destruct b
      | |- orderly _ _ _ (match ?x with _ => _ end) => destruct x
      | |- orderly _ _ _ (let '(_, _) := ?x in _) => destruct x
      end ].

Lemma orderly_get_company_by_id E self company_id :
  orderly E self 1 (get_company_by_id self company_id).
Proof. unfold get_company_by_id. count_calls. Qed.

Lemma orderly_get_contact_by_id E self contact_id :
  orderly E self 1 (get_contact_by_id self contact_id).
Proof. unfold get_contact_by_id. count_calls. Qed.

#[local] Hint Resolve orderly_get_company_by_id orderly_get_contact_by_id
  : calls.

Lemma orderly_get_company_contacts E self company_id :
  orderly E self 2 (get_company_contacts self company_id).
Proof. unfold get_company_contacts. count_calls. Qed.

Lemma orderly_search_company_by_name E self company_name :
  orderly E self 1 (search_company_by_name self company_name).
Proof. unfold search_company_by_name. count_calls. Qed.

Lemma orderly_account_team_of E self contact n :
  orderly E self n (account_team_of contact).
Proof. unfold account_team_of. count_calls. Qed.

#[local] Hint Resolve orderly_account_team_of : calls.

Lemma orderly_fill_btx_welcome_packet E self tmpl company contact n :
  orderly E self n (fill_btx_welcome_packet tmpl company contact).
Proof. unfold fill_btx_welcome_packet. count_calls. Qed.

Lemma orderly_metric E self label value n :
  orderly E self n (metric label value).
Proof. unfold metric. count_calls. Qed.

Lemma orderly_replace_spaces E self company_name n :
  orderly E self n (replace_spaces company_name).
Proof. unfold replace_spaces. count_calls. Qed.

Lemma orderly_on_exception E self inp e n :
  orderly E self n (on_exception inp e).
Proof. unfold on_exception. count_calls. Qed.

#[local] Hint Resolve orderly_fill_btx_welcome_packet orderly_metric
  orderly_replace_spaces orderly_on_exception : calls.

Lemma orderly_generate_packet E inp client company_id company_data :
  orderly E client 2 (generate_packet inp client company_id company_data).
Proof.
  unfold generate_packet.
  do 5 (apply orderly_bind0; [count_calls | intros ? _]).
  apply (orderly_bind E client 2 0);
    [apply orderly_get_company_contacts | intros contact _].
  count_calls.
Qed.

Lemma orderly_fetch_and_generate E inp :
  orderly E (HubSpotClient_init (in_api_key inp)) 3 (fetch_and_generate inp).
Proof.
  unfold fetch_and_generate. destruct (search_method inp).
  - apply orderly_bind0; [count_calls | intros _ _].
    apply (orderly_bind E _ 1 2);
      [apply orderly_search_company_by_name | intros company_data _].
    destruct (negb (truthy company_data)); [count_calls |].
    apply orderly_bind0; [count_calls | intros company_id _].
    apply orderly_generate_packet.
  - apply (orderly_bind E _ 1 2);
      [apply orderly_get_company_by_id | intros company_data _].
    apply orderly_generate_packet.
Qed.

(** The calls and the last messages of a run: [o] is the exception the
    [try] ended in. *)
Lemma main_app_calls inp E w :
  fst (main_app inp E w) = Ok tt
  /\ exists cs o evs,
       calls (snd (main_app inp E w)) = calls w ++ cs
       /\ (length cs <= 3)%nat
       /\ Forall (fun c => client_request E
                             (HubSpotClient_init (in_api_key inp)) (fst c)) cs
       /\ stops_at_failure cs o
       /\ (o <> None -> no_download evs)
       /\ ui (snd (main_app inp E w))
          = ui w ++ evs ++ match o with
                           | Some e => exception_message inp E e
                           | None => []
                           end.
Proof.
  destruct (generates inp) eqn:Hgen.
  - rewrite (main_app_generates _ Hgen). unfold try_except.
    destruct (fetch_and_generate inp E w) as [[[] | e] w1] eqn:Hbody;
      [| rewrite on_exception_run]; (split; [reflexivity |]);
      destruct (orderly_fetch_and_generate E inp _ _ _ Hbody)
        as (cs & Hc & Hl & HP & Hs);
      destruct (behaves_fetch_and_generate E (fun _ => True) inp
                  (fun _ _ _ _ _ => I) _ _ _ Hbody)
        as (evs & cs' & Hu & _ & _ & Hd & _).
    + exists cs, None, evs. simpl. rewrite app_nil_r.
      repeat split; auto; intros H; now destruct H.
    + exists cs, (Some e), evs. simpl. rewrite Hu, <- app_assoc.
      repeat split; auto.
  - destruct (main_app_idle inp E w Hgen) as (evs & Hidle & Hd).
    rewrite Hidle. split; [reflexivity |].
    exists [], None, evs. simpl. rewrite !app_nil_r.
    repeat split; auto; try lia;
      try (left; split; [reflexivity | discriminate]);
      intros H; now destruct H.
Qed.

Lemma forallb_In {A} (f : A -> bool) l x :
  forallb f l = true -> In x l -> f x = true.
Proof. intros H Hin. rewrite forallb_forall in H. now apply H. Qed.

(** A call that failed is the last of its block, and the block ended in
    its exception. *)
Lemma failing_call_is_last cs o c :
  stops_at_failure cs o -> In c cs -> call_accepted c = false ->
  o = failure_of c
  /\ exists good, cs = good ++ [c] /\ forallb call_accepted good = true.
Proof.
  intros [[Hall _] | (good & c' & -> & Hgood & Hc' & Ho)] Hin Hc.
  - rewrite (forallb_In _ _ _ Hall Hin) in Hc. discriminate.
  - apply in_app_or in Hin as [Hin | [<- | []]].
    + rewrite (forallb_In _ _ _ Hgood Hin) in Hc. discriminate.
    + split; [exact Ho | now exists good].
Qed.

(** X1. A run of [main_app] makes at most three CRM calls. *)
Theorem main_app_at_most_three_calls inp E w :
  (length (calls (snd (main_app inp E w))) <= length (calls w) + 3)%nat.
Proof.
  destruct (main_app_calls inp E w) as (_ & cs & o & evs & Hc & Hl & _).
  rewrite Hc, length_app. lia.
Qed.

Lemma client_request_shape E key rq :
  client_request E (HubSpotClient_init key) rq ->
  req_headers rq = [("Authorization", "Bearer " ++ key);
                    ("Content-Type", "application/json")]%string
  /\ origin (req_url rq) = Some "https://api.hubapi.com"%string
  /\ (req_method rq = GET
      \/ req_url rq
         = "https://api.hubapi.com/crm/v3/objects/companies/search"%string).
Proof.
  intros [(x & ->) | [(x & ->) | [(x & ->) | (x & ->)]]];
    (split; [reflexivity |]); (split; [reflexivity |]); auto.
Qed.

(** X2. Every request of a run goes to the host [api.hubapi.com] over
    [https], whatever id is pasted into the path behind it; it carries the
    API key of the run as bearer token, and is a GET unless it is the
    search. *)
Theorem main_app_requests inp E w :
  exists cs,
    calls (snd (main_app inp E w)) = calls w ++ cs
    /\ Forall
         (fun c =>
            req_headers (fst c)
            = [("Authorization", "Bearer " ++ in_api_key inp);
               ("Content-Type", "application/json")]%string
            /\ origin (req_url (fst c)) = Some "https://api.hubapi.com"%string
            /\ (req_method (fst c) = GET
                \/ req_url (fst c)
                   = "https://api.hubapi.com/crm/v3/objects/companies/search"
                     %string))
         cs.
Proof.
  destruct (main_app_calls inp E w) as (_ & cs & o & evs & Hc & _ & HP & _).
  exists cs. split; [exact Hc |].
  eapply Forall_impl; [exact HP |].
  intros c Hrq. now apply (client_request_shape E).
Qed.

(** X3. A run stops at the first CRM call that fails: after a call that
    got no response, or a response with a 4xx or 5xx status, no other call
    is made. *)
Theorem main_app_stops_at_first_failure inp E w cs1 c cs2 :
  calls (snd (main_app inp E w)) = calls w ++ cs1 ++ c :: cs2 ->
  call_accepted c = false ->
  cs2 = [].
Proof.
  intros Hcalls Hc.
  destruct (main_app_calls inp E w)
    as (_ & cs & o & evs & Hcs & _ & _ & Hs & _).
  rewrite Hcs in Hcalls. apply app_inv_head in Hcalls. subst cs.
  destruct (failing_call_is_last _ _ c Hs) as (_ & good & Hgood & Hacc);
    [apply in_or_app; right; now left | exact Hc |].
  destruct (exists_last (l := c :: cs2)) as (body & z & Hlast);
    [discriminate |].
  destruct cs2 as [ | c2 cs2]; [reflexivity | exfalso].
  rewrite Hlast, app_assoc in Hgood.
  apply app_inj_tail in Hgood as [Hgood ->].
  assert (Hin : In c good).
  { rewrite <- Hgood. apply in_or_app. right.
    destruct body as [ | b body]; [discriminate |].
    injection Hlast as -> _. now left. }
  rewrite (forallb_In _ _ _ Hacc Hin) in Hc. discriminate.
Qed.

Lemma main_app_stops_at_first_failure_witness :
  call_accepted
    (associations_request (HubSpotClient_init "pat-123")
       (Demo.env Demo.crm_unauthorized_contacts) (JStr "42"),
     Demo.status 401) = false
  /\ @nil (request * lib_result response) = [].
Proof.
  split; [reflexivity |].
  apply (main_app_stops_at_first_failure
           (Demo.by_id "42" Demo.template)
           (Demo.env Demo.crm_unauthorized_contacts) initial_world
           [(company_by_id_request (HubSpotClient_init "pat-123")
               (Demo.env Demo.crm_unauthorized_contacts) (JStr "42"),
             Demo.ok Demo.acme)]
           (associations_request (HubSpotClient_init "pat-123")
              (Demo.env Demo.crm_unauthorized_contacts) (JStr "42"),
            Demo.status 401)
           []).
  - vm_compute. reflexivity.
  - reflexivity.
Defined.

(** The failing call of a run and what the run shows for it. *)
Lemma main_app_failed_call inp E w c :
  forallb call_accepted (calls w) = true ->
  In c (calls (snd (main_app inp E w))) ->
  call_accepted c = false ->
  exists e evs,
    failure_of c = Some e
    /\ ui (snd (main_app inp E w)) = ui w ++ evs ++ exception_message inp E e
    /\ no_download evs.
Proof.
  intros Hw Hin Hc.
  destruct (main_app_calls inp E w)
    as (_ & cs & o & evs & Hcs & _ & _ & Hs & Hd & Hu).
  rewrite Hcs in Hin. apply in_app_or in Hin as [Hin | Hin].
  { rewrite (forallb_In _ _ _ Hw Hin) in Hc. discriminate. }
  destruct (failing_call_is_last _ _ c Hs Hin Hc) as (-> & _).
  destruct (failure_of_rejected c Hc) as (e & He).
  rewrite He in Hu, Hd. exists e, evs.
  split; [exact He | split; [exact Hu |]]. apply Hd. discriminate.
Qed.

(** X4. Whichever call of a run is answered with a 4xx or 5xx status, the
    run ends with the messages for that status and offers nothing: the
    API-key messages for 401, "Not Found" with the search text for 404,
    and otherwise "HubSpot API Error" with the text of the exception,
    followed by the body of the response as details. *)
Theorem main_app_rejected_call inp E w c resp :
  forallb call_accepted (calls w) = true ->
  no_download (ui w) ->
  In c (calls (snd (main_app inp E w))) ->
  snd c = Returned resp ->
  accepted resp = false ->
  Ready (snd (main_app inp E w)) = false
  /\ exists evs,
       ui (snd (main_app inp E w))
       = ui w ++ evs
         ++ (if status_code resp =? 401 then invalid_api_key_message
             else if status_code resp =? 404 then not_found_message inp
             else [ st_error
                      ("❌ HubSpot API Error: "
                       ++ str_exn E (HTTPError (status_code resp) (text resp)));
                    st_error ("Details: " ++ text resp) ]%string).
Proof.
  intros Hw Hui Hin Hresp Hrejected.
  assert (Hc : call_accepted c = false).
  { unfold call_accepted. now rewrite Hresp. }
  destruct (main_app_failed_call inp E w c Hw Hin Hc)
    as (e & evs & He & Hu & Hd).
  unfold failure_of in He. rewrite Hresp, Hrejected in He.
  injection He as <-. split.
  - unfold Ready. rewrite Hu, !existsb_app, Hui, Hd.
    now rewrite no_download_exception_message.
  - exists evs. exact Hu.
Qed.

Lemma main_app_rejected_call_witness :
  exists evs,
    ui (snd (main_app (Demo.by_id "42" Demo.template)
               (Demo.env DemoLogin.crm_down_for_contacts) initial_world))
    = evs ++ [ st_error "❌ HubSpot API Error: error";
               st_error "Details: Service Unavailable" ].
Proof.
  destruct (main_app_rejected_call (Demo.by_id "42" Demo.template)
              (Demo.env DemoLogin.crm_down_for_contacts) initial_world
              (associations_request (HubSpotClient_init "pat-123")
                 (Demo.env DemoLogin.crm_down_for_contacts) (JStr "42"),
               Returned {| status_code := 503; text := "Service Unavailable";
                           json_value := None |})
              {| status_code := 503; text := "Service Unavailable";
                 json_value := None |})
    as (_ & evs & Hu).
  - reflexivity.
  - reflexivity.
  - vm_compute. tauto.
  - reflexivity.
  - reflexivity.
  - exists evs. exact Hu.
Defined.

(** X5. When a call of a run gets no response at all, the run ends with
    the messages of the catch-all clause, the text of the transport
    failure among them, and offers nothing. *)
Theorem main_app_unanswered_call inp E w c msg :
  forallb call_accepted (calls w) = true ->
  no_download (ui w) ->
  In c (calls (snd (main_app inp E w))) ->
  snd c = Failed msg ->
  Ready (snd (main_app inp E w)) = false
  /\ exists evs,
       ui (snd (main_app inp E w))
       = ui w ++ evs
         ++ [ st_error "❌ Unexpected Error";
              st_error (str_exn E (RequestException msg));
              st_info "Please check your inputs and try again." ].
Proof.
  intros Hw Hui Hin Hfailed.
  assert (Hc : call_accepted c = false).
  { unfold call_accepted. now rewrite Hfailed. }
  destruct (main_app_failed_call inp E w c Hw Hin Hc)
    as (e & evs & He & Hu & Hd).
  unfold failure_of in He. rewrite Hfailed in He.
  injection He as <-. split.
  - unfold Ready. rewrite Hu, !existsb_app, Hui, Hd.
    now rewrite no_download_exception_message.
  - exists evs. exact Hu.
Qed.

Lemma main_app_unanswered_call_witness :
  Ready (snd (main_app (Demo.by_id "42" Demo.template)
                (Demo.env DemoLogin.crm_unreachable_for_contact)
                initial_world)) = false.
Proof.
  apply (main_app_unanswered_call (Demo.by_id "42" Demo.template)
           (Demo.env DemoLogin.crm_unreachable_for_contact) initial_world
           (contact_by_id_request (HubSpotClient_init "pat-123")
              (Demo.env DemoLogin.crm_unreachable_for_contact) (JInt 7),
            Failed "Connection refused")
           "Connection refused").
  - reflexivity.
  - reflexivity.
  - vm_compute. tauto.
  - reflexivity.
Defined.

(* ===================================================================== *)
(** ** The widgets of a run *)
(* ===================================================================== *)

Section Widgets.

Variable E : Env.
Variable Q : ui_event -> Prop.

Lemma emits_still {A} (m : M A) :
  (forall w, ui (snd (m E w)) = ui w) -> emits E Q m.
Proof.
  intros Hm w r w' H. exists [].
  pose proof (Hm w) as Hu. rewrite H in Hu. simpl in Hu.
  rewrite app_nil_r. split; [exact Hu | constructor].
Qed.

Lemma emits_ret {A} (a : A) : emits E Q (ret a).
Proof. now apply emits_still. Qed.

Lemma emits_raise {A} e : emits E Q (@raise A e).
Proof. now apply emits_still. Qed.

Lemma emits_lift {A} (r : py_result A) : emits E Q (lift r).
Proof. now apply emits_still. Qed.

Lemma emits_ask : emits E Q ask.
Proof. now apply emits_still. Qed.

Lemma emits_datetime_now : emits E Q datetime_now.
Proof. now apply emits_still. Qed.

Lemma emits_pdf_call {A} (l : lib_result A) : emits E Q (pdf_call l).
Proof. apply emits_still. now destruct l. Qed.

Lemma emits_first_page {A} (l : list A) : emits E Q (first_page l).
Proof. apply emits_still. now destruct l. Qed.

Lemma emits_requests_send rq : emits E Q (requests_send rq).
Proof.
  apply emits_still. intros w. unfold requests_send.
  now destruct (http E rq).
Qed.

Lemma emits_raise_for_status r : emits E Q (raise_for_status r).
Proof.
  apply emits_still. intros w. unfold raise_for_status.
  now destruct ((400 <=? status_code r) && (status_code r <? 600)).
Qed.

Lemma emits_response_json r : emits E Q (response_json r).
Proof.
  apply emits_still. intros w. unfold response_json.
  now destruct (json_value r).
Qed.

Lemma emits_show ev : Q ev -> emits E Q (show ev).
Proof.
  intros Hev w r w' H. inversion H; subst. exists [ev].
  split; [reflexivity | now constructor].
Qed.

Lemma emits_bind {A B} (m : M A) (k : A -> M B) :
  emits E Q m -> (forall a, emits E Q (k a)) -> emits E Q (bind m k).
Proof.
  intros Hm Hk w r w' H.
  apply bind_inv in H as [(a & w1 & H1 & H2) | (e & H1 & ->)].
  - destruct (Hm _ _ _ H1) as (evs1 & Hu1 & HQ1).
    destruct (Hk a _ _ _ H2) as (evs2 & Hu2 & HQ2).
    exists (evs1 ++ evs2). rewrite Hu2, Hu1, <- app_assoc.
    split; [reflexivity |]. apply Forall_app. now split.
  - exact (Hm _ _ _ H1).
Qed.

End Widgets.

Create HintDb widgets.

(** Walk through a block of statements whose widgets are shown by [tac] to
    be as wanted. *)
Ltac watch tac :=
  repeat first
    [ apply emits_ret | apply emits_raise | apply emits_lift
    | apply emits_ask | apply emits_datetime_now | apply emits_pdf_call
    | apply emits_first_page | apply emits_requests_send
    | apply emits_raise_for_status | apply emits_response_json
    | apply emits_show; tac
    | solve [auto with widgets]
    | apply emits_bind; [| intros ?]
    | match goal with
      | |- emits _ _ (if ?b then _ else _) => destruct b
      | |- emits _ _ (match ?x with _ => _ end) => destruct x
      | |- emits _ _ (let '(_, _) := ?x in _) => destruct x
      end ].

(** No error is shown on the way to the download. *)
Lemma errorless_generate_packet E inp client company_id company_data :
  emits E (fun ev => is_error ev = false)
    (generate_packet inp client company_id company_data).
Proof.
  unfold generate_packet, get_company_contacts, get_contact_by_id,
    fill_btx_welcome_packet, account_team_of, metric, replace_spaces.
  watch ltac:(idtac; reflexivity).
Qed.

Lemma offers_bind E {A B} (m : M A) (k : A -> M B) :
  plain E m -> (forall a, offers E (k a)) -> offers E (bind m k).
Proof.
  intros Hm Hk w b w' H.
  apply bind_inv_ok in H as (a & w1 & H1 & H2).
  destruct (Hm _ _ _ H1) as (evs1 & cs & Hu1 & _).
  destruct (Hk a _ _ _ H2) as (evs2 & Hu2 & Hd).
  exists (evs1 ++ evs2). rewrite Hu2, Hu1, <- app_assoc.
  split; [reflexivity |]. rewrite existsb_app, Hd. apply orb_true_r.
Qed.

(** A [generate_packet] that runs to its end has offered the download. *)
Lemma offers_generate_packet E inp client company_id company_data :
  offers E (generate_packet inp client company_id company_data).
Proof.
  unfold generate_packet.
  do 10 (apply offers_bind; [block | intros ?]).
  match goal with |- offers _ (let '(_, _) := ?x in _) => destruct x end.
  do 12 (apply offers_bind; [block | intros ?]).
  intros w [] w' H. unfold bind, show in H. inversion H; subst.
  eexists [_; _]. split; [unfold add_ui; simpl; now rewrite <- app_assoc |].
  reflexivity.
Qed.

Lemma still_ui E {A} (m : M A) w r w' :
  emits E (fun _ => False) m -> m E w = (r, w') -> ui w' = ui w.
Proof.
  intros Hm H. destruct (Hm _ _ _ H) as (evs & Hu & Hnone).
  destruct evs as [ | ev evs]; [now rewrite app_nil_r in Hu |].
  inversion Hnone; subst. contradiction.
Qed.

Lemma still_get_company_by_id E self company_id :
  emits E (fun _ => False) (get_company_by_id self company_id).
Proof. unfold get_company_by_id. watch ltac:(idtac; fail). Qed.

Lemma still_search_company_by_name E self company_name :
  emits E (fun _ => False) (search_company_by_name self company_name).
Proof. unfold search_company_by_name. watch ltac:(idtac; fail). Qed.

Lemma still_get_company_contacts E self company_id :
  emits E (fun _ => False) (get_company_contacts self company_id).
Proof.
  unfold get_company_contacts, get_contact_by_id. watch ltac:(idtac; fail).
Qed.

Lemma still_fill_btx_welcome_packet E tmpl company contact :
  emits E (fun _ => False) (fill_btx_welcome_packet tmpl company contact).
Proof.
  unfold fill_btx_welcome_packet, account_team_of.
  watch ltac:(idtac; fail).
Qed.

Lemma existsb_forall_false {A} (f : A -> bool) l :
  Forall (fun x => f x = false) l -> existsb f l = false.
Proof.
  induction 1 as [ | x l Hx _ IH]; [reflexivity |].
  simpl. now rewrite Hx, IH.
Qed.

Lemma generate_packet_ready E inp client company_id company_data w a w' :
  generate_packet inp client company_id company_data E w = (Ok a, w') ->
  exists evs,
    ui w' = ui w ++ evs
    /\ existsb is_download evs = true /\ existsb is_error evs = false.
Proof.
  intros H.
  destruct (offers_generate_packet E inp client company_id company_data
              _ _ _ H) as (evs & Hu & Hd).
  destruct (errorless_generate_packet E inp client company_id company_data
              _ _ _ H) as (evs' & Hu' & Hq).
  rewrite Hu in Hu'. apply app_inv_head in Hu'. subst evs'.
  exists evs. repeat split; auto. now apply existsb_forall_false.
Qed.

Lemma exception_message_has_error inp E e :
  existsb is_error (exception_message inp E e) = true.
Proof.
  unfold exception_message.
  destruct e as [status body | | | | | | | ]; try reflexivity.
  destruct (status =? 401); [reflexivity |].
  destruct (status =? 404); reflexivity.
Qed.

(** X8. A generate attempt ends in exactly one of two ways: the packet is
    offered and no error is shown, or an error is shown and no packet is
    offered. *)
Theorem main_app_ready_or_error inp E w :
  generates inp = true ->
  exists evs,
    ui (snd (main_app inp E w)) = ui w ++ evs
    /\ ((existsb is_download evs = true /\ existsb is_error evs = false)
        \/ (existsb is_download evs = false
            /\ existsb is_error evs = true)).
Proof.
  intros Hgen. rewrite (main_app_generates _ Hgen). unfold try_except.
  destruct (fetch_and_generate inp E w) as [[[] | e] w1] eqn:Hbody.
  - simpl. unfold fetch_and_generate in Hbody.
    destruct (search_method inp).
    + apply bind_inv_ok in Hbody as ([] & w2 & Hshow & Hbody).
      inversion Hshow; subst w2; clear Hshow.
      apply bind_inv_ok in Hbody as (company_data & w3 & Hsearch & Hbody).
      apply (still_ui E) in Hsearch;
        [| apply still_search_company_by_name].
      destruct (negb (truthy company_data)).
      * unfold bind, show in Hbody. inversion Hbody; subst w1.
        eexists [_; _; _]. simpl. rewrite Hsearch. simpl.
        rewrite <- !app_assoc. split; [reflexivity |]. now right.
      * apply bind_inv_ok in Hbody as (company_id & w4 & Hid & Hbody).
        apply lift_inv in Hid as [_ ->].
        apply generate_packet_ready in Hbody as (evs & Hu & Hd & He).
        eexists (_ :: evs). rewrite Hu, Hsearch. simpl.
        rewrite <- app_assoc. split; [reflexivity |]. left.
        simpl. now rewrite Hd, He.
    + apply bind_inv_ok in Hbody as (company_data & w2 & Hfetch & Hbody).
      apply (still_ui E) in Hfetch; [| apply still_get_company_by_id].
      apply generate_packet_ready in Hbody as (evs & Hu & Hd & He).
      exists evs. rewrite Hu, Hfetch. split; [reflexivity |]. now left.
  - rewrite on_exception_run.
    destruct (behaves_fetch_and_generate E (fun _ => True) inp
                (fun _ _ _ _ _ => I) _ _ _ Hbody)
      as (evs & cs & Hu & _ & _ & Hd & _).
    exists (evs ++ exception_message inp E e). simpl.
    rewrite Hu, <- app_assoc. split; [reflexivity |]. right.
    rewrite !existsb_app, exception_message_has_error.
    rewrite (Hd ltac:(discriminate)), no_download_exception_message.
    split; [reflexivity | apply orb_true_r].
Qed.

Lemma main_app_ready_or_error_witness :
  exists evs,
    ui (snd (main_app (Demo.by_name "Acme" Demo.template)
               (Demo.env Demo.crm_without_match) initial_world))
    = ui initial_world ++ evs
    /\ ((existsb is_download evs = true /\ existsb is_error evs = false)
        \/ (existsb is_download evs = false
            /\ existsb is_error evs = true)).
Proof.
  apply (main_app_ready_or_error (Demo.by_name "Acme" Demo.template)
           (Demo.env Demo.crm_without_match) initial_world).
  reflexivity.
Defined.

(* ===================================================================== *)
(** ** The client: first results only *)
(* ===================================================================== *)

Lemma request_accepted {B} rq (k : response -> M B) E w resp :
  http E rq = Returned resp ->
  accepted resp = true ->
  bind (requests_send rq) (fun r => bind (raise_for_status r) (fun _ => k r))
    E w
  = k resp E (add_call (rq, Returned resp) w).
Proof.
  intros Hhttp Hok. unfold accepted in Hok. apply negb_true_iff in Hok.
  unfold bind, requests_send, raise_for_status, ret.
  now rewrite Hhttp, Hok.
Qed.

(** X9. When the association listing of a company has no result -- an
    empty list, or no [results] at all --, [get_company_contacts] returns
    [None] after this one call: no contact is fetched. *)
Theorem get_company_contacts_without_association
    self company_id E w resp a :
  http E (associations_request self E company_id) = Returned resp ->
  accepted resp = true ->
  json_value resp = Some (JObj a) ->
  truthy (default JNull (a !! "results")) = false ->
  get_company_contacts self company_id E w
  = (Ok JNull,
     add_call (associations_request self E company_id, Returned resp) w).
Proof.
  intros Hhttp Hok Hjson Hnone. unfold get_company_contacts.
  erewrite bind_ok by reflexivity.
  rewrite (request_accepted _ _ _ _ _ Hhttp Hok).
  unfold bind, response_json, lift, ret. rewrite Hjson.
  cbn [py_get]. now rewrite Hnone.
Qed.

Lemma get_company_contacts_without_association_witness :
  get_company_contacts (HubSpotClient_init "pat-123") (JStr "42")
    (Demo.env Demo.crm_without_contact) initial_world
  = (Ok JNull,
     add_call
       (associations_request (HubSpotClient_init "pat-123")
          (Demo.env Demo.crm_without_contact) (JStr "42"),
        Demo.ok (JObj {[ "results" := JArr [] ]}))
       initial_world).
Proof.
  apply (get_company_contacts_without_association
           (HubSpotClient_init "pat-123") (JStr "42")
           (Demo.env Demo.crm_without_contact) initial_world
           {| status_code := 200; text := "{...}";
              json_value := Some (JObj {[ "results" := JArr [] ]}) |}
           {[ "results" := JArr [] ]});
    vm_compute; reflexivity.
Defined.

(** X10. [get_company_contacts] fetches the contact of the first
    association and of no other: whatever follows the first entry of the
    listing, the result is that of [get_contact_by_id] for the
    [toObjectId] of the first. *)
Theorem get_company_contacts_first_association
    self company_id E w resp a first others contact_id :
  http E (associations_request self E company_id) = Returned resp ->
  accepted resp = true ->
  json_value resp = Some (JObj a) ->
  a !! "results" = Some (JArr (JObj first :: others)) ->
  first !! "toObjectId" = Some contact_id ->
  get_company_contacts self company_id E w
  = get_contact_by_id self contact_id E
      (add_call (associations_request self E company_id, Returned resp) w).
Proof.
  intros Hhttp Hok Hjson Hresults Hfirst. unfold get_company_contacts.
  erewrite bind_ok by reflexivity.
  rewrite (request_accepted _ _ _ _ _ Hhttp Hok).
  unfold response_json. rewrite Hjson.
  erewrite bind_ok by reflexivity.
  cbn [py_get py_getitem]. rewrite Hresults. cbn [default id].
  erewrite bind_ok by reflexivity.
  cbn [truthy].
  do 2 (erewrite bind_ok by reflexivity).
  cbn [py_getitem]. rewrite Hfirst.
  erewrite bind_ok by reflexivity.
  reflexivity.
Qed.

Lemma get_company_contacts_first_association_witness :
  get_company_contacts (HubSpotClient_init "pat-123") (JStr "42")
    (Demo.env DemoLogin.crm_with_two) initial_world
  = get_contact_by_id (HubSpotClient_init "pat-123") (JInt 7)
      (Demo.env DemoLogin.crm_with_two)
      (add_call
         (associations_request (HubSpotClient_init "pat-123")
            (Demo.env DemoLogin.crm_with_two) (JStr "42"),
          Demo.ok (JObj {[ "results" :=
            JArr [JObj {[ "toObjectId" := JInt 7 ]};
                  JObj {[ "toObjectId" := JInt 8 ]}] ]}))
         initial_world).
Proof.
  apply (get_company_contacts_first_association
           (HubSpotClient_init "pat-123") (JStr "42")
           (Demo.env DemoLogin.crm_with_two) initial_world
           {| status_code := 200; text := "{...}";
              json_value := Some (JObj {[ "results" :=
                JArr [JObj {[ "toObjectId" := JInt 7 ]};
                      JObj {[ "toObjectId" := JInt 8 ]}] ]}) |}
           {[ "results" :=
                JArr [JObj {[ "toObjectId" := JInt 7 ]};
                      JObj {[ "toObjectId" := JInt 8 ]}] ]}
           {[ "toObjectId" := JInt 7 ]}
           [JObj {[ "toObjectId" := JInt 8 ]}] (JInt 7));
    vm_compute; reflexivity.
Defined.

(** X11. [search_company_by_name] returns the first match and no other,
    after one call: what follows the first entry of the results does not
    matter. *)
Theorem search_company_by_name_first_match
    self company_name E w resp m company others :
  http E (search_request self company_name) = Returned resp ->
  accepted resp = true ->
  json_value resp = Some (JObj m) ->
  m !! "results" = Some (JArr (company :: others)) ->
  search_company_by_name self company_name E w
  = (Ok company,
     add_call (search_request self company_name, Returned resp) w).
Proof.
  intros Hhttp Hok Hjson Hresults. unfold search_company_by_name.
  rewrite (request_accepted _ _ _ _ _ Hhttp Hok).
  unfold response_json. rewrite Hjson.
  erewrite bind_ok by reflexivity.
  cbn [py_get py_getitem]. rewrite Hresults. cbn [default id].
  erewrite bind_ok by reflexivity.
  cbn [truthy].
  erewrite bind_ok by reflexivity.
  reflexivity.
Qed.

Lemma search_company_by_name_first_match_witness :
  search_company_by_name (HubSpotClient_init "pat-123") "Acme"
    (Demo.env DemoLogin.crm_with_two) initial_world
  = (Ok Demo.acme,
     add_call
       (search_request (HubSpotClient_init "pat-123") "Acme",
        Demo.ok (JObj {[ "results" := JArr [Demo.acme; DemoLogin.globex] ]}))
       initial_world).
Proof.
  apply (search_company_by_name_first_match
           (HubSpotClient_init "pat-123") "Acme"
           (Demo.env DemoLogin.crm_with_two) initial_world
           {| status_code := 200; text := "{...}";
              json_value := Some (JObj {[ "results" :=
                JArr [Demo.acme; DemoLogin.globex] ]}) |}
           {[ "results" := JArr [Demo.acme; DemoLogin.globex] ]}
           Demo.acme [DemoLogin.globex]);
    vm_compute; reflexivity.
Defined.

(* ===================================================================== *)
(** ** The filler, exactly *)
(* ===================================================================== *)

Lemma company_properties_get company p :
  company_properties company = Some p ->
  py_get company "properties" (JObj ∅) = Ok (JObj p).
Proof.
  unfold company_properties.
  destruct company as [ | | | | | c]; try discriminate. simpl.
  destruct (default (JObj ∅) (c !! "properties")); try discriminate.
  now intros [= ->].
Qed.

Lemma account_team_of_run contact E w :
  truthy contact = false \/ readable_record contact ->
  account_team_of contact E w
  = (Ok (accountTeamName (contact_record E contact)), w).
Proof.
  intros Hcontact. unfold account_team_of, contact_record, bind, ask.
  destruct (truthy contact) eqn:Ht; [| reflexivity].
  destruct Hcontact as [Hf | (c & p & -> & Hp)]; [discriminate |].
  unfold lift. cbn [py_get]. rewrite Hp. cbn [py_get].
  rewrite !name_text_default. unfold accountTeamName, ret.
  now destruct (String.eqb _ "").
Qed.

Lemma account_team_of_returns contact E w team w' :
  account_team_of contact E w = (Ok team, w') ->
  (truthy contact = false \/ readable_record contact)
  /\ team = accountTeamName (contact_record E contact).
Proof.
  intros H. apply account_team_of_spec in H as [_ H].
  unfold contact_record.
  destruct H as [[Hf ->] | (c & p & -> & Ht & Hp & ->)].
  - rewrite Hf. split; [now left | reflexivity].
  - rewrite Ht, Hp. split; [right; now exists c, p | reflexivity].
Qed.

(** X12. The filler returns exactly when the company record is readable,
    the contact is absent or readable, and the PDF library gets through
    its five calls; it then returns the bytes the library wrote and the
    four field values -- name, customer number, account team, date of the
    one clock read --, which are the values it handed to the library. *)
Theorem fill_returns_iff b company contact E w out fv w' :
  fill_btx_welcome_packet b company contact E w = (Ok (out, fv), w')
  <->
  exists p,
    company_properties company = Some p
    /\ (truthy contact = false \/ readable_record contact)
    /\ fv = field_values_of p (accountTeamName (contact_record E contact))
              (now E (clock_reads w))
    /\ library_writes E b fv out
    /\ w' = tick w.
Proof.
  split.
  - intros H.
    pose proof (fill_output _ _ _ _ _ _ _ _ H) as Hlib.
    destruct (fill_company_properties _ _ _ _ _ _ _ _ H) as (p & Hp).
    apply fill_fields in H
      as (props & name & number & team & Hprops & Hname & Hnumber & Hteam
          & -> & ->).
    rewrite (py_get_properties _ _ Hprops _ Hp) in Hname, Hnumber.
    simpl in Hname, Hnumber.
    injection Hname as <-. injection Hnumber as <-.
    apply account_team_of_returns in Hteam as [Hcontact ->].
    exists p. repeat split; auto.
  - intros (p & Hp & Hcontact & -> & Hlib & ->).
    destruct Hlib as (reader & writer & page & rest & writer'
                      & Hr & Hc & Hpg & Hu & Hw).
    unfold fill_btx_welcome_packet.
    erewrite bind_ok by reflexivity.
    rewrite (company_properties_get _ _ Hp).
    erewrite bind_ok by reflexivity.
    cbn [py_get].
    do 2 (erewrite bind_ok by reflexivity).
    erewrite bind_ok by (now apply account_team_of_run).
    erewrite bind_ok by reflexivity.
    rewrite Hr. erewrite bind_ok by reflexivity.
    rewrite Hc. erewrite bind_ok by reflexivity.
    rewrite Hpg. erewrite bind_ok by reflexivity.
    unfold field_values_of in Hu. rewrite Hu.
    erewrite bind_ok by reflexivity.
    rewrite Hw. erewrite bind_ok by reflexivity.
    reflexivity.
Qed.

Lemma fill_returns_iff_witness :
  fill_btx_welcome_packet Demo.template Demo.acme Demo.jane
    (Demo.env Demo.crm) initial_world
  = (Ok (Demo.template,
         Demo.fields (JStr "Acme Corp") (JStr "CUST-9") "Jane Doe"),
     tick initial_world).
Proof.
  apply (proj2 (fill_returns_iff Demo.template Demo.acme Demo.jane
                  (Demo.env Demo.crm) initial_world Demo.template
                  (Demo.fields (JStr "Acme Corp") (JStr "CUST-9") "Jane Doe")
                  (tick initial_world))).
  exists {[ "name" := JStr "Acme Corp"; "btx_customer__" := JStr "CUST-9" ]}.
  split; [vm_compute; reflexivity |].
  split.
  { right. exists {[ "id" := JStr "7";
                     "properties" := JObj {[ "firstname" := JStr "Jane";
                                             "lastname" := JStr "Doe" ]} ]},
                  {[ "firstname" := JStr "Jane"; "lastname" := JStr "Doe" ]}.
    split; vm_compute; reflexivity. }
  split; [vm_compute; reflexivity |].
  split; [| reflexivity].
  exists Demo.template, Demo.template, tt, [], Demo.template.
  repeat split.
Defined.

Lemma pdf_call_world {A} (l : lib_result A) E w r w' :
  pdf_call l E w = (r, w') -> w' = w.
Proof. destruct l; intros H; now inversion H. Qed.

(** X13. The filler shows no widget and makes no call, whether it returns
    or raises; it reads the clock at most once. *)
Theorem fill_leaves_the_log b company contact E w :
  ui (snd (fill_btx_welcome_packet b company contact E w)) = ui w
  /\ calls (snd (fill_btx_welcome_packet b company contact E w)) = calls w
  /\ (clock_reads (snd (fill_btx_welcome_packet b company contact E w))
      <= S (clock_reads w))%nat.
Proof.
  destruct (fill_btx_welcome_packet b company contact E w) as [r w'] eqn:H.
  simpl. split; [| split].
  - eapply still_ui; [apply still_fill_btx_welcome_packet | exact H].
  - destruct (orderly_fill_btx_welcome_packet E
                (HubSpotClient_init "") b company contact 0 _ _ _ H)
      as (cs & Hc & Hl & _).
    destruct cs; [now rewrite app_nil_r in Hc | simpl in Hl; lia].
  - unfold fill_btx_welcome_packet in H.
    apply bind_inv in H as [(E' & w0 & HE & H) | (e & HE & _)];
      [| discriminate].
    inversion HE; subst E' w0; clear HE.
    do 3 (apply bind_inv in H as [(? & ? & Hs & H) | (? & Hs & _)];
          apply lift_inv in Hs as [_ ->]; [| lia]).
    apply bind_inv in H as [(team & w0 & Ht & H) | (e0 & Ht & _)];
      apply account_team_of_spec in Ht as [-> _]; [| lia].
    apply bind_inv in H as [(today & w1 & Hn & H) | (e0 & Hn & _)];
      [| discriminate].
    inversion Hn; subst today w1; clear Hn.
    apply bind_inv in H as [(reader & w1 & Hs & H) | (e0 & Hs & _)];
      apply pdf_call_world in Hs as ->; [| simpl; lia].
    apply bind_inv in H as [(writer & w1 & Hs & H) | (e0 & Hs & _)];
      apply pdf_call_world in Hs as ->; [| simpl; lia].
    apply bind_inv in H as [(page & w1 & Hs & H) | (e0 & Hs & _)];
      apply first_page_inv in Hs as ->; [| simpl; lia].
    apply bind_inv in H as [(writer' & w1 & Hs & H) | (e0 & Hs & _)];
      apply pdf_call_world in Hs as ->; [| simpl; lia].
    apply bind_inv in H as [(output & w1 & Hs & H) | (e0 & Hs & _)];
      apply pdf_call_world in Hs as ->; [| simpl; lia].
    inversion H; subst. simpl. lia.
Qed.

Lemma accountTeamName_not_empty contact : accountTeamName contact <> ""%string.
Proof.
  unfold accountTeamName. destruct contact as [[first last] | ];
    [| discriminate].
  destruct (String.eqb_spec (py_strip (first ++ " " ++ last)) "");
    [discriminate | assumption].
Qed.

(** X14. The account team a completed fill writes is never blank: it is a
    text, and not the empty one -- unlike the company name and the customer
    number, which are written as the CRM has them. *)
Theorem fill_account_team_never_blank b company contact E w out fv w' :
  fill_btx_welcome_packet b company contact E w = (Ok (out, fv), w') ->
  exists team, fv !! "Text3" = Some (JStr team) /\ team <> ""%string.
Proof.
  intros H. apply fill_returns_iff in H as (p & _ & _ & -> & _).
  eexists. split; [apply field_Text3 | apply accountTeamName_not_empty].
Qed.

Lemma fill_account_team_never_blank_witness :
  exists team,
    Demo.fields (JStr "") JNull "N/A" !! "Text3" = Some (JStr team)
    /\ team <> ""%string.
Proof.
  apply (fill_account_team_never_blank Demo.template Demo.blank_company
           Demo.nameless (Demo.env Demo.crm) initial_world Demo.template
           (Demo.fields (JStr "") JNull "N/A") (tick initial_world)).
  vm_compute. reflexivity.
Defined.

(** X15. The date a completed fill writes is the day of its one clock
    read, as full month name, day of two digits, comma, year of four
    digits. *)
Theorem fill_generation_date b company contact E w out fv w' :
  fill_btx_welcome_packet b company contact E w = (Ok (out, fv), w') ->
  calendar_date (now E (clock_reads w)) ->
  let d := now E (clock_reads w) in
  fv !! "Text4"
  = Some (JStr (month_name (mon d) ++ " "
                ++ digit (day d / 10) ++ digit (day d) ++ ", "
                ++ digit (year d / 1000) ++ digit (year d / 100)
                ++ digit (year d / 10) ++ digit (year d))%string).
Proof.
  intros H [Hy Hd] d. apply fill_returns_iff in H as (p & _ & _ & -> & _).
  unfold field_values_of. rewrite field_Text4. do 2 f_equal.
  unfold strftime_B_d_Y. fold d.
  rewrite zero_pad_four by exact Hy.
  rewrite (zero_pad_two (day d)) by (unfold d; lia).
  unfold digit. simpl.
  repeat (rewrite <- ?app_assoc; simpl). reflexivity.
Qed.

Lemma fill_generation_date_witness :
  Demo.fields (JStr "Acme Corp") (JStr "CUST-9") "Jane Doe" !! "Text4"
  = Some (JStr "March 04, 2025").
Proof.
  apply (fill_generation_date Demo.template Demo.acme Demo.jane
           (Demo.env Demo.crm) initial_world Demo.template
           (Demo.fields (JStr "Acme Corp") (JStr "CUST-9") "Jane Doe")
           (tick initial_world)).
  - vm_compute. reflexivity.
  - unfold calendar_date. simpl. lia.
Defined.

(* ===================================================================== *)
(** ** Authentication *)
(* ===================================================================== *)

(** [load_auth_config] returns, with the world as it was or with one
    error more. *)
Lemma load_auth_config_run src E w :
  exists config,
    load_auth_config src E w = (Ok config, w)
    \/ (config = JNull
        /\ exists msg,
             load_auth_config src E w
             = (Ok JNull,
                add_ui (st_error ("Error loading authentication config: "
                                  ++ msg)%string) w)).
Proof.
  unfold load_auth_config, config_error.
  destruct (config_yaml src) as [[config | msg] | ].
  - exists config. now left.
  - exists JNull. right. split; [reflexivity |]. now exists msg.
  - destruct (secrets_auth src) as [[auth | ] | msg].
    + exists auth. now left.
    + exists default_config. now left.
    + exists JNull. right. split; [reflexivity |]. now exists msg.
Qed.

(** X16. An existing [config.yaml] decides alone: whatever the secrets
    hold, and even when looking at them would fail, they are not consulted;
    the secrets decide when there is no file, and the built-in
    configuration is used only when there is neither. *)
Theorem load_auth_config_precedence src E w :
  (forall file,
     config_yaml src = Some file ->
     forall secrets,
       load_auth_config src E w
       = load_auth_config
           {| config_yaml := Some file; secrets_auth := secrets |} E w)
  /\ (forall auth,
        config_yaml src = None -> secrets_auth src = Returned (Some auth) ->
        load_auth_config src E w = (Ok auth, w))
  /\ (fst (load_auth_config src E w) = Ok default_config ->
      config_yaml src = Some (Returned default_config)
      \/ (config_yaml src = None
          /\ (secrets_auth src = Returned None
              \/ secrets_auth src = Returned (Some default_config)))).
Proof.
  unfold load_auth_config, config_error. split; [| split].
  - intros file Hfile secrets. rewrite Hfile. reflexivity.
  - intros auth Hfile Hsecrets. now rewrite Hfile, Hsecrets.
  - destruct (config_yaml src) as [[config | msg] | ]; simpl.
    + intros [= ->]. now left.
    + discriminate.
    + destruct (secrets_auth src) as [[auth | ] | msg]; simpl.
      * intros [= ->]. right. auto.
      * intros _. right. auto.
      * discriminate.
Qed.

Lemma load_auth_config_precedence_witness :
  load_auth_config DemoLogin.broken_file (Demo.env Demo.crm) initial_world
  = load_auth_config
      {| config_yaml := Some (Failed "mapping values are not allowed here");
         secrets_auth := Failed "No secrets found" |}
      (Demo.env Demo.crm) initial_world.
Proof.
  apply (proj1 (load_auth_config_precedence DemoLogin.broken_file
                  (Demo.env Demo.crm) initial_world)
           (Failed "mapping values are not allowed here")).
  reflexivity.
Defined.

(** The statements of [main] between the configuration and the login
    leave the world as it is. *)
Ltac config_entry H :=
  let v := fresh "v" in
  let w1 := fresh "w" in
  let Hs := fresh "Hs" in
  let e := fresh "e" in
  apply bind_inv in H as [(v & w1 & Hs & H) | (e & Hs & ->)];
  apply lift_inv in Hs as [Hs ->].

Lemma main_after_config config login inp E w r w' :
  config <> JNull ->
  (credentials <- lift (py_getitem config "credentials");;
   cookie <- lift (py_getitem config "cookie");;
   name <- lift (py_getitem cookie "name");;
   cookie <- lift (py_getitem config "cookie");;
   key <- lift (py_getitem cookie "key");;
   cookie <- lift (py_getitem config "cookie");;
   expiry_days <- lift (py_getitem cookie "expiry_days");;
   authentication_status <- lift (login credentials name key expiry_days);;
   match authentication_status with
   | Some true => main_app inp
   | Some false =>
       show (st_error "❌ Username/password is incorrect");;
       show (st_info "Please check your credentials and try again.")
   | None =>
       show (st_info
         "👆 Please enter your username and password above to continue")
   end)%py E w = (r, w') ->
  (exists credentials name key expiry_days,
     login credentials name key expiry_days = Ok (Some true)
     /\ main_app inp E w = (r, w'))
  \/ (calls w' = calls w /\ clock_reads w' = clock_reads w
      /\ exists evs, ui w' = ui w ++ evs /\ no_download evs).
Proof.
  intros _ H.
  assert (Hsame : calls w = calls w /\ clock_reads w = clock_reads w
                  /\ exists evs, ui w = ui w ++ evs /\ no_download evs).
  { repeat split. exists []. now rewrite app_nil_r. }
  do 8 (config_entry H; [| now right]).
  destruct v6 as [[ | ] | ].
  - left. exists v, v1, v3, v5. split; [now symmetry | exact H].
  - right. unfold bind, show in H. inversion H; subst. simpl.
    repeat split. eexists [_; _]. rewrite <- app_assoc.
    split; reflexivity.
  - right. inversion H; subst. simpl. repeat split.
    eexists [_]. split; reflexivity.
Qed.

(** X17. The login is a gate: unless it reports the status [True],
    [main] makes no CRM call, does not read the clock and offers no
    packet, whatever the configuration and the inputs. *)
Theorem main_gate src login inp E w :
  (forall credentials name key expiry_days,
     login credentials name key expiry_days <> Ok (Some true)) ->
  calls (snd (main src login inp E w)) = calls w
  /\ clock_reads (snd (main src login inp E w)) = clock_reads w
  /\ exists evs,
       ui (snd (main src login inp E w)) = ui w ++ evs /\ no_download evs.
Proof.
  intros Hlogin.
  destruct (main src login inp E w) as [r w'] eqn:H. simpl.
  unfold main in H.
  destruct (load_auth_config_run src E w)
    as (config & [Hload | (-> & msg & Hload)]).
  - rewrite (bind_ok _ _ _ _ _ _ Hload) in H.
    destruct config;
      [ inversion H; subst; simpl; repeat split;
        eexists [_]; split; reflexivity
      | apply main_after_config in H
          as [(c1 & c2 & c3 & c4 & Hyes & _) | Hno];
        [now destruct (Hlogin c1 c2 c3 c4) | exact Hno | discriminate] .. ].
  - rewrite (bind_ok _ _ _ _ _ _ Hload) in H.
    unfold show in H. inversion H; subst. simpl. repeat split.
    eexists [_; _]. rewrite <- app_assoc. split; reflexivity.
Qed.

Lemma main_gate_witness :
  calls (snd (main DemoLogin.bare DemoLogin.closed
                (Demo.by_id "42" Demo.template) (Demo.env Demo.crm)
                initial_world)) = [].
Proof.
  apply (main_gate DemoLogin.bare DemoLogin.closed
           (Demo.by_id "42" Demo.template) (Demo.env Demo.crm)
           initial_world).
  intros credentials name key expiry_days. discriminate.
Defined.

(** X18. With a configuration that has its credentials and the three
    cookie entries, and a login that reports [True], [main] is
    [main_app]: it adds nothing of its own. *)
Theorem main_authenticated src login inp E w
    config credentials cookie name key expiry_days :
  load_auth_config src E w = (Ok config, w) ->
  py_getitem config "credentials" = Ok credentials ->
  py_getitem config "cookie" = Ok cookie ->
  py_getitem cookie "name" = Ok name ->
  py_getitem cookie "key" = Ok key ->
  py_getitem cookie "expiry_days" = Ok expiry_days ->
  login credentials name key expiry_days = Ok (Some true) ->
  main src login inp E w = main_app inp E w.
Proof.
  intros Hload Hcredentials Hcookie Hname Hkey Hexpiry Hlogin.
  unfold main. rewrite (bind_ok _ _ _ _ _ _ Hload).
  destruct config; try discriminate;
    rewrite Hcredentials, Hcookie;
    do 2 (erewrite bind_ok by reflexivity);
    rewrite Hname; do 2 (erewrite bind_ok by reflexivity);
    rewrite Hkey; do 2 (erewrite bind_ok by reflexivity);
    rewrite Hexpiry; erewrite bind_ok by reflexivity;
    rewrite Hlogin; erewrite bind_ok by reflexivity;
    reflexivity.
Qed.

Lemma main_authenticated_witness :
  main DemoLogin.bare DemoLogin.open (Demo.by_id "42" Demo.template)
    (Demo.env Demo.crm) initial_world
  = main_app (Demo.by_id "42" Demo.template) (Demo.env Demo.crm)
      initial_world.
Proof.
  apply (main_authenticated DemoLogin.bare DemoLogin.open
           (Demo.by_id "42" Demo.template) (Demo.env Demo.crm)
           initial_world default_config
           (JObj {[ "usernames" := JObj {[
              "btx_admin" := JObj {[
                "name" := JStr "BTX Admin";
                "password" :=
                  JStr
                    "$2b$12$KIXqRlXJUqEqQsaHvlqN1.T7HqJZFjNZ0H3jKqN5qZqN5qZqN5qZ";
                "email" := JStr "admin@btxglobal.com" ]} ]} ]})
           (JObj {[ "expiry_days" := JInt 30;
                    "key" := JStr "btx_welcome_packet_cookie_key";
                    "name" := JStr "btx_welcome_packet_auth" ]})
           (JStr "btx_welcome_packet_auth")
           (JStr "btx_welcome_packet_cookie_key") (JInt 30));
    vm_compute; reflexivity.
Defined.

(** X19. Without configuration -- the file or the secrets could not be
    read, or the file is empty -- [main] says that the configuration
    failed to load and stops: the login is not asked, whatever it would
    say, and nothing else happens. *)
Theorem main_without_config src login inp E w :
  fst (load_auth_config src E w) = Ok JNull ->
  exists evs,
    main src login inp E w
    = (Ok tt,
       add_events
         (evs ++ [st_error "Failed to load authentication configuration"])
         w)
    /\ (evs = []
        \/ exists msg,
             evs = [st_error ("Error loading authentication config: "
                              ++ msg)%string]).
Proof.
  intros Hnull. unfold main.
  destruct (load_auth_config_run src E w)
    as (config & [Hload | (-> & msg & Hload)]).
  - rewrite Hload in Hnull. simpl in Hnull. injection Hnull as ->.
    rewrite (bind_ok _ _ _ _ _ _ Hload).
    exists []. split; [reflexivity | now left].
  - rewrite (bind_ok _ _ _ _ _ _ Hload).
    eexists [_]. split; [| right; now exists msg].
    unfold show, add_ui, add_events. simpl. now rewrite <- app_assoc.
Qed.

Lemma main_without_config_witness :
  exists evs,
    main DemoLogin.broken_file DemoLogin.open
      (Demo.by_id "42" Demo.template) (Demo.env Demo.crm) initial_world
    = (Ok tt,
       add_events
         (evs ++ [st_error "Failed to load authentication configuration"])
         initial_world)
    /\ (evs = []
        \/ exists msg,
             evs = [st_error ("Error loading authentication config: "
                              ++ msg)%string]).
Proof.
  apply (main_without_config DemoLogin.broken_file DemoLogin.open
           (Demo.by_id "42" Demo.template) (Demo.env Demo.crm)
           initial_world).
  reflexivity.
Defined.

(** X20. A configuration without [credentials], or with credentials and
    without [cookie], is not caught: [main] ends in the [KeyError] of the
    first missing entry, before the login and without a message. *)
Theorem main_incomplete_config src login inp E w c key :
  load_auth_config src E w = (Ok (JObj c), w) ->
  (c !! "credentials" = None /\ key = "credentials"%string)
  \/ (is_Some (c !! "credentials") /\ c !! "cookie" = None
      /\ key = "cookie"%string) ->
  main src login inp E w = (Raise (KeyError key), w).
Proof.
  intros Hload Hmissing. unfold main.
  rewrite (bind_ok _ _ _ _ _ _ Hload). cbn [py_getitem].
  destruct Hmissing as [[Hc ->] | ([credentials Hc] & Hk & ->)];
    rewrite Hc; [reflexivity |].
  erewrite bind_ok by reflexivity. now rewrite Hk.
Qed.

Lemma main_incomplete_config_witness :
  main DemoLogin.cookieless DemoLogin.open (Demo.by_id "42" Demo.template)
    (Demo.env Demo.crm) initial_world
  = (Raise (KeyError "cookie"), initial_world).
Proof.
  apply (main_incomplete_config DemoLogin.cookieless DemoLogin.open
           (Demo.by_id "42" Demo.template) (Demo.env Demo.crm)
           initial_world {[ "credentials" := JObj ∅ ]} "cookie").
  - reflexivity.
  - right. split; [| split]; try reflexivity.
    exists (JObj ∅). vm_compute. reflexivity.
Defined.

(* ===================================================================== *)
(** ** Companies without a usable name *)
(* ===================================================================== *)

Lemma fetch_and_generate_found inp E w company_data w1 company_id :
  company_lookup inp E (lookup_start inp w) = (Ok company_data, w1) ->
  truthy company_data = true ->
  company_id_of inp company_data = Ok company_id ->
  fetch_and_generate inp E w
  = generate_packet inp (HubSpotClient_init (in_api_key inp)) company_id
      company_data E w1.
Proof.
  unfold company_lookup, lookup_start, company_id_of, fetch_and_generate.
  intros Hlookup Htruthy Hid. destruct (search_method inp).
  - erewrite bind_ok by reflexivity.
    erewrite bind_ok by exact Hlookup.
    rewrite Htruthy. cbn [negb]. rewrite Hid.
    now erewrite bind_ok by reflexivity.
  - injection Hid as <-. now erewrite bind_ok by exact Hlookup.
Qed.

(** X21. A company record whose properties have no [name] stops the run
    right after the lookup, with the messages of the catch-all clause for
    the [KeyError]: no contact is looked up and nothing is filled --
    although the filler would have written ["N/A"] for the name. *)
Theorem main_app_company_without_name inp E w c p w1 company_id :
  generates inp = true ->
  company_lookup inp E (lookup_start inp w) = (Ok (JObj c), w1) ->
  company_id_of inp (JObj c) = Ok company_id ->
  c !! "properties" = Some (JObj p) ->
  p !! "name" = None ->
  main_app inp E w
  = (Ok tt, add_events (unexpected_error_message E (KeyError "name")) w1).
Proof.
  intros Hgen Hlookup Hid Hc Hp.
  rewrite (main_app_generates _ Hgen). unfold try_except.
  rewrite (fetch_and_generate_found inp E w _ _ _ Hlookup
             (truthy_with_key _ _ _ Hc) Hid).
  unfold generate_packet.
  erewrite bind_ok by reflexivity.
  cbn [py_getitem]. rewrite Hc.
  erewrite bind_ok by reflexivity.
  cbn [py_getitem]. rewrite Hp.
  erewrite bind_raise by reflexivity.
  now rewrite on_exception_run.
Qed.

Lemma main_app_company_without_name_witness :
  main_app (Demo.by_id "42" Demo.template)
    (Demo.env (DemoLogin.crm_of DemoLogin.anonymous)) initial_world
  = (Ok tt,
     add_events
       (unexpected_error_message
          (Demo.env (DemoLogin.crm_of DemoLogin.anonymous))
          (KeyError "name"))
       (add_call
          (company_by_id_request (HubSpotClient_init "pat-123")
             (Demo.env (DemoLogin.crm_of DemoLogin.anonymous)) (JStr "42"),
           Demo.ok DemoLogin.anonymous)
          initial_world)).
Proof.
  apply (main_app_company_without_name (Demo.by_id "42" Demo.template)
           (Demo.env (DemoLogin.crm_of DemoLogin.anonymous)) initial_world
           {[ "id" := JStr "42";
              "properties" := JObj {[ "btx_customer__" := JStr "CUST-9" ]} ]}
           {[ "btx_customer__" := JStr "CUST-9" ]} _ (JStr "42"));
    vm_compute; reflexivity.
Defined.

Lemma generate_packet_name_not_text inp client company_id E w c p
    name number contact w2 b out :
  c !! "properties" = Some (JObj p) ->
  p !! "name" = Some name ->
  (forall s, name <> JStr s) ->
  displayable name ->
  number = default (JStr "N/A") (p !! "btx_customer__") ->
  displayable number ->
  get_company_contacts client company_id E
    (add_ui (st_info "🔍 Fetching account team information...")
       (add_ui (st_success ("✅ Found company: " ++ py_str E name)%string) w))
  = (Ok contact, w2) ->
  truthy contact = false ->
  template_to_use inp = Ok b ->
  library_fills E b out ->
  exists w',
    generate_packet inp client company_id (JObj c) E w
    = (Raise (AttributeError "replace"), w')
    /\ calls w' = calls w2
    /\ ui w'
       = ui w2 ++
         [ st_warning "⚠️ No contact associated with this company";
           st_info "📝 Filling PDF form...";
           st_markdown FilledInformationHeading;
           st_metric "Company" name;
           st_metric "Customer #" number;
           st_metric "Account Team" (JStr "N/A");
           st_metric "Date" (JStr (strftime_B_d_Y (now E (clock_reads w2)))) ].
Proof.
  intros Hc Hp Htext Hname -> Hnumber Hcontact Hnone Hb Hlib.
  pose proof (fill_run b c p contact "N/A"
                E (add_ui (st_info "📝 Filling PDF form...")
                     (add_ui (st_warning
                        "⚠️ No contact associated with this company") w2))
                out Hc (account_team_of_absent _ _ _ Hnone) Hlib) as Hfill.
  cbv zeta in Hfill. rewrite Hp in Hfill.
  change (default (JStr "N/A") (Some name)) with name in Hfill.
  cbn [clock_reads add_ui] in Hfill.
  unfold generate_packet.
  erewrite bind_ok by reflexivity.
  cbn [py_getitem]. rewrite Hc.
  erewrite bind_ok by reflexivity.
  cbn [py_getitem]. rewrite Hp.
  erewrite bind_ok by reflexivity.
  do 2 (erewrite bind_ok by reflexivity).
  erewrite bind_ok by exact Hcontact.
  rewrite Hnone.
  do 2 (erewrite bind_ok by reflexivity).
  rewrite Hb. erewrite bind_ok by reflexivity.
  erewrite bind_ok by exact Hfill.
  cbv beta iota.
  erewrite bind_ok by reflexivity.
  rewrite field_Text1. erewrite bind_ok by reflexivity.
  erewrite bind_ok by (now apply metric_displayable).
  rewrite field_Text2. erewrite bind_ok by reflexivity.
  erewrite bind_ok by (now apply metric_displayable).
  rewrite field_Text3. erewrite bind_ok by reflexivity.
  erewrite bind_ok by reflexivity.
  rewrite field_Text4. erewrite bind_ok by reflexivity.
  erewrite bind_ok by reflexivity.
  assert (Hreplace : forall w0,
            replace_spaces name E w0 = (Raise (AttributeError "replace"), w0)).
  { intros w0. destruct name; try reflexivity. now destruct (Htext s). }
  erewrite bind_raise by apply Hreplace.
  eexists. split; [reflexivity |]. split; [reflexivity |].
  cbn [ui clock_reads add_ui tick]. now rewrite <- !app_assoc.
Qed.

(** X22. A company whose name is present and no text -- [None], for one
    -- gets a run that finds the company, fills the template, shows the
    filled values, and then fails on the filename: it ends with the
    messages of the catch-all clause and offers nothing. *)
Theorem main_app_company_name_not_text inp E w c p w1 company_id
    name number contact w2 b out :
  generates inp = true ->
  company_lookup inp E (lookup_start inp w) = (Ok (JObj c), w1) ->
  company_id_of inp (JObj c) = Ok company_id ->
  c !! "properties" = Some (JObj p) ->
  p !! "name" = Some name ->
  (forall s, name <> JStr s) ->
  displayable name ->
  number = default (JStr "N/A") (p !! "btx_customer__") ->
  displayable number ->
  get_company_contacts (HubSpotClient_init (in_api_key inp)) company_id E
    (add_ui (st_info "🔍 Fetching account team information...")
       (add_ui (st_success ("✅ Found company: " ++ py_str E name)%string)
          w1))
  = (Ok contact, w2) ->
  truthy contact = false ->
  template_to_use inp = Ok b ->
  library_fills E b out ->
  fst (main_app inp E w) = Ok tt
  /\ calls (snd (main_app inp E w)) = calls w2
  /\ ui (snd (main_app inp E w))
     = ui w2 ++ shown_without_name E name number (now E (clock_reads w2))
  /\ Ready (snd (main_app inp E w)) = existsb is_download (ui w2).
Proof.
  intros Hgen Hlookup Hid Hc Hp Htext Hname Hnumber Hshow Hcontact Hnone
    Hb Hlib.
  destruct (generate_packet_name_not_text inp
              (HubSpotClient_init (in_api_key inp)) company_id E w1 c p
              name number contact w2 b out
              Hc Hp Htext Hname Hnumber Hshow Hcontact Hnone Hb Hlib)
    as (w' & Hrun & Hcalls & Hui).
  rewrite (main_app_generates _ Hgen). unfold try_except.
  rewrite (fetch_and_generate_found inp E w _ _ _ Hlookup
             (truthy_with_key _ _ _ Hc) Hid).
  rewrite Hrun, on_exception_run. simpl.
  assert (Hshown : ui w' ++ unexpected_error_message E
                                (AttributeError "replace")
                   = ui w2 ++ shown_without_name E name number
                                (now E (clock_reads w2))).
  { rewrite Hui. unfold shown_without_name. now rewrite <- app_assoc. }
  repeat split; auto.
  unfold Ready. simpl. rewrite Hshown, existsb_app. simpl.
  now rewrite orb_false_r.
Qed.

Lemma main_app_company_name_not_text_witness :
  Ready (snd (main_app (Demo.by_id "42" Demo.template)
                (Demo.env (DemoLogin.crm_of DemoLogin.unnamed))
                initial_world)) = false
  /\ In (st_metric "Company" JNull)
        (ui (snd (main_app (Demo.by_id "42" Demo.template)
                    (Demo.env (DemoLogin.crm_of DemoLogin.unnamed))
                    initial_world))).
Proof.
  pose (E := Demo.env (DemoLogin.crm_of DemoLogin.unnamed)).
  pose (inp := Demo.by_id "42" Demo.template).
  pose (lookup := company_lookup inp E (lookup_start inp initial_world)).
  pose (start :=
          add_ui (st_info "🔍 Fetching account team information...")
            (add_ui (st_success "✅ Found company: None") (snd lookup))).
  pose (contacts :=
          get_company_contacts (HubSpotClient_init "pat-123") (JStr "42")
            E start).
  destruct (main_app_company_name_not_text inp E initial_world
              {[ "id" := JStr "42";
                 "properties" := JObj {[ "name" := JNull;
                                         "btx_customer__" := JStr "CUST-9" ]} ]}
              {[ "name" := JNull; "btx_customer__" := JStr "CUST-9" ]}
              (snd lookup) (JStr "42") JNull (JStr "CUST-9") JNull
              (snd contacts) Demo.template (fun _ => Demo.template))
    as (_ & _ & Hui & Hready).
  - reflexivity.
  - vm_compute. reflexivity.
  - reflexivity.
  - vm_compute. reflexivity.
  - vm_compute. reflexivity.
  - discriminate.
  - exact I.
  - vm_compute. reflexivity.
  - exact I.
  - vm_compute. reflexivity.
  - reflexivity.
  - reflexivity.
  - exists Demo.template, Demo.template, tt, []. repeat split.
    intros fv. exists Demo.template. split; reflexivity.
  - subst contacts start lookup inp E.
    split; [rewrite Hready; reflexivity |].
    rewrite Hui. apply in_or_app. right.
    unfold shown_without_name. simpl. tauto.
Defined.

(* ===================================================================== *)
(** ** Runs with a contact *)
(* ===================================================================== *)

Lemma generate_packet_with_contact inp client company_id company_data
    E w name number k q w2 b out :
  company_name_of company_data = Some name ->
  customer_number_of company_data = Some number ->
  displayable number ->
  get_company_contacts client company_id E
    (add_ui (st_info "🔍 Fetching account team information...")
       (add_ui (st_success ("✅ Found company: " ++ name)%string) w))
  = (Ok (JObj k), w2) ->
  k !! "properties" = Some (JObj q) ->
  template_to_use inp = Ok b ->
  library_fills E b out ->
  let full := py_strip (name_text E (q !! "firstname") ++ " "
                        ++ name_text E (q !! "lastname"))%string in
  let team := if String.eqb full "" then "N/A"%string else full in
  let fv : gmap string json :=
    {[ "Text1" := JStr name;
       "Text2" := number;
       "Text3" := JStr team;
       "Text4" := JStr (strftime_B_d_Y (now E (clock_reads w2))) ]} in
  let filling :=
    add_ui (st_info "📝 Filling PDF form...")
      (add_ui (st_success ("✅ Found account team: " ++ full)%string) w2) in
  exists w',
    generate_packet inp client company_id company_data E w = (Ok tt, w')
    /\ fill_btx_welcome_packet b company_data (JObj k) E filling
       = (Ok (out fv, fv), tick filling)
    /\ ui w'
       = ui w2 ++
         shown_filled (st_success ("✅ Found account team: " ++ full)%string)
           (JStr name) number (JStr team)
           (JStr (strftime_B_d_Y (now E (clock_reads w2)))) (out fv)
           (download_name name (now E (S (clock_reads w2))))
    /\ calls w' = calls w2
    /\ clock_reads w' = S (S (clock_reads w2)).
Proof.
  intros Hname Hnumber Hshow Hcontact Hk Hb Hlib full team fv filling.
  apply company_name_of_inv in Hname as (c & p & -> & Hc & Hp).
  unfold customer_number_of, company_properties in Hnumber.
  rewrite Hc in Hnumber. cbn [default] in Hnumber.
  injection Hnumber as <-.
  assert (Hreadable : readable_record (JObj k)).
  { exists k, q. split; [reflexivity |]. now rewrite Hk. }
  assert (Hrecord : contact_record E (JObj k)
                    = Some (name_text E (q !! "firstname"),
                            name_text E (q !! "lastname"))).
  { unfold contact_record. rewrite (truthy_with_key _ _ _ Hk).
    now rewrite Hk. }
  pose proof (fill_run b c p (JObj k)
                (accountTeamName (contact_record E (JObj k)))
                E filling
                out Hc (account_team_of_run _ _ _ (or_intror Hreadable))
                Hlib) as Hfill.
  cbv zeta in Hfill. rewrite Hp, Hrecord in Hfill.
  change (default (JStr "N/A") (Some (JStr name))) with (JStr name) in Hfill.
  change (clock_reads filling) with (clock_reads w2) in Hfill.
  cbn [accountTeamName] in Hfill. fold full in Hfill. fold team in Hfill.
  fold fv in Hfill.
  unfold generate_packet.
  erewrite bind_ok by reflexivity.
  cbn [py_getitem]. rewrite Hc.
  erewrite bind_ok by reflexivity.
  cbn [py_getitem]. rewrite Hp.
  erewrite bind_ok by reflexivity.
  cbn [py_str].
  do 2 (erewrite bind_ok by reflexivity).
  erewrite bind_ok by exact Hcontact.
  rewrite (truthy_with_key _ _ _ Hk).
  cbn [py_getitem py_get]. rewrite Hk.
  erewrite (bind_ok (bind _ _)).
  2:{ do 3 (erewrite bind_ok by reflexivity).
      rewrite !name_text_default. fold full. reflexivity. }
  erewrite bind_ok by reflexivity.
  rewrite Hb. erewrite bind_ok by reflexivity.
  erewrite bind_ok by exact Hfill.
  cbv beta iota.
  erewrite bind_ok by reflexivity.
  unfold fv at 1. rewrite field_Text1. erewrite bind_ok by reflexivity.
  erewrite bind_ok by reflexivity.
  unfold fv at 1. rewrite field_Text2. erewrite bind_ok by reflexivity.
  erewrite bind_ok by (now apply metric_displayable).
  unfold fv at 1. rewrite field_Text3. erewrite bind_ok by reflexivity.
  erewrite bind_ok by reflexivity.
  unfold fv at 1. rewrite field_Text4. erewrite bind_ok by reflexivity.
  erewrite bind_ok by reflexivity.
  do 2 (erewrite bind_ok by reflexivity).
  unfold bind, show.
  eexists. split; [reflexivity |]. split; [exact Hfill |].
  unfold shown_filled, download_name, filling.
  cbn [ui calls clock_reads add_ui tick].
  split; [now rewrite <- !app_assoc | split; reflexivity].
Qed.

(** X23. When the company has a text name and a displayable customer
    number, its first contact has [properties], and the PDF library fills
    the template, the run announces the contact by the trimmed "first
    last", fills with that name as account team -- or ["N/A"] when it is
    empty --, shows the four filled values, and offers the document the
    PDF library wrote for these very values, under the filename of the
    company and the day. *)
Theorem main_app_with_contact inp E w company_data w1 company_id name number
    k q w2 b out :
  generates inp = true ->
  company_lookup inp E (lookup_start inp w) = (Ok company_data, w1) ->
  company_id_of inp company_data = Ok company_id ->
  company_name_of company_data = Some name ->
  customer_number_of company_data = Some number ->
  displayable number ->
  get_company_contacts (HubSpotClient_init (in_api_key inp)) company_id E
    (add_ui (st_info "🔍 Fetching account team information...")
       (add_ui (st_success ("✅ Found company: " ++ name)%string) w1))
  = (Ok (JObj k), w2) ->
  k !! "properties" = Some (JObj q) ->
  template_to_use inp = Ok b ->
  library_fills E b out ->
  let full := py_strip (name_text E (q !! "firstname") ++ " "
                        ++ name_text E (q !! "lastname"))%string in
  let team := if String.eqb full "" then "N/A"%string else full in
  let fv : gmap string json :=
    {[ "Text1" := JStr name;
       "Text2" := number;
       "Text3" := JStr team;
       "Text4" := JStr (strftime_B_d_Y (now E (clock_reads w2))) ]} in
  let filling :=
    add_ui (st_info "📝 Filling PDF form...")
      (add_ui (st_success ("✅ Found account team: " ++ full)%string) w2) in
  fst (main_app inp E w) = Ok tt
  /\ fill_btx_welcome_packet b company_data (JObj k) E filling
     = (Ok (out fv, fv), tick filling)
  /\ ui (snd (main_app inp E w))
     = ui w2 ++
       [ st_success ("✅ Found account team: " ++ full)%string;
         st_info "📝 Filling PDF form...";
         st_markdown FilledInformationHeading;
         st_metric "Company" (JStr name);
         st_metric "Customer #" number;
         st_metric "Account Team" (JStr team);
         st_metric "Date" (JStr (strftime_B_d_Y (now E (clock_reads w2))));
         st_markdown HorizontalRule;
         st_download_button "⬇️ Download Welcome Packet" (out fv)
           (download_name name (now E (S (clock_reads w2))))
           "application/pdf";
         st_markdown SuccessBox ]
  /\ Ready (snd (main_app inp E w)) = true.
Proof.
  intros Hgen Hlookup Hid Hname Hnumber Hshow Hcontact Hk Hb Hlib
    full team fv filling.
  destruct (generate_packet_with_contact inp
              (HubSpotClient_init (in_api_key inp)) company_id company_data
              E w1 name number k q w2 b out
              Hname Hnumber Hshow Hcontact Hk Hb Hlib)
    as (w' & Hrun & Hfill & Hui & _).
  rewrite (main_app_generates _ Hgen). unfold try_except.
  assert (Htruthy : truthy company_data = true).
  { apply company_name_of_inv in Hname as (c & p & -> & Hc & _).
    exact (truthy_with_key _ _ _ Hc). }
  rewrite (fetch_and_generate_found inp E w _ _ _ Hlookup Htruthy Hid).
  rewrite Hrun. simpl. split; [reflexivity |]. split; [exact Hfill |].
  split; [exact Hui |].
  unfold Ready. rewrite Hui, existsb_app. simpl. now rewrite !orb_true_r.
Qed.

Lemma main_app_with_contact_witness :
  In (st_metric "Account Team" (JStr "Jane Doe"))
     (ui (snd (main_app (Demo.by_name "Acme" Demo.template)
                 (Demo.env_with Demo.stamping_library Demo.crm)
                 initial_world)))
  /\ In (st_download_button "⬇️ Download Welcome Packet"
           (Demo.template ++ list_byte_of_string "Jane Doe")
           "BTX_Welcome_Packet_Acme_Corp_20250304.pdf" "application/pdf")
        (ui (snd (main_app (Demo.by_name "Acme" Demo.template)
                    (Demo.env_with Demo.stamping_library Demo.crm)
                    initial_world))).
Proof.
  pose (E := Demo.env_with Demo.stamping_library Demo.crm).
  pose (inp := Demo.by_name "Acme" Demo.template).
  pose (lookup := company_lookup inp E (lookup_start inp initial_world)).
  pose (start :=
          add_ui (st_info "🔍 Fetching account team information...")
            (add_ui (st_success "✅ Found company: Acme Corp") (snd lookup))).
  pose (contacts :=
          get_company_contacts (HubSpotClient_init "pat-123") (JStr "42")
            E start).
  destruct (main_app_with_contact inp E initial_world Demo.acme (snd lookup)
              (JStr "42") "Acme Corp" (JStr "CUST-9")
              {[ "id" := JStr "7";
                 "properties" := JObj {[ "firstname" := JStr "Jane";
                                         "lastname" := JStr "Doe" ]} ]}
              {[ "firstname" := JStr "Jane"; "lastname" := JStr "Doe" ]}
              (snd contacts) Demo.template
              (fun fv => Demo.template ++ Demo.stamp fv))
    as (_ & _ & Hui & _).
  - reflexivity.
  - vm_compute. reflexivity.
  - reflexivity.
  - vm_compute. reflexivity.
  - vm_compute. reflexivity.
  - exact I.
  - vm_compute. reflexivity.
  - vm_compute. reflexivity.
  - reflexivity.
  - exists Demo.template, (Demo.template, ∅), tt, []. repeat split.
    intros fv. exists (Demo.template, fv). split; reflexivity.
  - subst contacts start lookup inp E.
    rewrite Hui. split; apply in_or_app; right; vm_compute; tauto.
Defined.

(* ===================================================================== *)
(** ** The contact lookup follows the company lookup *)
(* ===================================================================== *)

Lemma calls_only_grow E {A} (m : M A) w r w' :
  plain E m -> m E w = (r, w') -> exists cs, calls w' = calls w ++ cs.
Proof.
  intros Hm H. destruct (Hm _ _ _ H) as (evs & cs & _ & Hc & _). eauto.
Qed.

Lemma get_company_contacts_first_call self company_id E w :
  exists rest,
    calls (snd (get_company_contacts self company_id E w))
    = calls w
      ++ (associations_request self E company_id,
          http E (associations_request self E company_id)) :: rest.
Proof.
  destruct (get_company_contacts self company_id E w) as [r w'] eqn:H.
  simpl. unfold get_company_contacts in H.
  apply bind_inv in H as [(E' & w0 & HE & H) | (e & HE & _)];
    [| discriminate].
  inversion HE; subst E' w0; clear HE.
  apply bind_inv in H as [(resp & w1 & Hsend & H) | (e & Hsend & _)].
  - assert (w1 = add_call (associations_request self E company_id,
                           http E (associations_request self E company_id))
                    w) as ->.
    { unfold requests_send in Hsend.
      destruct (http E _); now inversion Hsend. }
    apply bind_inv in H as [(u & w2 & Hst & H) | (e & Hst & _)];
      unfold raise_for_status in Hst;
      destruct ((400 <=? status_code resp) && (status_code resp <? 600));
      try discriminate.
    + inversion Hst; subst u w2; clear Hst.
      eapply calls_only_grow in H as (cs & Hc); [| block].
      exists cs. rewrite Hc. simpl. now rewrite <- app_assoc.
    + inversion Hst; subst. now exists [].
  - exists []. unfold requests_send in Hsend.
    destruct (http E _); now inversion Hsend.
Qed.

(** X24. The contact is looked up for the company that was found: once a
    company record with a name is there, the next call of the run is the
    association listing for its id -- the [id] of the record after a name
    search, the text typed after a lookup by id. *)
Theorem contact_lookup_follows_company inp E w company_data w1 company_id
    props name :
  generates inp = true ->
  company_lookup inp E (lookup_start inp w) = (Ok company_data, w1) ->
  company_id_of inp company_data = Ok company_id ->
  py_getitem company_data "properties" = Ok props ->
  py_getitem props "name" = Ok name ->
  exists rest,
    calls (snd (main_app inp E w))
    = calls w1
      ++ (associations_request (HubSpotClient_init (in_api_key inp)) E
            company_id,
          http E (associations_request
                    (HubSpotClient_init (in_api_key inp)) E company_id))
         :: rest.
Proof.
  intros Hgen Hlookup Hid Hprops Hname.
  set (client := HubSpotClient_init (in_api_key inp)).
  assert (Htruthy : truthy company_data = true).
  { destruct company_data as [ | | | | | c]; try discriminate.
    simpl in Hprops. destruct (c !! "properties") eqn:Hc; [| discriminate].
    exact (truthy_with_key _ _ _ Hc). }
  rewrite (main_app_generates _ Hgen). unfold try_except.
  rewrite (fetch_and_generate_found inp E w _ _ _ Hlookup Htruthy Hid).
  fold client. unfold generate_packet.
  erewrite bind_ok by reflexivity.
  rewrite Hprops. erewrite bind_ok by reflexivity.
  rewrite Hname. erewrite bind_ok by reflexivity.
  do 2 (erewrite bind_ok by reflexivity).
  set (w2 := add_ui _ (add_ui _ w1)).
  destruct (get_company_contacts_first_call client company_id E w2)
    as (rest & Hfirst).
  change (calls w2) with (calls w1) in Hfirst.
  destruct (get_company_contacts client company_id E w2)
    as [[contact | e] w3] eqn:Hcontacts; simpl in Hfirst.
  - erewrite bind_ok by exact Hcontacts.
    match goal with
    | |- context [match ?k E w3 with _ => _ end] =>
        destruct (k E w3) as [[[] | e] w4] eqn:Hrest;
        assert (Hgrow : orderly E client 0 k) by count_calls
    end;
      destruct (Hgrow _ _ _ Hrest) as (cs & Hc & _);
      [| rewrite on_exception_run];
      exists (rest ++ cs); simpl; rewrite Hc, Hfirst, <- app_assoc;
      reflexivity.
  - erewrite bind_raise by exact Hcontacts.
    rewrite on_exception_run. exists rest. exact Hfirst.
Qed.

Lemma contact_lookup_follows_company_witness :
  exists rest,
    calls (snd (main_app (Demo.by_name "Acme" Demo.template)
                  (Demo.env Demo.crm) initial_world))
    = [ (search_request (HubSpotClient_init "pat-123") "Acme",
         Demo.ok (JObj {[ "results" := JArr [Demo.acme] ]})) ]
      ++ (associations_request (HubSpotClient_init "pat-123")
            (Demo.env Demo.crm) (JStr "42"),
          Demo.ok (JObj {[ "results" :=
            JArr [JObj {[ "toObjectId" := JInt 7 ]}] ]}))
         :: rest.
Proof.
  destruct (contact_lookup_follows_company
              (Demo.by_name "Acme" Demo.template) (Demo.env Demo.crm)
              initial_world Demo.acme
              (snd (company_lookup (Demo.by_name "Acme" Demo.template)
                      (Demo.env Demo.crm)
                      (lookup_start (Demo.by_name "Acme" Demo.template)
                         initial_world)))
              (JStr "42")
              (JObj {[ "name" := JStr "Acme Corp";
                       "btx_customer__" := JStr "CUST-9" ]})
              (JStr "Acme Corp"))
    as [rest H]; [vm_compute; reflexivity .. |].
  exists rest. rewrite H. vm_compute. reflexivity.
Defined.

(* ===================================================================== *)
(** ** The filename has no space *)
(* ===================================================================== *)

Lemma string_append_assoc (s1 s2 s3 : string) :
  ((s1 ++ s2) ++ s3 = s1 ++ s2 ++ s3)%string.
Proof.
  induction s1 as [ | c s1 IH]; [reflexivity |].
  change (String c ((s1 ++ s2) ++ s3) = String c (s1 ++ s2 ++ s3))%string.
  now rewrite IH.
Qed.

Lemma contains_space_app s1 s2 :
  contains_space (s1 ++ s2)%string
  = contains_space s1 || contains_space s2.
Proof.
  induction s1 as [ | c s1 IH]; [reflexivity |].
  simpl. now rewrite IH, orb_assoc.
Qed.

Lemma contains_space_underscores s :
  contains_space (spaces_to_underscores s) = false.
Proof.
  induction s as [ | c s IH]; [reflexivity |].
  simpl. rewrite IH, orb_false_r.
  destruct (Ascii.eqb c " ") eqn:Hc; [reflexivity | exact Hc].
Qed.

Lemma contains_space_digit n : contains_space (digit n) = false.
Proof.
  unfold digit.
  assert (Hd : 0 <= n mod 10 < 10) by (apply Z.mod_pos_bound; lia).
  assert (Hcases : n mod 10 = 0 \/ n mod 10 = 1 \/ n mod 10 = 2
                   \/ n mod 10 = 3 \/ n mod 10 = 4 \/ n mod 10 = 5
                   \/ n mod 10 = 6 \/ n mod 10 = 7 \/ n mod 10 = 8
                   \/ n mod 10 = 9) by lia.
  repeat (destruct Hcases as [-> | Hcases]; [reflexivity |]).
  now rewrite Hcases.
Qed.

Lemma contains_space_packet_file_name name d :
  contains_space (packet_file_name name d) = false.
Proof.
  unfold packet_file_name, yyyymmdd.
  rewrite !contains_space_app, contains_space_underscores,
    !contains_space_digit.
  reflexivity.
Qed.

(** The downloads of a run are packets of the company it found. *)
Lemma main_app_downloads inp E w :
  (forall n, calendar_date (now E n)) ->
  exists evs,
    ui (snd (main_app inp E w)) = ui w ++ evs
    /\ Forall (well_named (packet_of_found_company inp E)) evs.
Proof.
  intros Hdate.
  assert (Hbody : behaves E (packet_of_found_company inp E)
                    (fetch_and_generate inp)).
  { apply behaves_fetch_and_generate.
    intros company_data s n Hfound Hname. exists company_data, s, n.
    repeat split; auto. unfold packet_file_name.
    now rewrite py_replace_spaces, strftime_Ymd_yyyymmdd by apply Hdate. }
  destruct (generates inp) eqn:Hgen.
  - rewrite (main_app_generates _ Hgen). unfold try_except.
    destruct (fetch_and_generate inp E w) as [[[] | e] w1] eqn:Hrun;
      destruct (Hbody _ _ _ Hrun) as (evs & cs & Hu & _ & Hn & _).
    + now exists evs.
    + rewrite on_exception_run.
      exists (evs ++ exception_message inp E e). simpl.
      rewrite Hu, <- app_assoc. split; [reflexivity |].
      apply Forall_app. split; [exact Hn |].
      apply no_download_well_named, no_download_exception_message.
  - destruct (main_app_idle inp E w Hgen) as (evs & Hidle & Hd).
    rewrite Hidle. exists evs. split; [reflexivity |].
    now apply no_download_well_named.
Qed.

(** X25. The file a run offers for download has no space in its name,
    whatever the name of the company; the name starts with
    [BTX_Welcome_Packet_] and ends with [.pdf], and the file is offered as
    [application/pdf]. *)
Theorem download_filename_without_space
    inp E w label data file_name mime :
  (forall n, calendar_date (now E n)) ->
  no_download (ui w) ->
  In (st_download_button label data file_name mime)
     (ui (snd (main_app inp E w))) ->
  contains_space file_name = false
  /\ (exists middle,
        file_name = ("BTX_Welcome_Packet_" ++ middle ++ ".pdf")%string)
  /\ mime = "application/pdf"%string.
Proof.
  intros Hdate Hui Hin.
  destruct (main_app_downloads inp E w Hdate) as (evs & Hu & Hn).
  rewrite Hu in Hin. apply in_app_or in Hin as [Hin | Hin].
  - exfalso. unfold no_download in Hui.
    assert (Hex : existsb is_download (ui w) = true).
    { apply existsb_exists. eexists. split; [exact Hin | reflexivity]. }
    rewrite Hui in Hex. discriminate.
  - rewrite Forall_forall in Hn. apply list_elem_of_In in Hin.
    specialize (Hn _ Hin). simpl in Hn.
    destruct Hn as [(company_data & name & n & _ & _ & ->) ->].
    split; [apply contains_space_packet_file_name |].
    split; [| reflexivity].
    unfold packet_file_name.
    exists (spaces_to_underscores name ++ "_" ++ yyyymmdd (now E n))%string.
    f_equal. now rewrite !string_append_assoc.
Qed.

Lemma download_filename_without_space_witness :
  contains_space "BTX_Welcome_Packet_Acme_Corp_20250304.pdf" = false
  /\ (exists middle,
        "BTX_Welcome_Packet_Acme_Corp_20250304.pdf"%string
        = ("BTX_Welcome_Packet_" ++ middle ++ ".pdf")%string)
  /\ "application/pdf"%string = "application/pdf"%string.
Proof.
  apply (download_filename_without_space (Demo.by_id "42" Demo.template)
           (Demo.env Demo.crm) initial_world
           "⬇️ Download Welcome Packet"%string Demo.template
           "BTX_Welcome_Packet_Acme_Corp_20250304.pdf"%string
           "application/pdf"%string).
  - intros n. unfold calendar_date. simpl. lia.
  - reflexivity.
  - vm_compute. tauto.
Defined.

(* ===================================================================== *)
(** ** The clock of a run *)
(* ===================================================================== *)

Section Clock.

Variable E : Env.

Lemma clock_bind {A B} (m : M A) (k : A -> M B) :
  (forall w, clock_reads (snd (m E w)) = clock_reads w) ->
  (forall a w, clock_reads (snd (k a E w)) = clock_reads w) ->
  forall w, clock_reads (snd (bind m k E w)) = clock_reads w.
Proof.
  intros Hm Hk w. unfold bind. specialize (Hm w).
  destruct (m E w) as [[a | e] w1]; simpl in *; [now rewrite Hk | exact Hm].
Qed.

Lemma clock_requests_send rq w :
  clock_reads (snd (requests_send rq E w)) = clock_reads w.
Proof. unfold requests_send. now destruct (http E rq). Qed.

Lemma clock_raise_for_status r w :
  clock_reads (snd (raise_for_status r E w)) = clock_reads w.
Proof.
  unfold raise_for_status.
  now destruct ((400 <=? status_code r) && (status_code r <? 600)).
Qed.

Lemma clock_response_json r w :
  clock_reads (snd (response_json r E w)) = clock_reads w.
Proof. unfold response_json. now destruct (json_value r). Qed.

End Clock.

(** Walk through a block of the client, which never reads the clock. *)
Ltac timeless :=
  repeat first
    [ apply clock_requests_send | apply clock_raise_for_status
    | apply clock_response_json
    | intros ?; reflexivity
    | apply clock_bind; [| intros ?]
    | match goal with
      | |- forall w, clock_reads (snd ((if ?b then _ else _) _ w)) = _ =>
          destruct b
      end ].

Lemma clock_get_company_by_id self company_id E w :
  clock_reads (snd (get_company_by_id self company_id E w)) = clock_reads w.
Proof. revert w. unfold get_company_by_id. timeless. Qed.

Lemma clock_get_contact_by_id self contact_id E w :
  clock_reads (snd (get_contact_by_id self contact_id E w)) = clock_reads w.
Proof. revert w. unfold get_contact_by_id. timeless. Qed.

Lemma clock_search_company_by_name self company_name E w :
  clock_reads (snd (search_company_by_name self company_name E w))
  = clock_reads w.
Proof. revert w. unfold search_company_by_name. timeless. Qed.

Lemma clock_get_company_contacts self company_id E w :
  clock_reads (snd (get_company_contacts self company_id E w))
  = clock_reads w.
Proof.
  revert w. unfold get_company_contacts, get_contact_by_id. timeless.
Qed.

Lemma clock_company_lookup inp E w :
  clock_reads (snd (company_lookup inp E w)) = clock_reads w.
Proof.
  unfold company_lookup. destruct (search_method inp);
    [apply clock_search_company_by_name | apply clock_get_company_by_id].
Qed.

(* ===================================================================== *)
(** ** Runs that offer the packet *)
(* ===================================================================== *)

Lemma metric_inv label value E w w' :
  metric label value E w = (Ok tt, w') ->
  w' = add_ui (st_metric label value) w.
Proof. destruct value; simpl; intros H; now inversion H. Qed.

(** Lines 337-342 in one step. *)
Lemma announce_contact E contact w :
  (if truthy contact then
     contact_props <- lift (py_getitem contact "properties");;
     firstname <- lift (py_get contact_props "firstname" (JStr ""));;
     lastname <- lift (py_get contact_props "lastname" (JStr ""));;
     let contact_name :=
       py_strip (py_str E firstname ++ " " ++ py_str E lastname)%string in
     show (st_success ("✅ Found account team: " ++ contact_name)%string)
   else show (st_warning "⚠️ No contact associated with this company")) E w
  = match contact_announcement E contact with
    | Ok ev => (Ok tt, add_ui ev w)
    | Raise e => (Raise e, w)
    end.
Proof.
  unfold contact_announcement, bind, lift, show.
  destruct (truthy contact); [| reflexivity].
  destruct (py_getitem contact "properties") as [props | e]; [| reflexivity].
  destruct (py_get props "firstname" (JStr "")) as [first | e];
    [| reflexivity].
  destruct (py_get props "lastname" (JStr "")) as [last | e]; reflexivity.
Qed.

Lemma contact_announcement_quiet E contact ev :
  contact_announcement E contact = Ok ev ->
  is_download ev = false /\ is_error ev = false.
Proof.
  unfold contact_announcement.
  destruct (truthy contact); [| intros [= <-]; now split].
  destruct (py_getitem contact "properties") as [props | e];
    [| discriminate].
  destruct (py_get props "firstname" (JStr "")); [| discriminate].
  destruct (py_get props "lastname" (JStr "")); [| discriminate].
  intros [= <-]. now split.
Qed.


(** A [generate_packet] that runs to its end: what it has read, what it
    has filled, and what it shows. *)
Lemma generate_packet_returns inp client company_id company_data E w w' :
  generate_packet inp client company_id company_data E w = (Ok tt, w') ->
  exists name contact w2 announcement b pdf_output fv text1 text2 text3 text4,
    company_name_of company_data = Some name
    /\ get_company_contacts client company_id E
         (add_ui (st_info "🔍 Fetching account team information...")
            (add_ui (st_success ("✅ Found company: " ++ name)%string) w))
       = (Ok contact, w2)
    /\ contact_announcement E contact = Ok announcement
    /\ template_to_use inp = Ok b
    /\ fill_btx_welcome_packet b company_data contact E
         (add_ui (st_info "📝 Filling PDF form...") (add_ui announcement w2))
       = (Ok (pdf_output, fv),
          tick (add_ui (st_info "📝 Filling PDF form...")
                  (add_ui announcement w2)))
    /\ fv !! "Text1" = Some text1 /\ fv !! "Text2" = Some text2
    /\ fv !! "Text3" = Some text3 /\ fv !! "Text4" = Some text4
    /\ ui w'
       = ui w2 ++ shown_filled announcement text1 text2 text3 text4
                    pdf_output
                    (download_name name (now E (S (clock_reads w2))))
    /\ calls w' = calls w2
    /\ clock_reads w' = S (S (clock_reads w2)).
Proof.
  unfold generate_packet. intros H.
  apply bind_inv_ok in H as (E' & w0 & HE & H).
  inversion HE; subst E' w0; clear HE.
  apply bind_inv_ok in H as (props & w0 & Hprops & H).
  apply lift_inv in Hprops as [Hprops ->].
  apply bind_inv_ok in H as (company_name & w0 & Hname & H).
  apply lift_inv in Hname as [Hname ->].
  apply bind_inv_ok in H as ([] & w0 & Hs & H).
  inversion Hs; subst w0; clear Hs.
  apply bind_inv_ok in H as ([] & w0 & Hs & H).
  inversion Hs; subst w0; clear Hs.
  apply bind_inv_ok in H as (contact & w2 & Hcontact & H).
  apply bind_inv_ok in H as ([] & w3 & Hannounce & H).
  rewrite announce_contact in Hannounce.
  destruct (contact_announcement E contact) as [announcement | e] eqn:Hev;
    [| discriminate].
  injection Hannounce as <-.
  apply bind_inv_ok in H as ([] & w0 & Hs & H).
  inversion Hs; subst w0; clear Hs.
  apply bind_inv_ok in H as (b & w0 & Hb & H).
  apply lift_inv in Hb as [Hb ->].
  apply bind_inv_ok in H as ([pdf_output fv] & w4 & Hfill & H).
  pose proof (fill_fields _ _ _ _ _ _ _ _ Hfill)
    as (_ & _ & _ & _ & _ & _ & _ & _ & Hw4 & _).
  subst w4. cbv beta iota in H.
  apply bind_inv_ok in H as ([] & w0 & Hs & H).
  inversion Hs; subst w0; clear Hs.
  apply bind_inv_ok in H as (text1 & w0 & Ht1 & H).
  apply lift_inv in Ht1 as [Ht1 ->].
  apply bind_inv_ok in H as ([] & w0 & Hm & H).
  apply metric_inv in Hm as ->.
  apply bind_inv_ok in H as (text2 & w0 & Ht2 & H).
  apply lift_inv in Ht2 as [Ht2 ->].
  apply bind_inv_ok in H as ([] & w0 & Hm & H).
  apply metric_inv in Hm as ->.
  apply bind_inv_ok in H as (text3 & w0 & Ht3 & H).
  apply lift_inv in Ht3 as [Ht3 ->].
  apply bind_inv_ok in H as ([] & w0 & Hm & H).
  apply metric_inv in Hm as ->.
  apply bind_inv_ok in H as (text4 & w0 & Ht4 & H).
  apply lift_inv in Ht4 as [Ht4 ->].
  apply bind_inv_ok in H as ([] & w0 & Hm & H).
  apply metric_inv in Hm as ->.
  apply bind_inv_ok in H as (underscored & w0 & Hu & H).
  destruct company_name as [ | | | name | | ]; try discriminate.
  inversion Hu; subst underscored w0; clear Hu.
  apply bind_inv_ok in H as (today & w0 & Hn & H).
  inversion Hn; subst today w0; clear Hn.
  apply bind_inv_ok in H as ([] & w0 & Hs & H).
  inversion Hs; subst w0; clear Hs.
  apply bind_inv_ok in H as ([] & w0 & Hs & H).
  inversion Hs; subst w0; clear Hs.
  inversion H; subst w'; clear H.
  cbn [py_getitem] in Ht1, Ht2, Ht3, Ht4.
  destruct (fv !! "Text1") as [v1 | ] eqn:H1; [| discriminate].
  destruct (fv !! "Text2") as [v2 | ] eqn:H2; [| discriminate].
  destruct (fv !! "Text3") as [v3 | ] eqn:H3; [| discriminate].
  destruct (fv !! "Text4") as [v4 | ] eqn:H4; [| discriminate].
  injection Ht1 as ->. injection Ht2 as ->.
  injection Ht3 as ->. injection Ht4 as ->.
  exists name, contact, w2, announcement, b, pdf_output, fv,
    v1, v2, v3, v4.
  split; [apply (company_name_of_getitem _ props); now symmetry |].
  split; [exact Hcontact |].
  split; [exact Hev |].
  split; [now symmetry |].
  split; [exact Hfill |].
  split; [exact H1 |]. split; [exact H2 |].
  split; [exact H3 |]. split; [exact H4 |].
  unfold shown_filled, download_name.
  cbn [ui calls clock_reads add_ui tick].
  split; [now rewrite <- !app_assoc | split; reflexivity].
Qed.

Lemma In_download_no_download label data file_name mime evs :
  In (st_download_button label data file_name mime) evs ->
  no_download evs -> False.
Proof.
  intros Hin Hd. unfold no_download in Hd.
  assert (Hex : existsb is_download evs = true).
  { apply existsb_exists. eexists. split; [exact Hin | reflexivity]. }
  rewrite Hd in Hex. discriminate.
Qed.

Lemma ui_company_lookup inp E w r w1 :
  company_lookup inp E w = (r, w1) -> ui w1 = ui w.
Proof.
  unfold company_lookup. destruct (search_method inp); intros H.
  - eapply still_ui; [apply still_search_company_by_name | exact H].
  - eapply still_ui; [apply still_get_company_by_id | exact H].
Qed.

Lemma no_download_lookup_start inp w :
  no_download (ui w) -> no_download (ui (lookup_start inp w)).
Proof.
  unfold lookup_start. destruct (search_method inp); [| auto].
  intros Hw. cbn [ui add_ui]. now apply no_download_app.
Qed.

(** A [fetch_and_generate] that runs to its end has found no company by
    name, or has found one and generated its packet. *)
Lemma fetch_and_generate_returns inp E w w' :
  fetch_and_generate inp E w = (Ok tt, w') ->
  (exists company_data w1,
     company_lookup inp E (lookup_start inp w) = (Ok company_data, w1)
     /\ w' = add_events (no_company_found_message inp) w1)
  \/ (exists company_data w1 company_id,
        company_lookup inp E (lookup_start inp w) = (Ok company_data, w1)
        /\ company_id_of inp company_data = Ok company_id
        /\ generate_packet inp (HubSpotClient_init (in_api_key inp))
             company_id company_data E w1 = (Ok tt, w')).
Proof.
  unfold fetch_and_generate, company_lookup, lookup_start, company_id_of.
  destruct (search_method inp); intros H.
  - apply bind_inv_ok in H as ([] & w0 & Hs & H).
    inversion Hs; subst w0; clear Hs.
    apply bind_inv_ok in H as (company_data & w1 & Hsearch & H).
    destruct (negb (truthy company_data)).
    + left. exists company_data, w1. split; [exact Hsearch |].
      unfold bind, show in H. inversion H; subst w'.
      unfold add_events, no_company_found_message, add_ui. simpl.
      now rewrite <- app_assoc.
    + right. apply bind_inv_ok in H as (company_id & w0 & Hid & H).
      apply lift_inv in Hid as [Hid ->].
      exists company_data, w1, company_id. now split.
  - right. apply bind_inv_ok in H as (company_data & w1 & Hfetch & H).
    exists company_data, w1, (JStr (company_input inp)). now split.
Qed.

(** C7. The file a run offers for download is the packet of the company
    its lookup returned, named [BTX_Welcome_Packet_] followed by the name of
    that company with every space replaced by an underscore, an underscore,
    the day of the generation as YYYYMMDD, and [.pdf]. The day is the one
    the clock has when the filename is made: the second and last clock read
    of the run, the first being the filler's. Acme Corp on 2025-03-04
    gives [BTX_Welcome_Packet_Acme_Corp_20250304.pdf]. *)
Theorem C7_download_filename :
  (forall inp E w label data file_name mime,
     calendar_date (now E (S (clock_reads w))) ->
     no_download (ui w) ->
     In (st_download_button label data file_name mime)
        (ui (snd (main_app inp E w))) ->
     exists company_data w1 name,
       company_lookup inp E (lookup_start inp w) = (Ok company_data, w1)
       /\ company_name_of company_data = Some name
       /\ file_name
          = ("BTX_Welcome_Packet_" ++ spaces_to_underscores name ++ "_"
             ++ yyyymmdd (now E (S (clock_reads w))) ++ ".pdf")%string
       /\ clock_reads (snd (main_app inp E w)) = S (S (clock_reads w)))
  /\ packet_file_name "Acme Corp" {| year := 2025; mon := March; day := 4 |}
     = "BTX_Welcome_Packet_Acme_Corp_20250304.pdf"%string
  /\ In (st_download_button "⬇️ Download Welcome Packet" Demo.template
           "BTX_Welcome_Packet_Acme_Corp_20250304.pdf" "application/pdf")
        (ui (snd (main_app (Demo.by_id "42" Demo.template)
                    (Demo.env Demo.crm) initial_world))).
Proof.
  split; [| split; [reflexivity | vm_compute; tauto]].
  intros inp E w label data file_name mime Hdate Hui Hin.
  destruct (generates inp) eqn:Hgen.
  2:{ destruct (main_app_idle inp E w Hgen) as (evs & Hidle & Hd).
      rewrite Hidle in Hin. exfalso.
      apply (In_download_no_download _ _ _ _ _ Hin).
      now apply no_download_app. }
  rewrite (main_app_generates _ Hgen) in *. unfold try_except in *.
  destruct (fetch_and_generate inp E w) as [[[] | e] w'] eqn:Hbody.
  2:{ rewrite on_exception_run in Hin. exfalso.
      destruct (behaves_fetch_and_generate E (fun _ => True) inp
                  (fun _ _ _ _ _ => I) _ _ _ Hbody)
        as (evs & cs & Hu & _ & _ & Hd & _).
      apply (In_download_no_download _ _ _ _ _ Hin).
      cbn [snd ui add_events]. rewrite Hu, <- app_assoc.
      apply no_download_app; [exact Hui |].
      apply no_download_app; [apply Hd; discriminate |].
      apply no_download_exception_message. }
  cbn [snd] in *.
  apply fetch_and_generate_returns in Hbody
    as [(company_data & w1 & Hlookup & ->)
       | (company_data & w1 & company_id & Hlookup & Hid & Hrun)].
  { exfalso. apply (In_download_no_download _ _ _ _ _ Hin).
    cbn [ui add_events]. rewrite (ui_company_lookup _ _ _ _ _ Hlookup).
    apply no_download_app; [now apply no_download_lookup_start |].
    reflexivity. }
  pose proof (ui_company_lookup _ _ _ _ _ Hlookup) as Hui1.
  pose proof (clock_company_lookup inp E (lookup_start inp w)) as Hclock1.
  rewrite Hlookup in Hclock1. cbn [snd] in Hclock1.
  assert (Hstart : clock_reads (lookup_start inp w) = clock_reads w).
  { unfold lookup_start. now destruct (search_method inp). }
  apply generate_packet_returns in Hrun
    as (name & contact & w2 & announcement & b & pdf_output & fv
        & text1 & text2 & text3 & text4
        & Hname & Hcontact & Hev & _ & _ & _ & _ & _ & _ & Hshown & _
        & Hclock).
  pose proof (still_ui E _ _ _ _
                (still_get_company_contacts E _ company_id) Hcontact)
    as Hui2.
  pose proof (clock_get_company_contacts
                (HubSpotClient_init (in_api_key inp)) company_id E
                (add_ui (st_info "🔍 Fetching account team information...")
                   (add_ui (st_success ("✅ Found company: " ++ name)%string)
                      w1))) as Hclock2.
  rewrite Hcontact in Hclock2. cbn [snd clock_reads add_ui] in Hclock2.
  assert (Hreads : clock_reads w2 = clock_reads w) by congruence.
  rewrite Hreads in Hshown, Hclock.
  exists company_data, w1, name.
  split; [exact Hlookup |]. split; [exact Hname |].
  split; [| exact Hclock].
  rewrite Hshown in Hin. apply in_app_or in Hin as [Hin | Hin].
  { exfalso. apply (In_download_no_download _ _ _ _ _ Hin).
    rewrite Hui2. cbn [ui add_ui]. rewrite Hui1, <- app_assoc.
    apply no_download_app; [now apply no_download_lookup_start |].
    reflexivity. }
  unfold shown_filled in Hin. cbn [In] in Hin.
  destruct Hin as [Hin | Hin].
  { exfalso. subst announcement.
    apply contact_announcement_quiet in Hev as [Hev _]. discriminate. }
  repeat (destruct Hin as [Hin | Hin]; [try discriminate |]);
    [| destruct Hin].
  injection Hin as _ _ <- _. unfold download_name.
  now rewrite py_replace_spaces, strftime_Ymd_yyyymmdd by exact Hdate.
Qed.

Lemma C7_download_filename_witness :
  exists company_data w1 name,
    company_lookup (Demo.by_id "42" Demo.template) (Demo.env Demo.crm)
      (lookup_start (Demo.by_id "42" Demo.template) initial_world)
    = (Ok company_data, w1)
    /\ company_name_of company_data = Some name
    /\ "BTX_Welcome_Packet_Acme_Corp_20250304.pdf"%string
       = ("BTX_Welcome_Packet_" ++ spaces_to_underscores name ++ "_"
          ++ yyyymmdd (now (Demo.env Demo.crm) 1) ++ ".pdf")%string
    /\ clock_reads (snd (main_app (Demo.by_id "42" Demo.template)
                           (Demo.env Demo.crm) initial_world)) = 2%nat.
Proof.
  apply (proj1 C7_download_filename (Demo.by_id "42" Demo.template)
           (Demo.env Demo.crm) initial_world
           "⬇️ Download Welcome Packet"%string Demo.template
           "BTX_Welcome_Packet_Acme_Corp_20250304.pdf"%string
           "application/pdf"%string).
  - unfold calendar_date. simpl. lia.
  - reflexivity.
  - vm_compute. tauto.
Defined.

(* ===================================================================== *)
(** ** Runs with a template the filler cannot use *)
(* ===================================================================== *)




